(** * pullcord: row encoding and the history pull, verified against the Go code

    The development follows the two Go packages of the repository:

    - [logentry] (row encoder): [formatBool], [formatMessageType],
      [formatChannelType], [formatPermOverwriteType], [Type_], [Make];
    - [logpull] (orchestrator): [Pull], [pullGuild], [pullChannel].

    The Discord client library (discordgo) and the helper packages imported by
    [logpull] (logformat, logutil, cdndl) are not part of the sources; the
    client is an oracle ([discordgo.Session]) and the helpers are modelled from
    the specification, each marked as such. *)

From Stdlib Require Import ZArith String DecimalString DecimalZ List Lia.
From stdpp Require Import base strings list gmap sorting.

Open Scope Z_scope.
Open Scope string_scope.

(* ===================================================================== *)
(** ** Go runtime: results of calls that may panic                        *)
(* ===================================================================== *)

Inductive result (A : Type) : Type :=
| Ok (a : A)
| Panic (msg : string).
Arguments Ok {A} a.
Arguments Panic {A} msg.

(* ===================================================================== *)
(** ** strconv, strings, sort: the parts of the Go library the code calls *)
(* ===================================================================== *)

Module strconv.
(** [strconv.Itoa] and [strconv.FormatInt(_, 10)]: signed decimal. *)
Definition Itoa (n : Z) : string := NilZero.string_of_int (Z.to_int n).
Definition FormatInt10 (n : Z) : string := Itoa n.
End strconv.

Module strings.
(** [strings.Join]. *)
Definition Join (elems : list string) (sep : string) : string :=
  String.concat sep elems.
End strings.

Module sort.
(** [sort.StringSlice(x).Sort()]: the slice is reordered in place into
    ascending byte-wise order.  The function returns the slice's contents
    after the call. *)
Fixpoint insert (s : string) (l : list string) : list string :=
  match l with
  | [] => [s]
  | x :: l' => if String.leb s x then s :: l else x :: insert s l'
  end.

Fixpoint Sort (l : list string) : list string :=
  match l with
  | [] => []
  | x :: l' => insert x (Sort l')
  end.
End sort.

(* ===================================================================== *)
(** ** discordgo: the data types the code reads (fields used only)        *)
(* ===================================================================== *)

Module discordgo.

Record User := {
  User_ID : string;
  User_Username : string;
  User_Discriminator : string;
  User_Avatar : string
}.

Record Emoji := {
  Emoji_ID : string;
  Emoji_Name : string;
  Emoji_RequireColons : bool
}.

(** The [APIName] method of [Emoji]. *)
Definition APIName (e : Emoji) : string :=
  if negb (String.eqb (Emoji_ID e) "") && negb (String.eqb (Emoji_Name e) "")
  then Emoji_Name e ++ ":" ++ Emoji_ID e
  else if negb (String.eqb (Emoji_Name e) "") then Emoji_Name e
  else Emoji_ID e.

Record MessageReference := {
  MessageReference_MessageID : string;
  MessageReference_ChannelID : string;
  MessageReference_GuildID : string
}.

Record MessageAttachment := {
  MessageAttachment_ID : string;
  MessageAttachment_URL : string;
  MessageAttachment_Filename : string
}.

(** An embed is only ever serialised; it is represented by the JSON text
    [json.Marshal] yields for it. *)
Record MessageEmbed := { MessageEmbed_JSON : string }.

(** One element of [Message.Reactions]: an emoji and the reported count.
    [Emoji] is a pointer in Go; [None] is the nil pointer. *)
Record MessageReactions := {
  MessageReactions_Count : Z;
  MessageReactions_Emoji : option Emoji
}.

(** A single reaction of one user. *)
Record MessageReaction := {
  MessageReaction_UserID : string;
  MessageReaction_MessageID : string;
  MessageReaction_Emoji : Emoji;
  MessageReaction_ChannelID : string
}.

(** [MessageType], [ChannelType] and [PermissionOverwriteType] are Go
    integer types; the constants are discordgo's.  Go's [int] and [int64]
    are kept as [Z]: the values are only printed and compared, and the
    one subtraction of the code, [r.Count-100], is under [r.Count > 100]
    and cannot wrap. *)
Definition MessageTypeDefault := 0.
Definition MessageTypeRecipientAdd := 1.
Definition MessageTypeRecipientRemove := 2.
Definition MessageTypeCall := 3.
Definition MessageTypeChannelNameChange := 4.
Definition MessageTypeChannelIconChange := 5.
Definition MessageTypeChannelPinnedMessage := 6.
Definition MessageTypeGuildMemberJoin := 7.
Definition MessageTypeReply := 19.
Definition MessageTypeChatInputCommand := 20.

Definition ChannelTypeGuildText := 0.
Definition ChannelTypeDM := 1.
Definition ChannelTypeGuildVoice := 2.
Definition ChannelTypeGroupDM := 3.
Definition ChannelTypeGuildCategory := 4.
Definition ChannelTypeGuildNews := 5.
Definition ChannelTypeGuildStore := 6.

Definition PermissionOverwriteTypeRole := 0.
Definition PermissionOverwriteTypeMember := 1.

(** [Author], [EditedTimestamp] and [MessageReference] are pointers;
    [EditedTimestamp] is kept as the text its [String] method renders. *)
Record Message := {
  Message_ID : string;
  Message_Author : option User;
  Message_EditedTimestamp : option string;
  Message_TTS : bool;
  Message_Content : string;
  Message_WebhookID : string;
  Message_Type : Z;
  Message_MessageReference : option MessageReference;
  Message_Embeds : list MessageEmbed;
  Message_Attachments : list MessageAttachment;
  Message_Reactions : list MessageReactions
}.

Record PermissionOverwrite := {
  PermissionOverwrite_ID : string;
  PermissionOverwrite_Type : Z;
  PermissionOverwrite_Allow : Z;
  PermissionOverwrite_Deny : Z
}.

Record Channel := {
  Channel_ID : string;
  Channel_GuildID : string;
  Channel_Type : Z;
  Channel_Position : Z;
  Channel_Name : string;
  Channel_Topic : string;
  Channel_NSFW : bool;
  Channel_ParentID : string;
  Channel_Recipients : list User;
  Channel_Icon : string;
  Channel_PermissionOverwrites : list PermissionOverwrite
}.

Record Role := {
  Role_ID : string;
  Role_Name : string;
  Role_Color : Z;
  Role_Position : Z;
  Role_Permissions : Z;
  Role_Hoist : bool
}.

(** [Member.User] is a pointer; [None] is nil. *)
Record Member := {
  Member_User : option User;
  Member_Nick : string;
  Member_Roles : list string
}.

Record Guild := {
  Guild_ID : string;
  Guild_Name : string;
  Guild_Icon : string;
  Guild_Splash : string;
  Guild_OwnerID : string;
  Guild_AfkChannelID : string;
  Guild_AfkTimeout : Z;
  Guild_WidgetEnabled : bool;
  Guild_WidgetChannelID : string;
  Guild_Channels : list Channel;
  Guild_Roles : list Role;
  Guild_Emojis : list Emoji
}.

(** The client.  Every method returns Go's pair (value, err); [None] as
    error is [err == nil].  The first argument is the number of requests
    the session has served so far, so that an answer may change from one
    call to the next (a transient failure). *)
Record Session := {
  Session_Guild : nat -> string -> option Guild * option string;
  Session_GuildMembers :
    nat -> string -> string -> Z -> list Member * option string;
  Session_ChannelMessages :
    nat -> string -> Z -> string -> string -> string ->
    list Message * option string;
  Session_MessageReactions :
    nat -> string -> string -> string -> Z -> list User * option string
}.

End discordgo.

(* ===================================================================== *)
(** ** Package logentry: the row encoder                                  *)
(* ===================================================================== *)

Module logentry.
Import discordgo.

(** Column indices of a row: the [iota] block. *)
Definition HTime : nat := 0.
Definition HFetchType : nat := 1.
Definition HOp : nat := 2.
Definition HType : nat := 3.
Definition HID : nat := 4.

Record Attachment := {
  Attachment_MessageAttachment : MessageAttachment;
  Attachment_MessageID : string
}.

Record Reaction := {
  Reaction_MessageReaction : MessageReaction;
  Reaction_Count : Z
}.

Record Embed := {
  Embed_MessageEmbed : MessageEmbed;
  Embed_MessageID : string
}.

Definition idsFromUsers (users : list User) : list string :=
  map User_ID users.

Definition formatBool (name : string) (variable : bool) : string :=
  if variable then name else "".

(** Returns the rendered type and the lines handed to [log.Printf]. *)
Definition formatMessageType (t : Z) : string * list string :=
  if Z.eqb t MessageTypeDefault then ("", [])
  else if Z.eqb t MessageTypeRecipientAdd then ("recipient_add", [])
  else if Z.eqb t MessageTypeRecipientRemove then ("recipient_remove", [])
  else if Z.eqb t MessageTypeCall then ("call", [])
  else if Z.eqb t MessageTypeChannelNameChange then ("channel_name_change", [])
  else if Z.eqb t MessageTypeChannelIconChange then ("channel_icon_change", [])
  else if Z.eqb t MessageTypeChannelPinnedMessage
       then ("channel_pinned_message", [])
  else if Z.eqb t MessageTypeGuildMemberJoin then ("guild_member_join", [])
  else if Z.eqb t MessageTypeReply then ("reply", [])
  else if Z.eqb t MessageTypeChatInputCommand then ("application_command", [])
  else ("unknown-" ++ strconv.Itoa t,
        ["unsupported message type " ++ strconv.Itoa t]).

Definition formatChannelType (t : Z) : string :=
  if Z.eqb t ChannelTypeGuildText then "text"
  else if Z.eqb t ChannelTypeGuildVoice then "voice"
  else if Z.eqb t ChannelTypeGuildCategory then "category"
  else if Z.eqb t ChannelTypeDM then "dm"
  else if Z.eqb t ChannelTypeGroupDM then "groupdm"
  else if Z.eqb t ChannelTypeGuildNews then "news"
  else if Z.eqb t ChannelTypeGuildStore then "store"
  else "invalid".

(** The default case calls [log.Panicf]; the [return "invalid"] after it
    is never reached. *)
Definition formatPermOverwriteType (t : Z) : result string :=
  if Z.eqb t PermissionOverwriteTypeRole then Ok "role"
  else if Z.eqb t PermissionOverwriteTypeMember then Ok "member"
  else Panic ("unsupported permission overwrite type " ++ strconv.Itoa t).

(** [Timestamp]: the clock reading, already rendered with [timeFormat];
    [now] stands for [time.Now()]. *)
Definition Timestamp (now : string) : string := now.

(** The dynamic type of the [interface{}] argument of [Type_] and [Make].
    [EUnsupported] is a value of any other dynamic type. *)
Inductive Entity :=
| EMessage (v : Message)
| EAttachment (v : Attachment)
| EReaction (v : Reaction)
| EEmbed (v : Embed)
| EGuild (v : Guild)
| EMember (v : Member)
| ERole (v : Role)
| EChannel (v : Channel)
| EPermissionOverwrite (v : PermissionOverwrite)
| EEmoji (v : Emoji)
| EUnsupported.

(** [Type] (a reserved word here, hence the underscore). *)
Definition Type_ (v : Entity) : result string :=
  match v with
  | EMessage _ => Ok "message"
  | EAttachment _ => Ok "attachment"
  | EReaction _ => Ok "reaction"
  | EEmbed _ => Ok "embed"
  | EGuild _ => Ok "guild"
  | EMember _ => Ok "member"
  | ERole _ => Ok "role"
  | EChannel _ => Ok "channel"
  | EPermissionOverwrite _ => Ok "permoverwrite"
  | EEmoji _ => Ok "emoji"
  | EUnsupported => Panic "unsupported type"
  end.

(** What a call of [Make] that returns leaves behind: the row, the
    argument as it is after the call (it is passed by pointer), and the
    lines written to the process log. *)
Record Made := {
  made_row : list string;
  made_entity : Entity;
  made_log : list string
}.

(** The [switch] of [Make]: the entity-specific columns. *)
Definition fields (v : Entity) : result (list string * Entity * list string) :=
  match v with
  | EMessage m =>
      let ref :=
        match Message_MessageReference m with
        | Some r => [MessageReference_GuildID r;
                     MessageReference_ChannelID r;
                     MessageReference_MessageID r]
        | None => [""; ""; ""]
        end in
      let edited_time :=
        match Message_EditedTimestamp m with
        | None => ""
        | Some t => t
        end in
      match Message_Author m with
      | None => Panic "nil pointer dereference"
      | Some author =>
          let '(mtype, logged) := formatMessageType (Message_Type m) in
          let row := [
            Message_ID m;
            User_ID author;
            edited_time;
            formatBool "tts" (Message_TTS m);
            Message_Content m;
            formatBool "webhook" (negb (String.eqb (Message_WebhookID m) ""));
            User_Username author;
            User_Avatar author;
            mtype;
            nth 0 ref "";
            nth 1 ref "";
            nth 2 ref ""
          ] in
          let row :=
            if String.eqb (Message_WebhookID m) ""
            then <[7%nat := ""]> (<[6%nat := ""]> row)
            else row in
          Ok (row, v, logged)
      end
  | EAttachment a =>
      Ok ([MessageAttachment_ID (Attachment_MessageAttachment a);
           Attachment_MessageID a;
           MessageAttachment_Filename (Attachment_MessageAttachment a)],
          v, [])
  | EReaction r =>
      Ok ([MessageReaction_UserID (Reaction_MessageReaction r);
           MessageReaction_MessageID (Reaction_MessageReaction r);
           APIName (MessageReaction_Emoji (Reaction_MessageReaction r));
           strconv.Itoa (Reaction_Count r)],
          v, [])
  | EEmbed e =>
      Ok ([Embed_MessageID e; MessageEmbed_JSON (Embed_MessageEmbed e)],
          v, [])
  | EGuild g =>
      Ok ([Guild_ID g;
           Guild_Name g;
           Guild_Icon g;
           Guild_Splash g;
           Guild_OwnerID g;
           Guild_AfkChannelID g;
           strconv.Itoa (Guild_AfkTimeout g);
           formatBool "embeddable" (Guild_WidgetEnabled g);
           Guild_WidgetChannelID g],
          v, [])
  | EMember m =>
      let roles := sort.Sort (Member_Roles m) in
      match Member_User m with
      | None => Panic "nil pointer dereference"
      | Some u =>
          Ok ([User_ID u;
               User_Username u;
               User_Discriminator u;
               User_Avatar u;
               Member_Nick m;
               strings.Join roles ","],
              EMember {| Member_User := Member_User m;
                         Member_Nick := Member_Nick m;
                         Member_Roles := roles |},
              [])
      end
  | ERole r =>
      Ok ([Role_ID r;
           Role_Name r;
           strconv.Itoa (Role_Color r);
           strconv.Itoa (Role_Position r);
           strconv.FormatInt10 (Role_Permissions r);
           formatBool "hoist" (Role_Hoist r)],
          v, [])
  | EChannel c =>
      Ok ([Channel_ID c;
           formatChannelType (Channel_Type c);
           strconv.Itoa (Channel_Position c);
           Channel_Name c;
           Channel_Topic c;
           formatBool "nsfw" (Channel_NSFW c);
           Channel_ParentID c;
           strings.Join (idsFromUsers (Channel_Recipients c)) ",";
           Channel_Icon c],
          v, [])
  | EPermissionOverwrite o =>
      match formatPermOverwriteType (PermissionOverwrite_Type o) with
      | Panic msg => Panic msg
      | Ok otype =>
          Ok ([PermissionOverwrite_ID o;
               otype;
               strconv.FormatInt10 (PermissionOverwrite_Allow o);
               strconv.FormatInt10 (PermissionOverwrite_Deny o)],
              v, [])
      end
  | EEmoji e =>
      Ok ([Emoji_ID e;
           Emoji_Name e;
           formatBool "nocolons" (negb (Emoji_RequireColons e))],
          v, [])
  | EUnsupported => Panic "unsupported type"
  end.

(** [Make]: the [switch], then the four header columns in front. *)
Definition Make (now ftype op : string) (v : Entity) : result Made :=
  match fields v with
  | Panic msg => Panic msg
  | Ok (row, v', logged) =>
      match Type_ v with
      | Panic msg => Panic msg
      | Ok tag =>
          Ok {| made_row := ([Timestamp now; ftype; op; tag] ++ row)%list;
                made_entity := v';
                made_log := logged |}
      end
  end.

End logentry.

(* ===================================================================== *)
(** ** The process and its surroundings                                   *)
(* ===================================================================== *)

(** A log file is kept as its lines, a line as its tab-separated columns. *)
Definition Row := list string.

(** Requests sent through the session, with their arguments. *)
Inductive Request :=
| ReqGuild (guildID : string)
| ReqGuildMembers (guildID after : string) (limit : Z)
| ReqChannelMessages (channelID : string) (limit : Z)
                     (beforeID afterID aroundID : string)
| ReqMessageReactions (channelID messageID emojiID : string) (limit : Z).

(** What the process does that is visible from outside, oldest first. *)
Inductive Event :=
| EvRequest (r : Request)
| EvEquals (tag id : string) (entry : Row) (same : bool)
| EvWrite (name : string) (row : Row)
| EvDownload (kind locator : string)
| EvLog (line : string).

#[global] Instance Request_eq_dec : EqDecision Request.
Proof. solve_decision. Defined.
#[global] Instance Event_eq_dec : EqDecision Event.
Proof. solve_decision. Defined.

(** The machine the process runs on: the clock (the n-th reading of
    [time.Now], rendered), and which directory creations, file openings and
    media downloads fail. *)
Record Host := {
  Host_clock : nat -> string;
  Host_MkdirAll_fails : string -> bool;
  Host_OpenFile_fails : string -> bool;
  Host_download_fails : string -> string -> bool
}.

(** The state the code reads and changes: the log files, the write position
    (in lines) of the handle open on each file, the map behind the
    [fetchedGuilds] pointer, how often the clock was read and the session
    used, and the events so far. *)
Record World := {
  files : gmap string (list Row);
  offsets : gmap string nat;
  fetchedGuilds : gmap string bool;
  clock_reads : nat;
  requests : nat;
  trace : list Event
}.

Definition set_files (fs : gmap string (list Row)) (w : World) : World :=
  {| files := fs; offsets := offsets w; fetchedGuilds := fetchedGuilds w;
     clock_reads := clock_reads w; requests := requests w; trace := trace w |}.

Definition set_offsets (os : gmap string nat) (w : World) : World :=
  {| files := files w; offsets := os; fetchedGuilds := fetchedGuilds w;
     clock_reads := clock_reads w; requests := requests w; trace := trace w |}.

Definition set_fetchedGuilds (m : gmap string bool) (w : World) : World :=
  {| files := files w; offsets := offsets w; fetchedGuilds := m;
     clock_reads := clock_reads w; requests := requests w; trace := trace w |}.

Definition add_event (e : Event) (w : World) : World :=
  {| files := files w; offsets := offsets w;
     fetchedGuilds := fetchedGuilds w;
     clock_reads := clock_reads w; requests := requests w;
     trace := (trace w ++ [e])%list |}.

Definition count_request (w : World) : World :=
  {| files := files w; offsets := offsets w;
     fetchedGuilds := fetchedGuilds w;
     clock_reads := clock_reads w; requests := S (requests w);
     trace := trace w |}.

Definition count_clock_read (w : World) : World :=
  {| files := files w; offsets := offsets w;
     fetchedGuilds := fetchedGuilds w;
     clock_reads := S (clock_reads w); requests := requests w;
     trace := trace w |}.

(** How a computation ends: it returns, it panics (the process dies), or the
    step budget of a [for] loop without exit condition is used up.  Each
    carries the world reached. *)
Inductive outcome (A : Type) : Type :=
| Done (a : A) (w : World)
| Panicked (msg : string) (w : World)
| Exhausted (w : World).
Arguments Done {A} a w.
Arguments Panicked {A} msg w.
Arguments Exhausted {A} w.

Definition world_of {A} (o : outcome A) : World :=
  match o with
  | Done _ w => w
  | Panicked _ w => w
  | Exhausted w => w
  end.

Definition M (A : Type) : Type := World -> outcome A.

#[global] Instance M_ret : MRet M := fun A a w => Done a w.

#[global] Instance M_bind : MBind M := fun A B k c w =>
  match c w with
  | Done a w' => k a w'
  | Panicked msg w' => Panicked msg w'
  | Exhausted w' => Exhausted w'
  end.

Definition panic {A} (msg : string) : M A := fun w => Panicked msg w.
Definition exhausted {A} : M A := fun w => Exhausted w.
Definition emit (e : Event) : M unit := fun w => Done tt (add_event e w).
Definition log_Printf (line : string) : M unit := emit (EvLog line).

(** [for _, x := range xs { body x }]. *)
Fixpoint for_range {A} (xs : list A) (body : A -> M unit) : M unit :=
  match xs with
  | [] => mret tt
  | x :: xs' => body x ≫= fun _ => for_range xs' body
  end.

(** [for i := 0; i < n; i++ { body }] with a body that ignores [i]. *)
Fixpoint for_count (n : nat) (body : M unit) : M unit :=
  match n with
  | O => mret tt
  | S n' => body ≫= fun _ => for_count n' body
  end.

(** Dereferencing a pointer: nil panics. *)
Definition deref {A} (p : option A) : M A :=
  match p with
  | Some a => mret a
  | None => panic "invalid memory address or nil pointer dereference"
  end.

(* ===================================================================== *)
(** ** Package os: opening files                                          *)
(* ===================================================================== *)

Module os.
(** The open flags (Linux values, as in package syscall). *)
Definition O_RDONLY := 0.
Definition O_WRONLY := 1.
Definition O_RDWR := 2.
Definition O_CREATE := 64.
Definition O_EXCL := 128.
Definition O_TRUNC := 512.
Definition O_APPEND := 1024.

Definition has (flag bit : Z) : bool := negb (Z.eqb (Z.land flag bit) 0).

(** An open file: its name and the flags it was opened with. *)
Record File := {
  File_name : string;
  File_flag : Z
}.

(** [os.OpenFile]: creates the file when absent and [O_CREATE] is given,
    empties it when [O_TRUNC] is given; the handle's position starts
    at 0. *)
Definition OpenFile (host : Host) (name : string) (flag : Z)
  : M (option File * option string) := fun w =>
  let f := {| File_name := name; File_flag := flag |} in
  let w0 := set_offsets (<[name := 0%nat]> (offsets w)) w in
  if Host_OpenFile_fails host name then Done (None, Some "open failed") w
  else
    match files w !! name with
    | None =>
        if has flag O_CREATE
        then Done (Some f, None) (set_files (<[name := []]> (files w)) w0)
        else Done (None, Some "no such file or directory") w
    | Some _ =>
        if has flag O_TRUNC
        then Done (Some f, None) (set_files (<[name := []]> (files w)) w0)
        else Done (Some f, None) w0
    end.

(** Writing one line through a handle: at the end of the file in append
    mode, over the line at the handle's position otherwise; the position
    then moves on by one line. *)
Definition write_line (f : File) (row : Row) : M unit := fun w =>
  let old := default [] (files w !! File_name f) in
  let pos := default 0%nat (offsets w !! File_name f) in
  if has (File_flag f) O_APPEND
  then
    Done tt (set_offsets (<[File_name f := S (length old)]> (offsets w))
               (set_files (<[File_name f := (old ++ [row])%list]> (files w)) w))
  else
    Done tt (set_offsets (<[File_name f := S pos]> (offsets w))
               (set_files (<[File_name f :=
                               (take pos old ++ [row] ++ drop (S pos) old)%list]>
                             (files w)) w)).

(** [os.Stat]: [err == nil] exactly when the file exists. *)
Definition Stat (name : string) : M (option string) := fun w =>
  match files w !! name with
  | Some _ => Done None w
  | None => Done (Some "no such file or directory") w
  end.

Definition MkdirAll (host : Host) (dir : string) : M (option string) :=
  fun w =>
    if Host_MkdirAll_fails host dir
    then Done (Some "permission denied") w
    else Done None w.
End os.

(* ===================================================================== *)
(** ** Packages logformat, logutil, cdndl: modelled from the specification *)
(* ===================================================================== *)

Module logformat.
(** Modelled from the spec: [logformat.Write] is not in the sources.  It
    writes the row as one line through the handle it is given (the log
    writer of the specification, section 4.2). *)
Definition Write (f : os.File) (row : Row) : M unit :=
  emit (EvWrite (os.File_name f) row) ≫= fun _ => os.write_line f row.

(** The bytes of a file: each line's columns joined by tabs, then a
    newline. *)
Definition line (row : Row) : string :=
  String.concat (String (Ascii.ascii_of_nat 9) "") row
    ++ String (Ascii.ascii_of_nat 10) "".

Definition bytes (rows : list Row) : string :=
  String.concat "" (map line rows).
End logformat.

Module logutil.
(** [EntryCache]: entity type, then entity id, then the last known row. *)
Abbreviation EntryCache := (gmap string (gmap string Row)).

(** Go's [cache[tag][id]]: the nil slice when either key is absent. *)
Definition index (cache : EntryCache) (tag id : string) : Row :=
  default [] (cache !! tag ≫= fun m => m !! id).

(** The number of entity columns of each row type (the rows of
    [logentry.Make]). *)
Definition columns (tag : string) : option nat :=
  if String.eqb tag "message" then Some 12%nat
  else if String.eqb tag "attachment" then Some 3%nat
  else if String.eqb tag "reaction" then Some 4%nat
  else if String.eqb tag "embed" then Some 2%nat
  else if String.eqb tag "guild" then Some 9%nat
  else if String.eqb tag "member" then Some 6%nat
  else if String.eqb tag "role" then Some 6%nat
  else if String.eqb tag "channel" then Some 9%nat
  else if String.eqb tag "permoverwrite" then Some 4%nat
  else if String.eqb tag "emoji" then Some 3%nat
  else None.

(** Modelled from the spec: [logutil.Equals] is not in the sources.  The
    change detector of section 4.4: the cached field tuple against the
    entity columns of the fresh row, compared exactly; the time, fetch
    type, operation and type columns are not compared; an absent cache
    entry (the nil slice) differs from every row. *)
Definition Equals (cached entry : Row) : bool :=
  match cached with
  | [] => false
  | _ => bool_decide (cached = drop logentry.HID entry)
  end.

(** Modelled from the spec: one step of the replay of section 4.3.  The
    row's slot is overwritten with its field tuple (columns beyond the
    type's count are ignored); a row of unknown type or with too few
    columns is a structural error. *)
Definition replay_row (cache : EntryCache) (row : Row) : option EntryCache :=
  match columns (nth logentry.HType row "") with
  | None => None
  | Some n =>
      let tuple := take n (drop logentry.HID row) in
      if (length tuple <? n)%nat then None
      else
        let tag := nth logentry.HType row "" in
        Some (<[tag := <[nth logentry.HID row "" := tuple]>
                         (default ∅ (cache !! tag))]> cache)
  end.

Fixpoint replay (rows : list Row) (cache : EntryCache)
  : EntryCache * option string :=
  match rows with
  | [] => (cache, None)
  | row :: rows' =>
      match replay_row cache row with
      | None => (cache, Some "malformed log entry")
      | Some cache' => replay rows' cache'
      end
  end.

(** Modelled from the spec: [logutil.GuildCache] is not in the sources.
    It replays the file top to bottom into the cache it is handed (a
    pointer in Go, here the cache before and after). *)
Definition GuildCache (fpath : string) (cache : EntryCache)
  : M (EntryCache * option string) := fun w =>
  match files w !! fpath with
  | None => Done (cache, Some "no such file or directory") w
  | Some rows => Done (replay rows cache) w
  end.

(** The id of the last row of type message, if any. *)
Fixpoint last_message (rows : list Row) (found : option string)
  : option string :=
  match rows with
  | [] => found
  | row :: rows' =>
      if String.eqb (nth logentry.HType row "") "message"
      then last_message rows' (Some (nth logentry.HID row ""))
      else last_message rows' found
  end.

(** Modelled from the spec: [logutil.LastMessageID] is not in the sources.
    The resume cursor of section 4.5: the id of the last message row; an
    error when the file holds no message row. *)
Definition LastMessageID (fpath : string) : M (string * option string) :=
  fun w =>
    match files w !! fpath with
    | None => Done ("", Some "no such file or directory") w
    | Some rows =>
        match last_message rows None with
        | Some id => Done (id, None) w
        | None => Done ("", Some "no message found") w
        end
    end.
End logutil.

Module cdndl.
(** Modelled from the spec: the media downloader is not in the sources.
    A download is recorded; it touches no log file and may fail. *)
Definition download (host : Host) (kind locator : string)
  : M (option string) := fun w =>
  Done (if Host_download_fails host kind locator
        then Some "download failed" else None)
       (add_event (EvDownload kind locator) w).

Definition Icon (host : Host) (id icon : string) :=
  download host "icon" (id ++ "/" ++ icon).
Definition Splash (host : Host) (id splash : string) :=
  download host "splash" (id ++ "/" ++ splash).
Definition Emoji (host : Host) (id : string) := download host "emoji" id.
Definition Avatar (host : Host) (u : discordgo.User) :=
  download host "avatar"
    (discordgo.User_ID u ++ "/" ++ discordgo.User_Avatar u).
Definition Attachment (host : Host) (url : string) :=
  download host "attachment" url.
End cdndl.

(* ===================================================================== *)
(** ** Package logpull: the orchestrator                                  *)
(* ===================================================================== *)

Module logpull.
Import discordgo.

Section Run.
Variable host : Host.
Variable d : Session.

(** *** The session's methods, as calls of the process *)

Definition d_Guild (id : string) : M (option Guild * option string) :=
  fun w =>
    Done (Session_Guild d (requests w) id)
         (count_request (add_event (EvRequest (ReqGuild id)) w)).

Definition d_GuildMembers (id after : string) (limit : Z)
  : M (list Member * option string) := fun w =>
  Done (Session_GuildMembers d (requests w) id after limit)
       (count_request
          (add_event (EvRequest (ReqGuildMembers id after limit)) w)).

Definition d_ChannelMessages (id : string) (limit : Z)
           (beforeID afterID aroundID : string)
  : M (list Message * option string) := fun w =>
  Done (Session_ChannelMessages d (requests w) id limit
          beforeID afterID aroundID)
       (count_request
          (add_event
             (EvRequest
                (ReqChannelMessages id limit beforeID afterID aroundID))
             w)).

Definition d_MessageReactions (channelID messageID emojiID : string)
           (limit : Z) : M (list User * option string) := fun w =>
  Done (Session_MessageReactions d (requests w) channelID messageID
          emojiID limit)
       (count_request
          (add_event
             (EvRequest
                (ReqMessageReactions channelID messageID emojiID limit))
             w)).

(** *** The encoders called by the orchestrator *)

Definition time_Now : M string := fun w =>
  Done (Host_clock host (clock_reads w)) (count_clock_read w).

(** A call of [logentry.Make] by the process: the clock is read, the
    encoder's log lines are printed, a panic ends the process. *)
Definition call_Make (ftype op : string) (v : logentry.Entity) : M Row :=
  now ← time_Now;
  match logentry.Make now ftype op v with
  | Panic msg => panic msg
  | Ok made =>
      for_range (logentry.made_log made) log_Printf;;
      mret (logentry.made_row made)
  end.

(** Modelled from the spec: the per-entity entry points
    [logentry.Guild], [logentry.Channel], [logentry.PermOverwrite],
    [logentry.Role], [logentry.Emoji], [logentry.User],
    [logentry.Message], [logentry.Embed], [logentry.Attachment] and
    [logentry.Reaction] that [logpull] calls are not in the sources; the
    row encoder of the sources is [logentry.Make], and each entry point
    is taken to be [Make] at its entity type.  A reaction passed without
    a count gets the zero count.  (A member row then carries [Make]'s
    type column "member", while [pullGuild] looks members up under the
    cache key "user"; no statement below depends on the type column of
    member rows.) *)
Definition logentry_Guild (ftype op : string) (g : Guild) :=
  call_Make ftype op (logentry.EGuild g).
Definition logentry_Channel (ftype op : string) (c : Channel) :=
  call_Make ftype op (logentry.EChannel c).
Definition logentry_PermOverwrite (ftype op : string)
           (o : PermissionOverwrite) :=
  call_Make ftype op (logentry.EPermissionOverwrite o).
Definition logentry_Role (ftype op : string) (r : Role) :=
  call_Make ftype op (logentry.ERole r).
Definition logentry_Emoji (ftype op : string) (e : Emoji) :=
  call_Make ftype op (logentry.EEmoji e).
Definition logentry_User (ftype op : string) (m : Member) :=
  call_Make ftype op (logentry.EMember m).
Definition logentry_Message (ftype op : string) (m : Message) :=
  call_Make ftype op (logentry.EMessage m).
Definition logentry_Embed (ftype op messageID : string)
           (e : MessageEmbed) :=
  call_Make ftype op
    (logentry.EEmbed {| logentry.Embed_MessageEmbed := e;
                        logentry.Embed_MessageID := messageID |}).
Definition logentry_Attachment (ftype op messageID : string)
           (a : MessageAttachment) :=
  call_Make ftype op
    (logentry.EAttachment
       {| logentry.Attachment_MessageAttachment := a;
          logentry.Attachment_MessageID := messageID |}).
Definition logentry_Reaction (ftype op : string) (r : MessageReaction) :=
  call_Make ftype op
    (logentry.EReaction {| logentry.Reaction_MessageReaction := r;
                           logentry.Reaction_Count := 0 |}).

(** [logutil.Equals(cache[tag][id], entry)] as the process calls it. *)
Definition Equals (cache : logutil.EntryCache) (tag id : string)
           (entry : Row) : M bool :=
  let same := logutil.Equals (logutil.index cache tag id) entry in
  emit (EvEquals tag id entry same);; mret same.

(** The log flags of both [os.OpenFile] calls. *)
Definition log_flag : Z :=
  Z.lor (Z.lor os.O_CREATE os.O_WRONLY) os.O_APPEND.

(** *** pullGuild *)

(** The body of [for _, m := range members]; returns [after]. *)
Fixpoint pullGuild_member_range (f : os.File) (id : string)
         (cache : logutil.EntryCache) (members : list Member)
         (after : string) : M string :=
  match members with
  | [] => mret after
  | m :: rest =>
      u ← deref (Member_User m);
      let after := User_ID u in
      (if negb (String.eqb (User_Avatar u) "")
       then
         err ← cdndl.Avatar host u;
         match err with
         | Some e =>
             log_Printf ("[" ++ id ++ "] error downloading avatar for user "
                         ++ User_ID u ++ ": " ++ e)
         | None => mret tt
         end
       else mret tt);;
      uEntry ← logentry_User "history" "add" m;
      same ← Equals cache "user" (User_ID u) uEntry;
      (if negb same then logformat.Write f uEntry else mret tt);;
      pullGuild_member_range f id cache rest after
  end.

(** One round of the member loop after the request: [again] is the
    next round ([continue], or the end of the body). *)
Definition pullGuild_members_round (again : string -> M unit)
           (f : os.File) (id : string) (cache : logutil.EntryCache)
           (after : string) (members : list Member)
           (err : option string) : M unit :=
  match err with
  | Some e =>
      log_Printf ("[" ++ id ++ "] error getting members from "
                  ++ after ++ ": " ++ e);;
      (* continue *)
      again after
  | None =>
      if (length members =? 0)%nat then mret tt (* break *)
      else
        after ← pullGuild_member_range f id cache members after;
        (* members[len(members)-1].User.Username: the pointer was
           dereferenced in the loop already *)
        log_Printf ("[" ++ id ++ "] downloaded "
                    ++ strconv.Itoa (Z.of_nat (length members))
                    ++ " members, last id " ++ after ++ " with name "
                    ++ match last members ≫= Member_User with
                       | Some u => User_Username u
                       | None => ""
                       end);;
        again after
  end.

(** The member loop [for { ... }]; [fuel] bounds its iterations. *)
Fixpoint pullGuild_members (fuel : nat) (f : os.File) (id : string)
         (cache : logutil.EntryCache) (after : string) : M unit :=
  match fuel with
  | O => exhausted
  | S fuel' =>
      '(members, err) ← d_GuildMembers id after 1000;
      pullGuild_members_round (pullGuild_members fuel' f id cache)
        f id cache after members err
  end.

Definition pullGuild_overwrite (f : os.File) (cache : logutil.EntryCache)
           (o : PermissionOverwrite) : M unit :=
  oEntry ← logentry_PermOverwrite "history" "add" o;
  same ← Equals cache "permoverwrite" (PermissionOverwrite_ID o) oEntry;
  if negb same then logformat.Write f oEntry else mret tt.

Definition pullGuild_channel (f : os.File) (cache : logutil.EntryCache)
           (c : Channel) : M unit :=
  cEntry ← logentry_Channel "history" "add" c;
  same ← Equals cache "channel" (Channel_ID c) cEntry;
  (if negb same then logformat.Write f cEntry else mret tt);;
  for_range (Channel_PermissionOverwrites c) (pullGuild_overwrite f cache).

Definition pullGuild_role (f : os.File) (cache : logutil.EntryCache)
           (r : Role) : M unit :=
  rEntry ← logentry_Role "history" "add" r;
  same ← Equals cache "role" (Role_ID r) rEntry;
  if negb same then logformat.Write f rEntry else mret tt.

Definition pullGuild_emoji (f : os.File) (id : string)
           (cache : logutil.EntryCache) (e : Emoji) : M unit :=
  err ← cdndl.Emoji host (Emoji_ID e);
  match err with
  | Some er =>
      log_Printf ("[" ++ id ++ "] error downloading emoji "
                  ++ Emoji_ID e ++ ": " ++ er)
  | None => mret tt
  end;;
  eEntry ← logentry_Emoji "history" "add" e;
  same ← Equals cache "emoji" (Emoji_ID e) eEntry;
  if negb same then logformat.Write f eEntry else mret tt.

(** The [else] branch after [d.Guild]: media, then the guild row. *)
Definition pullGuild_guild (f : os.File) (id : string)
           (cache : logutil.EntryCache) (guild : option Guild) : M unit :=
  g ← deref guild;
  (if negb (String.eqb (Guild_Icon g) "")
   then
     err ← cdndl.Icon host id (Guild_Icon g);
     match err with
     | Some e =>
         log_Printf ("[" ++ id ++ "] error downloading the guild icon: " ++ e)
     | None => mret tt
     end
   else mret tt);;
  (if negb (String.eqb (Guild_Splash g) "")
   then
     err ← cdndl.Splash host id (Guild_Splash g);
     match err with
     | Some e =>
         log_Printf ("[" ++ id ++ "] error downloading the guild splash: "
                     ++ e)
     | None => mret tt
     end
   else mret tt);;
  gEntry ← logentry_Guild "history" "add" g;
  same ← Equals cache "guild" id gEntry;
  if negb same then logformat.Write f gEntry else mret tt.

(** What follows the [if]/[else] on the error of [d.Guild]: the four
    loops.  [guild.Channels] dereferences the pointer whatever the
    error was. *)
Definition pullGuild_loops (fuel : nat) (f : os.File) (id : string)
           (cache : logutil.EntryCache) (guild : option Guild) : M unit :=
  g ← deref guild;
  for_range (Guild_Channels g) (pullGuild_channel f cache);;
  for_range (Guild_Roles g) (pullGuild_role f cache);;
  for_range (Guild_Emojis g) (pullGuild_emoji f id cache);;
  pullGuild_members fuel f id cache "0".

Definition pullGuild (fuel : nat) (id : string)
           (cache : logutil.EntryCache) : M unit :=
  let filename := "channels/" ++ id ++ "/guild.tsv" in
  '(f, err) ← os.OpenFile host filename log_flag;
  match err, f with
  | Some e, _ =>
      log_Printf ("[" ++ id ++ "] error opening the log file: " ++ e)
  | None, None => panic "invalid memory address or nil pointer dereference"
  | None, Some f =>
      '(guild, err) ← d_Guild id;
      match err with
      | Some e =>
          log_Printf ("[" ++ id ++ "] error getting guild info: " ++ e)
      | None => pullGuild_guild f id cache guild
      end;;
      pullGuild_loops fuel f id cache guild
  end.

(** *** pullChannel *)

(** The body of [for _, r := range msgs[i].Reactions]. *)
Definition pullChannel_reaction (f : os.File) (gid id : string)
           (m : Message) (r : MessageReactions) : M unit :=
  emoji ← deref (MessageReactions_Emoji r);
  '(users, err) ← d_MessageReactions id (Message_ID m) (APIName emoji) 100;
  match err with
  | Some e =>
      log_Printf ("[" ++ gid ++ "/" ++ id
                  ++ "] error getting users for reaction "
                  ++ APIName emoji ++ " to " ++ Message_ID m ++ ": " ++ e)
  | None => mret tt
  end;;
  for_range users (fun u =>
    let reaction := {| MessageReaction_UserID := User_ID u;
                       MessageReaction_MessageID := Message_ID m;
                       MessageReaction_Emoji := emoji;
                       MessageReaction_ChannelID := id |} in
    row ← logentry_Reaction "history" "add" reaction;
    logformat.Write f row);;
  if MessageReactions_Count r >? 100
  then
    let reaction := {| MessageReaction_UserID := "";
                       MessageReaction_MessageID := Message_ID m;
                       MessageReaction_Emoji := emoji;
                       MessageReaction_ChannelID := id |} in
    for_count (Z.to_nat (MessageReactions_Count r - 100))
      (row ← logentry_Reaction "history" "add" reaction;
       logformat.Write f row)
  else mret tt.

(** The body of [for _, e := range msgs[i].Embeds]. *)
Definition pullChannel_embed (f : os.File) (m : Message)
           (e : MessageEmbed) : M unit :=
  row ← logentry_Embed "history" "add" (Message_ID m) e;
  logformat.Write f row.

(** The body of [for _, a := range msgs[i].Attachments]. *)
Definition pullChannel_attachment (f : os.File) (gid id : string)
           (m : Message) (a : MessageAttachment) : M unit :=
  log_Printf ("[" ++ gid ++ "/" ++ id ++ "] downloading attachment "
              ++ MessageAttachment_ID a);;
  err ← cdndl.Attachment host (MessageAttachment_URL a);
  match err with
  | Some e =>
      log_Printf ("[" ++ gid ++ "/" ++ id
                  ++ "] error downloading attachment "
                  ++ MessageAttachment_ID a ++ ": " ++ e)
  | None => mret tt
  end;;
  row ← logentry_Attachment "history" "add" (Message_ID m) a;
  logformat.Write f row.

(** The three inner loops of the body, after the message row. *)
Definition pullChannel_children (f : os.File) (gid id : string)
           (m : Message) : M unit :=
  for_range (Message_Embeds m) (pullChannel_embed f m);;
  for_range (Message_Attachments m) (pullChannel_attachment f gid id m);;
  for_range (Message_Reactions m) (pullChannel_reaction f gid id m).

(** The body of [for i := len(msgs) - 1; i >= 0; i--], at [msgs[i]]. *)
Definition pullChannel_message (f : os.File) (gid id : string)
           (m : Message) : M unit :=
  row ← logentry_Message "history" "add" m;
  logformat.Write f row;;
  pullChannel_children f gid id m.

(** The page loop [for { ... }]; [fuel] bounds its iterations. *)
Fixpoint pullChannel_pages (fuel : nat) (f : os.File) (gid id : string)
         (after : string) : M unit :=
  match fuel with
  | O => exhausted
  | S fuel' =>
      '(msgs, err) ← d_ChannelMessages id 100 "" after "";
      match err with
      | Some e =>
          log_Printf ("[" ++ gid ++ "/" ++ id
                      ++ "] error getting messages from " ++ after
                      ++ ": " ++ e)
      | None => mret tt
      end;;
      match msgs with
      | [] => mret tt (* break *)
      | msgs0 :: _ =>
          let after := Message_ID msgs0 in
          (* messages are retrieved in descending order *)
          for_range (rev msgs) (pullChannel_message f gid id);;
          log_Printf ("[" ++ gid ++ "/" ++ id ++ "] downloaded "
                      ++ strconv.Itoa (Z.of_nat (length msgs))
                      ++ " messages, last id " ++ Message_ID msgs0
                      ++ " with content " ++ Message_Content msgs0);;
          pullChannel_pages fuel' f gid id after
      end
  end.

Definition pullChannel (fuel : nat) (gid id after : string) : M unit :=
  let filename := "channels/" ++ gid ++ "/" ++ id ++ ".tsv" in
  '(f, err) ← os.OpenFile host filename log_flag;
  match err, f with
  | Some e, _ =>
      log_Printf ("[" ++ gid ++ "/" ++ id
                  ++ "] error opening the log file: " ++ e)
  | None, None => panic "invalid memory address or nil pointer dereference"
  | None, Some f => pullChannel_pages fuel f gid id after
  end.

(** *** Pull *)

Definition get_fetchedGuilds (gid : string) : M bool := fun w =>
  Done (default false (fetchedGuilds w !! gid)) w.

Definition put_fetchedGuilds (gid : string) (b : bool) : M unit :=
  fun w => Done tt (set_fetchedGuilds (<[gid := b]> (fetchedGuilds w)) w).

(** The block run when the guild is not yet in [fetchedGuilds], after
    the guild has been entered there; returns whether [Pull] goes on
    ([false]: it has returned). *)
Definition Pull_guild_sync (fuel : nat) (c : Channel) : M bool :=
  let guildFilename := "channels/" ++ Channel_GuildID c ++ "/guild.tsv" in
  let cache : logutil.EntryCache := ∅ in
  err ← os.Stat guildFilename;
  match err with
  | None =>
      '(cache, err) ← logutil.GuildCache guildFilename cache;
      match err with
      | Some e =>
          log_Printf ("[" ++ Channel_GuildID c
                      ++ "] error reconstructing guild state, skipping ("
                      ++ e ++ ")");;
          mret false
      | None => pullGuild fuel (Channel_GuildID c) cache;; mret true
      end
  | Some _ => pullGuild fuel (Channel_GuildID c) cache;; mret true
  end.

Definition Pull_guild (fuel : nat) (c : Channel) : M bool :=
  put_fetchedGuilds (Channel_GuildID c) true;;
  Pull_guild_sync fuel c.

(** The part of [Pull] after the guild block: the cursor, then the
    channel. *)
Definition Pull_channel (fuel : nat) (c : Channel) : M unit :=
  let last := "0" in
  let filename :=
    "channels/" ++ Channel_GuildID c ++ "/" ++ Channel_ID c ++ ".tsv" in
  err ← os.Stat filename;
  match err with
  | None =>
      '(last, err) ← logutil.LastMessageID filename;
      match err with
      | Some e =>
          log_Printf ("[" ++ Channel_GuildID c ++ "/" ++ Channel_ID c
                      ++ "] error getting last message id, skipping ("
                      ++ e ++ ")")
      | None =>
          pullChannel fuel (Channel_GuildID c) (Channel_ID c) last
      end
  | Some _ =>
      pullChannel fuel (Channel_GuildID c) (Channel_ID c) last
  end.

Definition Pull (fuel : nat) (c : Channel) : M unit :=
  (* path.Dir(filename) *)
  err ← os.MkdirAll host ("channels/" ++ Channel_GuildID c);
  match err with
  | Some _ =>
      log_Printf ("[" ++ Channel_GuildID c ++ "/" ++ Channel_ID c
                  ++ "] creating the guild dir failed")
  | None =>
      fetched ← get_fetchedGuilds (Channel_GuildID c);
      go_on ← (if negb fetched then Pull_guild fuel c else mret true);
      if negb go_on then mret tt (* return *)
      else Pull_channel fuel c
  end.

End Run.
End logpull.

(* ===================================================================== *)
(** ** Vocabulary of the properties                                       *)
(* ===================================================================== *)

(** The rows written to file [name] within a run of events, in order. *)
Definition writes_to (name : string) (evs : list Event) : list Row :=
  omap (fun e => match e with
                 | EvWrite n row => if String.eqb n name then Some row else None
                 | _ => None
                 end) evs.

(** All rows written within a run of events, whatever the file. *)
Definition writes (evs : list Event) : list Row :=
  omap (fun e => match e with EvWrite _ row => Some row | _ => None end) evs.

(** The requests within a run of events, in order. *)
Definition requests_of (evs : list Event) : list Request :=
  omap (fun e => match e with EvRequest r => Some r | _ => None end) evs.

(** The events a computation added: those of [w'] after those of [w]. *)
Definition new_events (w w' : World) : list Event :=
  drop (length (trace w)) (trace w').

(** The type and id columns of a row. *)
Definition row_type (row : Row) : string := nth logentry.HType row "".
Definition row_id (row : Row) : string := nth logentry.HID row "".

(** The ids of the message rows among [rows], in order. *)
Definition message_ids (rows : list Row) : list string :=
  map row_id (filter (fun row => row_type row = "message") rows).

(** [w'] is reached from [w] by appending to log files only: the events of
    [w'] extend those of [w]; every file of [w] still exists and consists of
    its old lines followed by the rows written to it since; a file that did
    not exist holds exactly the rows written to it; a guild entered in
    [fetchedGuilds] stays entered. *)
Record grows (w w' : World) : Prop := {
  grows_trace : exists evs, trace w' = (trace w ++ evs)%list;
  grows_files : forall name,
    default [] (files w' !! name)
    = (default [] (files w !! name) ++ writes_to name (new_events w w'))%list;
  grows_exists : forall name,
    is_Some (files w !! name) -> is_Some (files w' !! name);
  grows_fetched : forall g,
    fetchedGuilds w !! g = Some true -> fetchedGuilds w' !! g = Some true
}.

(** A computation keeps a relation between the world it starts in and the
    world it ends in, however it ends. *)
Definition respects {A} (R : World -> World -> Prop) (c : M A) : Prop :=
  forall w, R w (world_of (c w)).

(** The events a computation adds all satisfy [P]. *)
Definition adds (P : list Event -> Prop) (w w' : World) : Prop :=
  exists evs, trace w' = (trace w ++ evs)%list /\ P evs.



(** The values of the sub-enumerations that the encoder has a case for. *)
Definition known_message_type (t : Z) : bool :=
  bool_decide (t ∈ [0; 1; 2; 3; 4; 5; 6; 7; 19; 20]).
Definition known_channel_type (t : Z) : bool :=
  bool_decide (t ∈ [0; 1; 2; 3; 4; 5; 6]).
Definition known_overwrite_type (t : Z) : bool :=
  bool_decide (t ∈ [0; 1]).

(** A list of strings in ascending order. *)
Fixpoint ascending (l : list string) : Prop :=
  match l with
  | [] => True
  | x :: l' =>
      match l' with
      | [] => True
      | y :: _ => String.leb x y = true
      end /\ ascending l'
  end.

(** The member of a concrete run whose roles arrive unsorted. *)
Definition user_u1 : discordgo.User :=
  {| discordgo.User_ID := "u1"; discordgo.User_Username := "alice";
     discordgo.User_Discriminator := "0001"; discordgo.User_Avatar := "" |}.

Definition member_ba : discordgo.Member :=
  {| discordgo.Member_User := Some user_u1;
     discordgo.Member_Nick := "";
     discordgo.Member_Roles := ["b"; "a"] |}.

(** A plain message with the given id, type and webhook id. *)
Definition message_of (id : string) (type : Z) (webhook : string)
  : discordgo.Message :=
  {| discordgo.Message_ID := id;
     discordgo.Message_Author := Some user_u1;
     discordgo.Message_EditedTimestamp := None;
     discordgo.Message_TTS := false;
     discordgo.Message_Content := "hi";
     discordgo.Message_WebhookID := webhook;
     discordgo.Message_Type := type;
     discordgo.Message_MessageReference := None;
     discordgo.Message_Embeds := [];
     discordgo.Message_Attachments := [];
     discordgo.Message_Reactions := [] |}.

Definition channel_of (gid id : string) (type : Z)
           (overwrites : list discordgo.PermissionOverwrite)
  : discordgo.Channel :=
  {| discordgo.Channel_ID := id;
     discordgo.Channel_GuildID := gid;
     discordgo.Channel_Type := type;
     discordgo.Channel_Position := 0;
     discordgo.Channel_Name := "general";
     discordgo.Channel_Topic := "";
     discordgo.Channel_NSFW := false;
     discordgo.Channel_ParentID := "";
     discordgo.Channel_Recipients := [];
     discordgo.Channel_Icon := "";
     discordgo.Channel_PermissionOverwrites := overwrites |}.

Definition overwrite_of (id : string) (type allow : Z)
  : discordgo.PermissionOverwrite :=
  {| discordgo.PermissionOverwrite_ID := id;
     discordgo.PermissionOverwrite_Type := type;
     discordgo.PermissionOverwrite_Allow := allow;
     discordgo.PermissionOverwrite_Deny := 0 |}.



(** The events other than detector consultations and writes. *)
Definition background (e : Event) : bool :=
  match e with
  | EvRequest _ | EvDownload _ _ | EvLog _ => true
  | EvEquals _ _ _ _ | EvWrite _ _ => false
  end.

(** The detector consultation and the write it decides, as [pullGuild] has
    them after each encoding. *)
Definition write_if_changed (f : os.File) (cache : logutil.EntryCache)
           (tag id : string) (entry : Row) : M unit :=
  logpull.Equals cache tag id entry ≫= fun same =>
  if negb same then logformat.Write f entry else mret tt.

(* ===================================================================== *)
(** ** Concrete runs                                                      *)
(* ===================================================================== *)

(** A machine on which nothing fails; the n-th clock reading is "tn". *)
Definition host0 : Host :=
  {| Host_clock := fun n => "t" ++ strconv.Itoa (Z.of_nat n);
     Host_MkdirAll_fails := fun _ => false;
     Host_OpenFile_fails := fun _ => false;
     Host_download_fails := fun _ _ => false |}.

Definition world0 : World :=
  {| files := ∅; offsets := ∅; fetchedGuilds := ∅;
     clock_reads := 0; requests := 0; trace := [] |}.

(** A guild "G" with the given channels and nothing else. *)
Definition guild_of (channels : list discordgo.Channel) : discordgo.Guild :=
  {| discordgo.Guild_ID := "G";
     discordgo.Guild_Name := "guild";
     discordgo.Guild_Icon := "";
     discordgo.Guild_Splash := "";
     discordgo.Guild_OwnerID := "u1";
     discordgo.Guild_AfkChannelID := "";
     discordgo.Guild_AfkTimeout := 300;
     discordgo.Guild_WidgetEnabled := false;
     discordgo.Guild_WidgetChannelID := "";
     discordgo.Guild_Channels := channels;
     discordgo.Guild_Roles := [];
     discordgo.Guild_Emojis := [] |}.

(** A remote that does not change: the guild [g] without members, and one
    page of messages after the id [cursor], none after any other id;
    [users] react to every reaction asked about. *)
Definition session_of (g : discordgo.Guild) (cursor : string)
           (page : list discordgo.Message) (users : list discordgo.User)
  : discordgo.Session :=
  {| discordgo.Session_Guild := fun _ _ => (Some g, None);
     discordgo.Session_GuildMembers := fun _ _ _ _ => ([], None);
     discordgo.Session_ChannelMessages := fun _ _ _ _ afterID _ =>
       if String.eqb afterID cursor then (page, None) else ([], None);
     discordgo.Session_MessageReactions := fun _ _ _ _ _ => (users, None) |}.

(** The channel "C" of guild "G" and its log file. *)
Definition channel_C : discordgo.Channel := channel_of "G" "C" 0 [].
Definition file_C : string := "channels/G/C.tsv".
Definition file_G : string := "channels/G/guild.tsv".

(** The row of a message as encoded at clock reading [now]. *)
Definition message_row (now : string) (m : discordgo.Message) : Row :=
  match logentry.Make now "history" "add" (logentry.EMessage m) with
  | Ok made => logentry.made_row made
  | Panic _ => []
  end.

(** A world whose channel file holds the row of message 5 and nothing
    else. *)
Definition world_five : World :=
  {| files := {[ file_C := [message_row "t" (message_of "5" 0 "")] ]};
     offsets := ∅; fetchedGuilds := ∅;
     clock_reads := 0; requests := 0; trace := [] |}.

(** The entity types whose rows [pullGuild] passes through the detector,
    by the cache key the code uses. *)
Definition detected_tags : list string :=
  ["guild"; "channel"; "permoverwrite"; "role"; "emoji"; "user"].




(** Two channels of guild "G" that both carry a permission overwrite for
    the role "R", with different allow masks. *)
Definition channel_A : discordgo.Channel :=
  channel_of "G" "A" 0 [overwrite_of "R" 0 1].
Definition channel_B : discordgo.Channel :=
  channel_of "G" "B" 0 [overwrite_of "R" 0 2].
Definition guild_two : discordgo.Guild := guild_of [channel_A; channel_B].


(** A new process on the same machine: the files stay, the map behind
    [fetchedGuilds] is fresh. *)
Definition restart (w : World) : World := set_fetchedGuilds ∅ w.

(** A computation started in [w] returns, with a value and in a world that
    satisfy [Q]. *)
Definition total {A} (c : M A) (w : World) (Q : A -> World -> Prop) : Prop :=
  exists a w', c w = Done a w' /\ Q a w'.

(** A row is a reaction row for message [mid] and emoji name [ename]. *)
Definition reaction_row_for (mid ename : string) (row : Row) : Prop :=
  row_type row = "reaction" /\ nth 5 row "" = mid /\ nth 6 row "" = ename.




(** The events of the three inner loops of a message: writes to the channel
    file of rows that are not message rows, requests for reacting users,
    downloads and log lines. *)
Definition child_event (name : string) (e : Event) : Prop :=
  match e with
  | EvWrite n row => n = name /\ row_type row <> "message"
  | EvRequest (ReqMessageReactions _ _ _ _) => True
  | EvRequest _ => False
  | EvEquals _ _ _ _ => False
  | EvDownload _ _ | EvLog _ => True
  end.

(** A message whose author and reaction emojis are there (no nil
    pointer), as the messages of a decoded page are. *)
Definition message_ok (m : discordgo.Message) : bool :=
  bool_decide (is_Some (discordgo.Message_Author m))
  && forallb (fun r => bool_decide
                         (is_Some (discordgo.MessageReactions_Emoji r)))
       (discordgo.Message_Reactions m).

(** A computation returns from every world, adding only events in [E]. *)
Definition produces {A} (E : Event -> Prop) (c : M A) : Prop :=
  forall w, total c w (fun _ w' =>
    exists evs, trace w' = (trace w ++ evs)%list /\ Forall E evs).

(** The cursors ([afterID]) of the message pages requested within a run of
    events, in order. *)
Definition cursors (evs : list Event) : list string :=
  omap (fun e => match e with
                 | EvRequest (ReqChannelMessages _ _ _ afterID _) =>
                     Some afterID
                 | _ => None
                 end) evs.

(** The names of the log files, as [Pull], [pullGuild] and [pullChannel]
    format them. *)
Definition channel_file (gid id : string) : string :=
  "channels/" ++ gid ++ "/" ++ id ++ ".tsv".
Definition guild_file (gid : string) : string :=
  "channels/" ++ gid ++ "/guild.tsv".





(* ===================================================================== *)
(** ** Vocabulary of the further properties                               *)
(* ===================================================================== *)


(** A member with the same user and nickname and the given role ids. *)
Definition with_roles (m : discordgo.Member) (roles : list string)
  : discordgo.Member :=
  {| discordgo.Member_User := discordgo.Member_User m;
     discordgo.Member_Nick := discordgo.Member_Nick m;
     discordgo.Member_Roles := roles |}.

(** What a part of the program may do that is visible from outside: the
    requests it may send, the kinds of media it may download, the files it
    may write to and the cache keys under which it may consult the change
    detector.  Log lines are always allowed. *)
Record Alphabet := {
  ok_request : Request -> Prop;
  ok_download : string -> Prop;
  ok_file : string -> Prop;
  ok_tag : string -> Prop
}.

Definition within (A : Alphabet) (e : Event) : Prop :=
  match e with
  | EvRequest r => ok_request A r
  | EvDownload kind _ => ok_download A kind
  | EvWrite name _ => ok_file A name
  | EvEquals tag _ _ _ => ok_tag A tag
  | EvLog _ => True
  end.

(** What [pullChannel] does for the channel [id] of the guild [gid]:
    requests for pages of at most 100 messages of that channel after some
    id, and for at most 100 users of a reaction in that channel; downloads
    of attachments; writes to the channel's file; no consultation. *)
Definition channel_alphabet (gid id : string) : Alphabet :=
  {| ok_request := fun r =>
       match r with
       | ReqChannelMessages c limit beforeID _ aroundID =>
           c = id /\ limit = 100 /\ beforeID = "" /\ aroundID = ""
       | ReqMessageReactions c _ _ limit => c = id /\ limit = 100
       | _ => False
       end;
     ok_download := fun kind => kind = "attachment";
     ok_file := fun name => name = channel_file gid id;
     ok_tag := fun _ => False |}.

(** What [pullGuild] does for the guild [id]: the request for the guild
    and requests for at most 1000 of its members after some id; downloads
    of icons, splashes, emoji and avatars; writes to the guild's file;
    consultations under the six guild-side keys. *)
Definition guild_alphabet (id : string) : Alphabet :=
  {| ok_request := fun r =>
       match r with
       | ReqGuild g => g = id
       | ReqGuildMembers g _ limit => g = id /\ limit = 1000
       | _ => False
       end;
     ok_download := fun kind => In kind ["icon"; "splash"; "emoji"; "avatar"];
     ok_file := fun name => name = guild_file id;
     ok_tag := fun tag => In tag detected_tags |}.

(** What either of two parts may do. *)
Definition either (A B : Alphabet) : Alphabet :=
  {| ok_request := fun r => ok_request A r \/ ok_request B r;
     ok_download := fun kind => ok_download A kind \/ ok_download B kind;
     ok_file := fun name => ok_file A name \/ ok_file B name;
     ok_tag := fun tag => ok_tag A tag \/ ok_tag B tag |}.

(** [w'] is reached from [w] within [A]: every event added is allowed by
    [A], and every file that [A] does not allow writing to is as it was
    (absent, or present with the same lines). *)
Definition stays_within (A : Alphabet) (w w' : World) : Prop :=
  adds (Forall (within A)) w w'
  /\ forall name, ~ ok_file A name -> files w' !! name = files w !! name.

(** A machine on which no directory can be created, and one on which no
    file can be opened. *)
Definition host_nodir : Host :=
  {| Host_clock := Host_clock host0;
     Host_MkdirAll_fails := fun _ => true;
     Host_OpenFile_fails := fun _ => false;
     Host_download_fails := fun _ _ => false |}.

Definition host_readonly : Host :=
  {| Host_clock := Host_clock host0;
     Host_MkdirAll_fails := fun _ => false;
     Host_OpenFile_fails := fun _ => true;
     Host_download_fails := fun _ _ => false |}.

(** The world of [world_five] later in the same run: the guild "G" is
    already entered in [fetchedGuilds]. *)
Definition world_resumed : World :=
  set_fetchedGuilds {[ "G" := true ]} world_five.

(** An event other than a request. *)
Definition no_request (e : Event) : Prop :=
  match e with EvRequest _ => False | _ => True end.

(** The id of the last member of a page, the cursor [pullGuild] goes on
    with; [after] when the page is empty. *)
Definition member_cursor (members : list discordgo.Member) (after : string)
  : string :=
  match last members ≫= discordgo.Member_User with
  | Some u => discordgo.User_ID u
  | None => after
  end.

(** A page of two members, "u1" and then "u2". *)
Definition member_u2 : discordgo.Member :=
  {| discordgo.Member_User :=
       Some {| discordgo.User_ID := "u2"; discordgo.User_Username := "bob";
               discordgo.User_Discriminator := "0002";
               discordgo.User_Avatar := "av" |};
     discordgo.Member_Nick := "";
     discordgo.Member_Roles := [] |}.

(** A remote whose guild has the members "u1" and "u2", served in one
    page after "0". *)
Definition session_members : discordgo.Session :=
  {| discordgo.Session_Guild := fun _ _ => (Some (guild_of []), None);
     discordgo.Session_GuildMembers := fun _ _ after _ =>
       if String.eqb after "0" then ([member_ba; member_u2], None)
       else ([], None);
     discordgo.Session_ChannelMessages := fun _ _ _ _ _ _ => ([], None);
     discordgo.Session_MessageReactions := fun _ _ _ _ _ => ([], None) |}.

(** The handle [pullGuild] holds on the file of guild "G". *)
Definition handle_G : os.File :=
  {| os.File_name := file_G; os.File_flag := logpull.log_flag |}.


(* ===================================================================== *)
(** ** Package main: the listing command                                  *)
(* ===================================================================== *)

Module main.
Import discordgo.

(** A guild as [UserGuilds] returns it. *)
Record UserGuild := {
  UserGuild_ID : string;
  UserGuild_Name : string
}.

(** The two methods of the session that [list] calls.  An answer may
    depend on how many calls the process has made before. *)
Record Session := {
  Session_UserGuilds :
    nat -> Z -> string -> string -> list UserGuild * option string;
  Session_GuildChannels : nat -> string -> list Channel * option string
}.

(** [flag.Arg(0)] and the flag [-s]. *)
Record Flags := {
  Arg0 : string;
  summary : bool
}.

Inductive Call :=
| CallUserGuilds (limit : Z) (beforeID afterID : string)
| CallGuildChannels (guildID : string).

(** What the process has done so far: the calls of the session, the
    lines printed to the standard output and those logged to the
    standard error, oldest first. *)
Record Process := {
  calls : list Call;
  stdout : list string;
  stderr : list string
}.

(** How a part of the command ends: it goes on with a value, the process
    exits with a status, or the bound on the iterations of [for { }] is
    reached. *)
Inductive run (A : Type) :=
| Go (a : A) (p : Process)
| Stop (code : Z) (p : Process)
| Spent (p : Process).
Arguments Go {A} a p.
Arguments Stop {A} code p.
Arguments Spent {A} p.

Definition L (A : Type) : Type := Process -> run A.

Definition ret {A} (a : A) : L A := fun p => Go a p.
Definition bind {A B} (c : L A) (k : A -> L B) : L B := fun p =>
  match c p with
  | Go a p' => k a p'
  | Stop code p' => Stop code p'
  | Spent p' => Spent p'
  end.
Definition spent {A} : L A := fun p => Spent p.

Definition d_UserGuilds (d : Session) (limit : Z)
           (beforeID afterID : string)
  : L (list UserGuild * option string) := fun p =>
  Go (Session_UserGuilds d (length (calls p)) limit beforeID afterID)
     {| calls := (calls p ++ [CallUserGuilds limit beforeID afterID])%list;
        stdout := stdout p; stderr := stderr p |}.

Definition d_GuildChannels (d : Session) (guildID : string)
  : L (list Channel * option string) := fun p =>
  Go (Session_GuildChannels d (length (calls p)) guildID)
     {| calls := (calls p ++ [CallGuildChannels guildID])%list;
        stdout := stdout p; stderr := stderr p |}.

(** [fmt.Println]: the operands separated by spaces, as one line. *)
Definition fmt_Println (operands : list string) : L unit := fun p =>
  Go tt {| calls := calls p;
           stdout := (stdout p ++ [strings.Join operands " "])%list;
           stderr := stderr p |}.

Definition os_Exit {A} (code : Z) : L A := fun p => Stop code p.

(** [log.Fatal] and [log.Fatalf]: the message is logged, then
    [os.Exit(1)]. *)
Definition log_Fatal {A} (msg : string) : L A := fun p =>
  Stop 1 {| calls := calls p; stdout := stdout p;
            stderr := (stderr p ++ [msg])%list |}.

(** [for _, x := range xs { body x }]. *)
Fixpoint for_range {A} (xs : list A) (body : A -> L unit) : L unit :=
  match xs with
  | [] => ret tt
  | x :: xs' => bind (body x) (fun _ => for_range xs' body)
  end.

(** The body of [for _, i := range gch]. *)
Definition list_channel (i : Channel) : L unit :=
  let symbol :=
    if Z.eqb (Channel_Type i) ChannelTypeGuildText then "#"
    else if Z.eqb (Channel_Type i) ChannelTypeGuildVoice then "🔊 "
    else "(?) " in
  fmt_Println [String (Ascii.ascii_of_nat 9) ""; Channel_ID i;
               symbol ++ Channel_Name i].

(** [for _, i := range guilds { ... }]; returns [gid]. *)
Fixpoint list_guilds (flags : Flags) (d : Session)
         (guilds : list UserGuild) (gid : string) : L string :=
  match guilds with
  | [] => ret gid
  | i :: rest =>
      let gid := UserGuild_ID i in
      if negb (String.eqb (Arg0 flags) "")
         && negb (String.eqb gid (Arg0 flags))
      then list_guilds flags d rest gid (* continue *)
      else
        bind (fmt_Println [gid; UserGuild_Name i]) (fun _ =>
        if summary flags then list_guilds flags d rest gid (* continue *)
        else
          bind (d_GuildChannels d gid) (fun '(gch, err) =>
          match err with
          | Some e =>
              log_Fatal ("error getting channels for " ++ gid ++ ": " ++ e)
          | None =>
              bind (for_range gch list_channel) (fun _ =>
              list_guilds flags d rest gid)
          end))
  end.

(** The loop [for { ... }]; [fuel] bounds its iterations. *)
Fixpoint list_pages (fuel : nat) (flags : Flags) (d : Session)
         (gid : string) : L unit :=
  match fuel with
  | O => spent
  | S fuel' =>
      bind (d_UserGuilds d 100 "" gid) (fun '(guilds, err) =>
      match err with
      | Some e => log_Fatal ("error getting guilds:" ++ e)
      | None =>
          if (length guilds =? 0)%nat then ret tt (* break *)
          else
            bind (list_guilds flags d guilds gid) (fun gid =>
            list_pages fuel' flags d gid)
      end)
  end.

(** [list]: both ways out of the loop end in [os.Exit(0)]. *)
Definition list (fuel : nat) (flags : Flags) (d : Session) : L unit :=
  let gid := "" in
  bind (list_pages fuel flags d gid) (fun _ => os_Exit 0).
End main.

(** The process at the end of a part of the listing command. *)
Definition process_of {A} (r : main.run A) : main.Process :=
  match r with
  | main.Go _ p => p
  | main.Stop _ p => p
  | main.Spent p => p
  end.

(** The calls made between [p] and [p']. *)
Definition new_calls (p p' : main.Process) : list main.Call :=
  drop (length (main.calls p)) (main.calls p').

(** A guild passes the filter of the command line: no argument is given,
    or the argument is the guild's id. *)
Definition passes (flags : main.Flags) (gid : string) : bool :=
  String.eqb (main.Arg0 flags) "" || String.eqb gid (main.Arg0 flags).

(** The calls [list] may make: pages of at most 100 guilds after some id,
    and, unless the summary is asked for, the channels of a guild that
    passes the filter. *)
Definition allowed_call (flags : main.Flags) (c : main.Call) : Prop :=
  match c with
  | main.CallUserGuilds limit beforeID _ => limit = 100 /\ beforeID = ""
  | main.CallGuildChannels gid =>
      main.summary flags = false /\ passes flags gid = true
  end.

(** [p'] is reached from [p] without a fatal error: allowed calls were
    made, lines were printed, nothing was logged. *)
Definition proceeds (flags : main.Flags) (p p' : main.Process) : Prop :=
  (exists cs, main.calls p' = (main.calls p ++ cs)%list
              /\ Forall (allowed_call flags) cs)
  /\ (exists lines, main.stdout p' = (main.stdout p ++ lines)%list)
  /\ main.stderr p' = main.stderr p.

(** The process after [log.Fatal]'s message. *)
Definition logged (msg : string) (p : main.Process) : main.Process :=
  {| main.calls := main.calls p; main.stdout := main.stdout p;
     main.stderr := (main.stderr p ++ [msg])%list |}.

(** How a part of the listing command may end: going on, or out of fuel,
    without a fatal error; with the status 0 without a fatal error; or
    with the status 1 after exactly one logged message. *)
Definition ends_well {A} (flags : main.Flags) (p : main.Process)
           (r : main.run A) : Prop :=
  match r with
  | main.Go _ p' | main.Spent p' => proceeds flags p p'
  | main.Stop code p' =>
      exists q, proceeds flags p q
                /\ ((code = 0 /\ p' = q)
                    \/ (code = 1 /\ exists msg, p' = logged msg q))
  end.

Definition behaves {A} (flags : main.Flags) (c : main.L A) : Prop :=
  forall p, ends_well flags p (c p).

(** The line [list] prints for a guild. *)
Definition guild_line (g : main.UserGuild) : string :=
  main.UserGuild_ID g ++ " " ++ main.UserGuild_Name g.

(** The id of the last guild of a page; [gid] when the page is empty. *)
Definition guild_cursor (guilds : list main.UserGuild) (gid : string)
  : string :=
  match last guilds with
  | Some g => main.UserGuild_ID g
  | None => gid
  end.

Definition is_channels_call (c : main.Call) : Prop :=
  match c with main.CallGuildChannels _ => True | _ => False end.

(** A process that has done nothing yet, two guilds, and a remote that
    serves them in one page and whose channels it cannot list. *)
Definition process0 : main.Process :=
  {| main.calls := []; main.stdout := []; main.stderr := [] |}.

Definition guild_g1 : main.UserGuild :=
  {| main.UserGuild_ID := "g1"; main.UserGuild_Name := "one" |}.
Definition guild_g2 : main.UserGuild :=
  {| main.UserGuild_ID := "g2"; main.UserGuild_Name := "two" |}.

Definition remote_two : main.Session :=
  {| main.Session_UserGuilds := fun _ _ _ after =>
       if String.eqb after "" then ([guild_g1; guild_g2], None)
       else ([], None);
     main.Session_GuildChannels := fun _ gid =>
       ([channel_of gid "c1" 0 []; channel_of gid "c2" 2 []], None) |}.

Definition remote_failing : main.Session :=
  {| main.Session_UserGuilds := fun _ _ _ _ =>
       ([guild_g1], Some "unauthorized");
     main.Session_GuildChannels := fun _ _ => ([], None) |}.

(** The line [list] prints for a channel: a tab, the id and the name, the
    name preceded by "#" for a text channel, by a loudspeaker for a voice
    channel and by "(?) " for any other. *)
Definition channel_line (c : discordgo.Channel) : string :=
  String (Ascii.ascii_of_nat 9) ""
  ++ " " ++ discordgo.Channel_ID c ++ " "
  ++ (if Z.eqb (discordgo.Channel_Type c) 0 then "#"
      else if Z.eqb (discordgo.Channel_Type c) 2 then "🔊 "
      else "(?) ")
  ++ discordgo.Channel_Name c.

(** The guilds of a page that pass the filter, in the page's order. *)
Definition shown (flags : main.Flags) (guilds : list main.UserGuild)
  : list main.UserGuild :=
  List.filter (fun g => passes flags (main.UserGuild_ID g)) guilds.

(** The consultations of the change detector within a run of events, in
    order: the cache key and the id asked about. *)
Definition consulted (evs : list Event) : list (string * string) :=
  omap (fun e => match e with
                 | EvEquals tag id _ _ => Some (tag, id)
                 | _ => None
                 end) evs.

(** A computation returns from every world, having consulted the change
    detector about exactly [keys], in that order. *)
Definition says {A} (keys : list (string * string)) (c : M A) : Prop :=
  forall w, total c w (fun _ w' =>
    exists evs, trace w' = (trace w ++ evs)%list /\ consulted evs = keys).

(** The consultations [pullGuild] makes for the guild [g] fetched under
    the id [id], before it turns to the members. *)
Definition guild_keys (id : string) (g : discordgo.Guild)
  : list (string * string) :=
  (("guild", id)
   :: flat_map
        (fun c =>
           ("channel", discordgo.Channel_ID c)
           :: map (fun o => ("permoverwrite",
                             discordgo.PermissionOverwrite_ID o))
                (discordgo.Channel_PermissionOverwrites c))
        (discordgo.Guild_Channels g)
   ++ map (fun r => ("role", discordgo.Role_ID r)) (discordgo.Guild_Roles g)
   ++ map (fun e => ("emoji", discordgo.Emoji_ID e))
        (discordgo.Guild_Emojis g))%list.

(** Every permission overwrite of every channel of the guild has a type
    that the encoder knows. *)
Definition overwrites_known (g : discordgo.Guild) : bool :=
  forallb (fun c =>
             forallb (fun o => known_overwrite_type
                                 (discordgo.PermissionOverwrite_Type o))
               (discordgo.Channel_PermissionOverwrites c))
    (discordgo.Guild_Channels g).

(** A world whose guild file holds a line that is no log entry. *)
Definition world_corrupt : World :=
  {| files := {[ file_G := [["not a log entry"]] ]};
     offsets := ∅; fetchedGuilds := ∅;
     clock_reads := 0; requests := 0; trace := [] |}.

(* ===================================================================== *)
(** ** The row encoder                                                    *)
(* ===================================================================== *)

Section Encoder.
Import discordgo logentry.

Lemma insert_ascending s l : ascending l -> ascending (sort.insert s l).
Proof.
  induction l as [|x l IH]; simpl; [tauto|].
  intros [Hx Hl]. destruct (String.leb s x) eqn:Hsx; simpl.
  - split; [exact Hsx|]. split; assumption.
  - assert (Hxs : String.leb x s = true)
      by (destruct (String.leb_total s x) as [H|H]; congruence).
    split; [|apply IH, Hl].
    destruct l as [|y l]; simpl; [exact Hxs|].
    destruct (String.leb s y); [exact Hxs | exact Hx].
Qed.

Lemma Sort_ascending l : ascending (sort.Sort l).
Proof.
  induction l as [|x l IH]; simpl; [exact I | apply insert_ascending, IH].
Qed.



Lemma formatMessageType_known t :
  known_message_type t = true -> snd (formatMessageType t) = [].
Proof.
  unfold known_message_type. intros H. apply bool_decide_eq_true in H.
  repeat (apply elem_of_cons in H as [-> | H]; [reflexivity|]).
  inversion H.
Qed.

Lemma formatMessageType_unknown t :
  known_message_type t = false ->
  formatMessageType t
  = ("unknown-" ++ strconv.Itoa t,
     ["unsupported message type " ++ strconv.Itoa t]).
Proof.
  unfold known_message_type. intros H. apply bool_decide_eq_false in H.
  unfold formatMessageType,
    MessageTypeDefault, MessageTypeRecipientAdd, MessageTypeRecipientRemove,
    MessageTypeCall, MessageTypeChannelNameChange,
    MessageTypeChannelIconChange, MessageTypeChannelPinnedMessage,
    MessageTypeGuildMemberJoin, MessageTypeReply,
    MessageTypeChatInputCommand.
  repeat match goal with
         | |- context [Z.eqb t ?k] =>
             destruct (Z.eqb_spec t k) as [Hk|_];
             [exfalso; apply H; rewrite Hk; set_solver|]
         end.
  reflexivity.
Qed.

Lemma formatChannelType_unknown t :
  known_channel_type t = false -> formatChannelType t = "invalid".
Proof.
  unfold known_channel_type. intros H. apply bool_decide_eq_false in H.
  unfold formatChannelType, ChannelTypeGuildText, ChannelTypeGuildVoice,
    ChannelTypeGuildCategory, ChannelTypeDM, ChannelTypeGroupDM,
    ChannelTypeGuildNews, ChannelTypeGuildStore.
  repeat match goal with
         | |- context [Z.eqb t ?k] =>
             destruct (Z.eqb_spec t k) as [Hk|_];
             [exfalso; apply H; rewrite Hk; set_solver|]
         end.
  reflexivity.
Qed.

Lemma formatPermOverwriteType_unknown t :
  known_overwrite_type t = false ->
  formatPermOverwriteType t
  = Panic ("unsupported permission overwrite type " ++ strconv.Itoa t).
Proof.
  unfold known_overwrite_type. intros H. apply bool_decide_eq_false in H.
  unfold formatPermOverwriteType, PermissionOverwriteTypeRole,
    PermissionOverwriteTypeMember.
  repeat match goal with
         | |- context [Z.eqb t ?k] =>
             destruct (Z.eqb_spec t k) as [Hk|_];
             [exfalso; apply H; rewrite Hk; set_solver|]
         end.
  reflexivity.
Qed.

End Encoder.

Section EncoderClaims.
Import discordgo logentry.

(** C10.  For every message whose webhook id is empty, the author-override
  username and avatar columns of the encoded message row (columns 10 and
  11: four header columns, then six message columns) are both the empty
  string; they hold the author's username and avatar only when the webhook
  id is not empty. *)
Theorem C10_author_override (now ftype op : string) (m : Message)
      (author : User) :
Message_Author m = Some author ->
exists made,
  Make now ftype op (EMessage m) = Ok made
  /\ made_row made !! 10%nat
     = Some (if String.eqb (Message_WebhookID m) "" then ""
             else User_Username author)
  /\ made_row made !! 11%nat
     = Some (if String.eqb (Message_WebhookID m) "" then ""
             else User_Avatar author).
Proof.
intros Hauthor. unfold Make, fields. rewrite Hauthor.
destruct (formatMessageType (Message_Type m)) as [mtype logged].
destruct (String.eqb (Message_WebhookID m) ""); simpl;
  eexists; repeat split; reflexivity.
Qed.

Lemma C10_author_override_witness :
Message_Author (message_of "7" 0 "") = Some user_u1
/\ exists made,
    Make "t0" "history" "add" (EMessage (message_of "7" 0 "")) = Ok made
    /\ made_row made !! 10%nat = Some ""
    /\ made_row made !! 11%nat = Some "".
Proof.
split; [reflexivity|].
apply (C10_author_override "t0" "history" "add" (message_of "7" 0 "")
         user_u1).
reflexivity.
Defined.

(** C5, as the code has it.  A message of a type without a case is encoded
  with the type column "unknown-N" (N the type in decimal) and a channel
  of a type without a case with the type column "invalid", each as a row
  of the usual width; a permission overwrite of a type without a case is
  not encoded: the encoder panics. *)
Theorem C5_unknown_subtypes (now ftype op : string) (m : Message)
      (author : User) (c : Channel) (o : PermissionOverwrite) :
Message_Author m = Some author ->
known_message_type (Message_Type m) = false ->
known_channel_type (Channel_Type c) = false ->
known_overwrite_type (PermissionOverwrite_Type o) = false ->
(exists made,
    Make now ftype op (EMessage m) = Ok made
    /\ length (made_row made) = 16%nat
    /\ made_row made !! 12%nat
       = Some ("unknown-" ++ strconv.Itoa (Message_Type m)))
/\ (exists made,
       Make now ftype op (EChannel c) = Ok made
       /\ length (made_row made) = 13%nat
       /\ made_row made !! 5%nat = Some "invalid")
/\ Make now ftype op (EPermissionOverwrite o)
   = Panic ("unsupported permission overwrite type "
            ++ strconv.Itoa (PermissionOverwrite_Type o)).
Proof.
intros Hauthor Hm Hc Ho. repeat split.
- unfold Make, fields. rewrite Hauthor, (formatMessageType_unknown _ Hm).
  destruct (String.eqb (Message_WebhookID m) ""); simpl;
    eexists; repeat split; reflexivity.
- unfold Make, fields. rewrite (formatChannelType_unknown _ Hc). simpl.
  eexists; repeat split; reflexivity.
- unfold Make, fields. now rewrite (formatPermOverwriteType_unknown _ Ho).
Qed.

Lemma C5_unknown_subtypes_witness :
(exists made,
    Make "t0" "history" "add" (EMessage (message_of "7" 8 "")) = Ok made
    /\ length (made_row made) = 16%nat
    /\ made_row made !! 12%nat = Some ("unknown-" ++ strconv.Itoa 8))
/\ (exists made,
       Make "t0" "history" "add" (EChannel (channel_of "G" "C" 13 []))
       = Ok made
       /\ length (made_row made) = 13%nat
       /\ made_row made !! 5%nat = Some "invalid")
/\ Make "t0" "history" "add" (EPermissionOverwrite (overwrite_of "R" 2 0))
   = Panic ("unsupported permission overwrite type " ++ strconv.Itoa 2).
Proof.
apply (C5_unknown_subtypes "t0" "history" "add" (message_of "7" 8 "")
         user_u1 (channel_of "G" "C" 13 []) (overwrite_of "R" 2 0));
  reflexivity.
Defined.

(** C5 as stated fails: a permission overwrite of type 2 yields no row, the
  encoder panics. *)
Lemma C5_counterexample :
known_overwrite_type 2 = false
/\ Make "t0" "history" "add" (EPermissionOverwrite (overwrite_of "R" 2 0))
   = Panic "unsupported permission overwrite type 2".
Proof. split; reflexivity. Qed.

End EncoderClaims.

Section EncoderPurity.
Import discordgo logentry.

Lemma Make_Ok_inv now ftype op v made :
  Make now ftype op v = Ok made ->
  exists row tag,
    fields v = Ok (row, made_entity made, made_log made)
    /\ Type_ v = Ok tag
    /\ made_row made = now :: ftype :: op :: tag :: row.
Proof.
  unfold Make. destruct (fields v) as [[[row v'] logged]|]; [|discriminate].
  destruct (Type_ v) as [tag|]; [|discriminate].
  intros [= <-]. now exists row, tag.
Qed.




End EncoderPurity.

Section EncoderPurityClaim.
Import discordgo logentry.




End EncoderPurityClaim.

(* ===================================================================== *)
(** ** Worlds: events and files only grow                                 *)
(* ===================================================================== *)

Section Growth.

Lemma writes_to_app name evs1 evs2 :
  writes_to name (evs1 ++ evs2)
  = (writes_to name evs1 ++ writes_to name evs2)%list.
Proof. apply omap_app. Qed.



Lemma new_events_app w w' evs :
  trace w' = (trace w ++ evs)%list -> new_events w w' = evs.
Proof. unfold new_events. intros ->. apply drop_app_length. Qed.

Lemma new_events_refl w : new_events w w = [].
Proof. apply new_events_app. now rewrite app_nil_r. Qed.

Lemma grows_new_events w w' :
  grows w w' -> trace w' = (trace w ++ new_events w w')%list.
Proof.
  intros [[evs He] _ _ _]. now rewrite (new_events_app _ _ _ He).
Qed.

Lemma new_events_trans w1 w2 w3 :
  grows w1 w2 -> grows w2 w3 ->
  new_events w1 w3 = (new_events w1 w2 ++ new_events w2 w3)%list.
Proof.
  intros H12 H23. apply new_events_app.
  rewrite (grows_new_events _ _ H23), (grows_new_events _ _ H12).
  now rewrite app_assoc.
Qed.

#[global] Instance grows_preorder : PreOrder grows.
Proof.
  split.
  - intros w. split.
    + exists []. now rewrite app_nil_r.
    + intros name. rewrite new_events_refl. simpl. now rewrite app_nil_r.
    + auto.
    + auto.
  - intros w1 w2 w3 H12 H23. split.
    + exists (new_events w1 w2 ++ new_events w2 w3)%list.
      rewrite (grows_new_events _ _ H23), (grows_new_events _ _ H12).
      now rewrite app_assoc.
    + intros name. rewrite (new_events_trans _ _ _ H12 H23).
      rewrite writes_to_app, (grows_files _ _ H23), (grows_files _ _ H12).
      now rewrite app_assoc.
    + intros name H. eapply grows_exists; [exact H23|].
      eapply grows_exists; [exact H12|exact H].
    + intros g H. eapply grows_fetched; [exact H23|].
      eapply grows_fetched; [exact H12|exact H].
Qed.

(** A step that only records an event other than a write. *)
Lemma grows_event w e :
  (forall name row, e <> EvWrite name row) -> grows w (add_event e w).
Proof.
  intros He. split; simpl.
  - now exists [e].
  - intros name. rewrite (new_events_app w (add_event e w) [e] eq_refl).
    destruct e; simpl; try now rewrite app_nil_r.
    now contradiction (He name0 row).
  - auto.
  - auto.
Qed.

(** Preorders compose along the monad. *)
Context (R : World -> World -> Prop) `{!PreOrder R}.

Lemma respects_ret {A} (a : A) : respects R (mret a).
Proof. intros w. simpl. reflexivity. Qed.

Lemma respects_bind {A B} (c : M A) (k : A -> M B) :
  respects R c -> (forall a, respects R (k a)) -> respects R (c ≫= k).
Proof.
  intros Hc Hk w. specialize (Hc w). unfold mbind, M_bind.
  destruct (c w) as [a w'|msg w'|w']; simpl in *; try exact Hc.
  etransitivity; [exact Hc | apply Hk].
Qed.

(** The same, using what is known of the value [c] returns. *)
Lemma respects_bind_val {A B} (V : A -> Prop) (c : M A) (k : A -> M B) :
  (forall w a w', c w = Done a w' -> V a) ->
  respects R c -> (forall a, V a -> respects R (k a)) ->
  respects R (c ≫= k).
Proof.
  intros HV Hc Hk w. specialize (Hc w). specialize (HV w).
  unfold mbind, M_bind.
  destruct (c w) as [a w'|msg w'|w']; simpl in *; try exact Hc.
  etransitivity; [exact Hc | apply Hk; eapply HV; reflexivity].
Qed.

Lemma respects_panic {A} msg : respects R (@panic A msg).
Proof. intros w. simpl. reflexivity. Qed.

Lemma respects_exhausted {A} : respects R (@exhausted A).
Proof. intros w. simpl. reflexivity. Qed.

Lemma respects_deref {A} (p : option A) : respects R (deref p).
Proof. destruct p; [apply respects_ret | apply respects_panic]. Qed.

Lemma respects_for_range {A} (xs : list A) (body : A -> M unit) :
  (forall x, In x xs -> respects R (body x)) ->
  respects R (for_range xs body).
Proof.
  induction xs as [|x xs IH]; simpl; intros H; [apply respects_ret|].
  apply respects_bind; [apply H; now left|].
  intros _. apply IH. intros y Hy. apply H. now right.
Qed.

Lemma respects_for_count n (body : M unit) :
  respects R body -> respects R (for_count n body).
Proof.
  intros H. induction n as [|n IH]; simpl; [apply respects_ret|].
  apply respects_bind; [exact H | intros _; exact IH].
Qed.

End Growth.

(* ===================================================================== *)
(** ** The orchestrator keeps every relation its steps keep               *)
(* ===================================================================== *)

Lemma respects_ext {A} (R : World -> World -> Prop) (c c' : M A) :
  (forall w, c w = c' w) -> respects R c -> respects R c'.
Proof. intros Heq H w. rewrite <- Heq. apply H. Qed.

Lemma M_bind_assoc {A B C} (c : M A) (k : A -> M B) (k' : B -> M C) w :
  ((c ≫= k) ≫= k') w = (c ≫= fun a => k a ≫= k') w.
Proof. unfold mbind, M_bind. now destruct (c w). Qed.

(** The handle [os.OpenFile] returns carries the name and the flags. *)
Lemma OpenFile_returns host name flag w a w' :
  os.OpenFile host name flag w = Done a w' ->
  forall f, fst a = Some f ->
            os.File_flag f = flag /\ os.File_name f = name.
Proof.
  unfold os.OpenFile. intros H f Hf.
  destruct (Host_OpenFile_fails host name);
    [|destruct (files w !! name);
      [destruct (os.has flag os.O_TRUNC)|destruct (os.has flag os.O_CREATE)]];
    injection H as <- _; simpl in Hf; try discriminate;
    injection Hf as <-; now split.
Qed.

Section Orchestration.
Import discordgo.
Context (R : World -> World -> Prop) `{!PreOrder R}.
Variable host : Host.
Variable d : Session.

(** Steps that add no event and leave the contents of the files alone. *)
Hypothesis R_quiet : forall w w',
  trace w' = trace w ->
  (forall name, default [] (files w' !! name) = default [] (files w !! name)) ->
  (forall name, is_Some (files w !! name) -> is_Some (files w' !! name)) ->
  (forall g, fetchedGuilds w !! g = Some true ->
             fetchedGuilds w' !! g = Some true) ->
  R w w'.

(** Requests, downloads and log lines. *)
Hypothesis R_event : forall w e, background e = true -> R w (add_event e w).

Ltac quiet := intros w; apply R_quiet; simpl; auto.

Lemma respects_log_Printf line : respects R (log_Printf line).
Proof. intros w. now apply R_event. Qed.

Lemma respects_request {A} (r : Request) (answer : nat -> A) :
  respects R (fun w => Done (answer (requests w))
                         (count_request (add_event (EvRequest r) w))).
Proof.
  intros w. simpl. etransitivity; [apply (R_event w (EvRequest r) eq_refl)|].
  apply R_quiet; simpl; auto.
Qed.

Lemma respects_d_Guild id : respects R (logpull.d_Guild d id).
Proof. apply (respects_request _ (fun n => Session_Guild d n id)). Qed.

Lemma respects_d_GuildMembers id after limit :
  respects R (logpull.d_GuildMembers d id after limit).
Proof.
  apply (respects_request _ (fun n => Session_GuildMembers d n id after limit)).
Qed.

Lemma respects_d_ChannelMessages id limit b a ar :
  respects R (logpull.d_ChannelMessages d id limit b a ar).
Proof.
  apply (respects_request _
           (fun n => Session_ChannelMessages d n id limit b a ar)).
Qed.

Lemma respects_d_MessageReactions c m e limit :
  respects R (logpull.d_MessageReactions d c m e limit).
Proof.
  apply (respects_request _
           (fun n => Session_MessageReactions d n c m e limit)).
Qed.

Lemma respects_time_Now : respects R (logpull.time_Now host).
Proof. quiet. Qed.

Lemma respects_call_Make ftype op v :
  respects R (logpull.call_Make host ftype op v).
Proof.
  unfold logpull.call_Make. apply respects_bind; [exact _|apply respects_time_Now|].
  intros now. destruct (logentry.Make now ftype op v) as [made|msg].
  - apply respects_bind; [exact _| |intros; now apply respects_ret].
    apply respects_for_range; [exact _|]. intros. apply respects_log_Printf.
  - now apply respects_panic.
Qed.

Lemma respects_download kind locator :
  respects R (cdndl.download host kind locator).
Proof. intros w. now apply R_event. Qed.

Lemma respects_Stat name : respects R (os.Stat name).
Proof. intros w. unfold os.Stat. destruct (files w !! name); simpl; reflexivity. Qed.

Lemma respects_MkdirAll dir : respects R (os.MkdirAll host dir).
Proof.
  intros w. unfold os.MkdirAll.
  destruct (Host_MkdirAll_fails host dir); simpl; reflexivity.
Qed.

Lemma respects_GuildCache fpath cache :
  respects R (logutil.GuildCache fpath cache).
Proof.
  intros w. unfold logutil.GuildCache.
  destruct (files w !! fpath); simpl; reflexivity.
Qed.

Lemma respects_LastMessageID fpath : respects R (logutil.LastMessageID fpath).
Proof.
  intros w. unfold logutil.LastMessageID.
  destruct (files w !! fpath) as [rows|]; simpl; [|reflexivity].
  destruct (logutil.last_message rows None); simpl; reflexivity.
Qed.

Lemma respects_get_fetchedGuilds gid :
  respects R (logpull.get_fetchedGuilds gid).
Proof. intros w. simpl. reflexivity. Qed.

Lemma respects_put_fetchedGuilds gid :
  respects R (logpull.put_fetchedGuilds gid true).
Proof.
  quiet. intros g Hg. destruct (decide (gid = g)) as [->|Hne].
  - now rewrite lookup_insert_eq.
  - now rewrite lookup_insert_ne.
Qed.

(** Opening a log file: with the flags of the code the file is created
    empty when absent and otherwise left as it is. *)
Lemma respects_OpenFile name :
  respects R (os.OpenFile host name logpull.log_flag).
Proof.
  intros w. unfold os.OpenFile.
  destruct (Host_OpenFile_fails host name); simpl; [reflexivity|].
  destruct (files w !! name) as [rows|] eqn:Hf; simpl.
  - apply R_quiet; simpl; auto.
  - apply R_quiet; simpl; auto.
    + intros n. destruct (decide (name = n)) as [->|Hne].
      * now rewrite lookup_insert_eq, Hf.
      * now rewrite lookup_insert_ne.
    + intros n Hn. destruct (decide (name = n)) as [->|Hne].
      * rewrite lookup_insert_eq. eauto.
      * now rewrite lookup_insert_ne.
Qed.

(** One step of a proof that a computation keeps [R]; it stops at the
    detector, at a write and at a recursive call. *)
Ltac keeps_step :=
  cbv beta iota;
  lazymatch goal with
  | |- respects _ (mret _) => apply respects_ret; exact _
  | |- respects _ (panic _) => apply respects_panic; exact _
  | |- respects _ exhausted => apply respects_exhausted; exact _
  | |- respects _ (deref _) => apply respects_deref; exact _
  | |- respects _ (log_Printf _) => apply respects_log_Printf
  | |- respects _ (logpull.call_Make _ _ _ _) => apply respects_call_Make
  | |- respects _ (cdndl.download _ _ _) => apply respects_download
  | |- respects _ (logpull.d_Guild _ _) => apply respects_d_Guild
  | |- respects _ (logpull.d_GuildMembers _ _ _ _) =>
      apply respects_d_GuildMembers
  | |- respects _ (logpull.d_ChannelMessages _ _ _ _ _ _) =>
      apply respects_d_ChannelMessages
  | |- respects _ (logpull.d_MessageReactions _ _ _ _ _) =>
      apply respects_d_MessageReactions
  | |- respects _ (os.Stat _) => apply respects_Stat
  | |- respects _ (os.MkdirAll _ _) => apply respects_MkdirAll
  | |- respects _ (logutil.GuildCache _ _) => apply respects_GuildCache
  | |- respects _ (logutil.LastMessageID _) => apply respects_LastMessageID
  | |- respects _ (logpull.get_fetchedGuilds _) =>
      apply respects_get_fetchedGuilds
  | |- respects _ (logpull.put_fetchedGuilds _ true) =>
      apply respects_put_fetchedGuilds
  | |- respects _ (for_range _ _) =>
      apply respects_for_range; [exact _|intros ? ?]
  | |- respects _ (for_count _ _) => apply respects_for_count; [exact _|]
  | |- respects _ (mbind _ (logpull.Equals _ _ _ _)) => fail "detector"
  | |- respects _ (mbind _ _) => apply respects_bind; [exact _| |intros ?]
  | |- respects _ (if ?b then _ else _) => destruct b
  | |- respects _ (match ?x with _ => _ end) => destruct x
  end.

Ltac keeps :=
  unfold logpull.logentry_User, logpull.logentry_PermOverwrite,
    logpull.logentry_Channel, logpull.logentry_Role,
    logpull.logentry_Emoji, logpull.logentry_Guild,
    logpull.logentry_Message, logpull.logentry_Embed,
    logpull.logentry_Attachment, logpull.logentry_Reaction,
    cdndl.Avatar, cdndl.Icon, cdndl.Splash, cdndl.Emoji, cdndl.Attachment;
  repeat keeps_step.

Section GuildSide.
(** The change detector and the write it guards, for the entity types
    in [allowed]. *)
Variable allowed : string -> Prop.
Variable cache : logutil.EntryCache.
Hypothesis R_detect : forall f tag id entry,
  os.File_flag f = logpull.log_flag -> allowed tag ->
  respects R (write_if_changed f cache tag id entry).

Lemma respects_detect_then {B} f tag id entry (rest : M B) :
  os.File_flag f = logpull.log_flag -> allowed tag ->
  respects R rest ->
  respects R (logpull.Equals cache tag id entry ≫= fun same =>
              (if negb same then logformat.Write f entry else mret tt)
                ≫= fun _ => rest).
Proof.
  intros Hf Ha Hrest.
  apply (respects_ext R (write_if_changed f cache tag id entry
                           ≫= fun _ => rest)).
  - intros w. apply M_bind_assoc.
  - apply respects_bind; [exact _|now apply R_detect|now intros _].
Qed.

Lemma respects_member_range f id members after :
  os.File_flag f = logpull.log_flag -> allowed "user" ->
  respects R (logpull.pullGuild_member_range host f id cache members after).
Proof.
  intros Hf Ha. revert after.
  induction members as [|m rest IH]; intros after; simpl; keeps;
    apply respects_detect_then; auto.
Qed.

Lemma respects_members_round again f id after members err :
  os.File_flag f = logpull.log_flag -> allowed "user" ->
  (forall a, respects R (again a)) ->
  respects R (logpull.pullGuild_members_round host again f id cache
                after members err).
Proof.
  intros Hf Ha Hagain. unfold logpull.pullGuild_members_round. keeps;
    try apply Hagain.
  now apply respects_member_range.
Qed.

Lemma respects_members fuel f id after :
  os.File_flag f = logpull.log_flag -> allowed "user" ->
  respects R (logpull.pullGuild_members host d fuel f id cache after).
Proof.
  intros Hf Ha. revert after.
  induction fuel as [|fuel IH]; intros after; simpl; keeps.
  now apply respects_members_round.
Qed.

Lemma respects_overwrite f o :
  os.File_flag f = logpull.log_flag -> allowed "permoverwrite" ->
  respects R (logpull.pullGuild_overwrite host f cache o).
Proof.
  intros Hf Ha. unfold logpull.pullGuild_overwrite. keeps.
  now apply R_detect.
Qed.

Lemma respects_channel f c :
  os.File_flag f = logpull.log_flag ->
  allowed "channel" -> allowed "permoverwrite" ->
  respects R (logpull.pullGuild_channel host f cache c).
Proof.
  intros Hf Hc Ho. unfold logpull.pullGuild_channel. keeps.
  apply respects_detect_then; [exact Hf|exact Hc|].
  keeps. now apply respects_overwrite.
Qed.

Lemma respects_role f r :
  os.File_flag f = logpull.log_flag -> allowed "role" ->
  respects R (logpull.pullGuild_role host f cache r).
Proof.
  intros Hf Ha. unfold logpull.pullGuild_role. keeps. now apply R_detect.
Qed.

Lemma respects_emoji f id e :
  os.File_flag f = logpull.log_flag -> allowed "emoji" ->
  respects R (logpull.pullGuild_emoji host f id cache e).
Proof.
  intros Hf Ha. unfold logpull.pullGuild_emoji. keeps.
  now apply R_detect.
Qed.

Lemma respects_guild f id guild :
  os.File_flag f = logpull.log_flag -> allowed "guild" ->
  respects R (logpull.pullGuild_guild host f id cache guild).
Proof.
  intros Hf Ha. unfold logpull.pullGuild_guild. keeps.
  now apply R_detect.
Qed.

Lemma respects_loops fuel f id guild :
  os.File_flag f = logpull.log_flag ->
  allowed "channel" -> allowed "permoverwrite" -> allowed "role" ->
  allowed "emoji" -> allowed "user" ->
  respects R (logpull.pullGuild_loops host d fuel f id cache guild).
Proof.
  intros Hf Hc Ho Hr He Hu. unfold logpull.pullGuild_loops. keeps.
  - now apply respects_channel.
  - now apply respects_role.
  - now apply respects_emoji.
  - now apply respects_members.
Qed.

Lemma respects_pullGuild fuel id :
  allowed "guild" ->
  allowed "channel" -> allowed "permoverwrite" -> allowed "role" ->
  allowed "emoji" -> allowed "user" ->
  respects R (logpull.pullGuild host d fuel id cache).
Proof.
  intros Hg Hc Ho Hr He Hu. unfold logpull.pullGuild.
  apply respects_bind_val
    with (V := fun a => forall f, fst a = Some f ->
                                  os.File_flag f = logpull.log_flag
                                  /\ os.File_name f
                                     = "channels/" ++ id ++ "/guild.tsv");
    [exact _|intros w a w'; apply OpenFile_returns
    |apply respects_OpenFile|].
  intros [f err] Hflag. destruct err as [e|]; [keeps_step|].
  destruct f as [f|]; [|keeps_step].
  specialize (Hflag f eq_refl) as [Hflag _].
  keeps_step; [keeps_step|].
  destruct a as [guild err]. keeps_step.
  - destruct err; [keeps_step|now apply respects_guild].
  - apply respects_loops; auto.
Qed.

End GuildSide.

Section ChannelSide.
(** The unconditional write of [pullChannel]. *)
Hypothesis R_write : forall f row,
  os.File_flag f = logpull.log_flag -> respects R (logformat.Write f row).

Lemma respects_reaction f gid id m r :
  os.File_flag f = logpull.log_flag ->
  respects R (logpull.pullChannel_reaction host d f gid id m r).
Proof.
  intros Hf. unfold logpull.pullChannel_reaction. keeps;
    now apply R_write.
Qed.

Lemma respects_children f gid id m :
  os.File_flag f = logpull.log_flag ->
  respects R (logpull.pullChannel_children host d f gid id m).
Proof.
  intros Hf. unfold logpull.pullChannel_children,
               logpull.pullChannel_embed, logpull.pullChannel_attachment.
  keeps; try (now apply R_write).
  now apply respects_reaction.
Qed.

Lemma respects_message f gid id m :
  os.File_flag f = logpull.log_flag ->
  respects R (logpull.pullChannel_message host d f gid id m).
Proof.
  intros Hf. unfold logpull.pullChannel_message. keeps;
    try (now apply R_write).
  now apply respects_children.
Qed.

Lemma respects_pages fuel f gid id after :
  os.File_flag f = logpull.log_flag ->
  respects R (logpull.pullChannel_pages host d fuel f gid id after).
Proof.
  intros Hf. revert after.
  induction fuel as [|fuel IH]; intros after; simpl; keeps;
    try apply IH.
  now apply respects_message.
Qed.

Lemma respects_pullChannel fuel gid id after :
  respects R (logpull.pullChannel host d fuel gid id after).
Proof.
  unfold logpull.pullChannel.
  apply respects_bind_val
    with (V := fun a => forall f, fst a = Some f ->
                                  os.File_flag f = logpull.log_flag
                                  /\ os.File_name f
                                     = "channels/" ++ gid ++ "/" ++ id
                                       ++ ".tsv");
    [exact _|intros w a w'; apply OpenFile_returns
    |apply respects_OpenFile|].
  intros [f err] Hflag. destruct err as [e|]; [keeps_step|].
  destruct f as [f|]; [|keeps_step].
  specialize (Hflag f eq_refl) as [Hflag _].
  now apply respects_pages.
Qed.

(** The whole of [Pull] for the channels of the guild [gid], for a
    relation that [pullGuild] keeps for that guild. *)
Variable gid : string.
Hypothesis R_pullGuild : forall fuel cache,
  respects R (logpull.pullGuild host d fuel gid cache).

Lemma respects_Pull_guild_sync fuel c :
  Channel_GuildID c = gid ->
  respects R (logpull.Pull_guild_sync host d fuel c).
Proof.
  intros Hgid. unfold logpull.Pull_guild_sync. rewrite Hgid.
  keeps; apply R_pullGuild.
Qed.

Lemma respects_Pull_guild fuel c :
  Channel_GuildID c = gid ->
  respects R (logpull.Pull_guild host d fuel c).
Proof.
  intros Hgid. unfold logpull.Pull_guild. keeps.
  now apply respects_Pull_guild_sync.
Qed.

Lemma respects_Pull_channel fuel c :
  respects R (logpull.Pull_channel host d fuel c).
Proof.
  unfold logpull.Pull_channel. keeps; apply respects_pullChannel.
Qed.

Lemma respects_Pull fuel c :
  Channel_GuildID c = gid ->
  respects R (logpull.Pull host d fuel c).
Proof.
  intros Hgid. unfold logpull.Pull. keeps;
    first [now apply respects_Pull_guild | apply respects_Pull_channel].
Qed.

End ChannelSide.

End Orchestration.

(* ===================================================================== *)
(** ** Log files only grow                                                *)
(* ===================================================================== *)

Section AppendOnly.

Lemma grows_quiet w w' :
  trace w' = trace w ->
  (forall name, default [] (files w' !! name) = default [] (files w !! name)) ->
  (forall name, is_Some (files w !! name) -> is_Some (files w' !! name)) ->
  (forall g, fetchedGuilds w !! g = Some true ->
             fetchedGuilds w' !! g = Some true) ->
  grows w w'.
Proof.
  intros Ht Hf He Hg. split; auto.
  - exists []. now rewrite app_nil_r.
  - intros name. unfold new_events. rewrite Ht, drop_all, Hf. simpl.
    now rewrite app_nil_r.
Qed.

Lemma grows_background w e : background e = true -> grows w (add_event e w).
Proof.
  intros He. apply grows_event. intros name row ->. discriminate.
Qed.

Lemma log_flag_append : os.has logpull.log_flag os.O_APPEND = true.
Proof. reflexivity. Qed.

(** A write through a handle opened with the flags of the code puts the
    row after the lines the file has. *)
Lemma Write_appends f row w :
  os.File_flag f = logpull.log_flag ->
  exists w',
    logformat.Write f row w = Done tt w'
    /\ trace w' = (trace w ++ [EvWrite (os.File_name f) row])%list
    /\ files w'
       = <[os.File_name f :=
             (default [] (files w !! os.File_name f) ++ [row])%list]>
           (files w)
    /\ fetchedGuilds w' = fetchedGuilds w
    /\ clock_reads w' = clock_reads w
    /\ requests w' = requests w.
Proof.
  intros Hf. unfold logformat.Write, mbind, M_bind, emit, os.write_line.
  simpl. rewrite Hf, log_flag_append. eexists. split; [reflexivity|].
  simpl. repeat split; reflexivity.
Qed.

Lemma grows_Write f row :
  os.File_flag f = logpull.log_flag ->
  respects grows (logformat.Write f row).
Proof.
  intros Hf w.
  destruct (Write_appends f row w Hf) as (w' & -> & Ht & Hfs & Hg & _).
  simpl. split.
  - eexists; exact Ht.
  - intros name. rewrite (new_events_app _ _ _ Ht), Hfs. simpl.
    destruct (String.eqb_spec (os.File_name f) name) as [->|Hne].
    + now rewrite lookup_insert_eq.
    + rewrite lookup_insert_ne by exact Hne. now rewrite app_nil_r.
  - intros name Hn. rewrite Hfs.
    destruct (decide (os.File_name f = name)) as [->|Hne].
    + rewrite lookup_insert_eq. eauto.
    + now rewrite lookup_insert_ne.
  - intros g. now rewrite Hg.
Qed.

Lemma grows_Equals cache tag id entry :
  respects grows (logpull.Equals cache tag id entry).
Proof.
  intros w. unfold logpull.Equals, mbind, M_bind, emit. simpl.
  apply grows_event. discriminate.
Qed.

Lemma grows_detect f cache tag id entry :
  os.File_flag f = logpull.log_flag ->
  respects grows (write_if_changed f cache tag id entry).
Proof.
  intros Hf. unfold write_if_changed.
  apply respects_bind; [exact _|apply grows_Equals|].
  intros same. destruct same; simpl;
    [apply respects_ret; exact _|now apply grows_Write].
Qed.

(** Whatever the session, the machine and the step budget, and however
    the call ends, [Pull] and its two parts only let the world grow. *)
Lemma pullGuild_grows host d fuel id cache w :
  grows w (world_of (logpull.pullGuild host d fuel id cache w)).
Proof.
  apply (respects_pullGuild grows host d grows_quiet grows_background
           (fun _ => True) cache); auto.
  intros f tag i entry Hf _. now apply grows_detect.
Qed.

Lemma Pull_grows host d fuel c w :
  grows w (world_of (logpull.Pull host d fuel c w)).
Proof.
  apply (respects_Pull grows host d grows_quiet grows_background)
    with (gid := discordgo.Channel_GuildID c); [| |reflexivity].
  - intros f row Hf. now apply grows_Write.
  - intros fuel' cache w'. apply pullGuild_grows.
Qed.

Lemma Pull_guild_sync_grows host d fuel c w :
  grows w (world_of (logpull.Pull_guild_sync host d fuel c w)).
Proof.
  apply (respects_Pull_guild_sync grows host d grows_background)
    with (gid := discordgo.Channel_GuildID c); [|reflexivity].
  intros fuel' cache w'. apply pullGuild_grows.
Qed.

Lemma Pull_channel_grows host d fuel c w :
  grows w (world_of (logpull.Pull_channel host d fuel c w)).
Proof.
  apply (respects_Pull_channel grows host d grows_quiet grows_background).
  intros f row Hf. now apply grows_Write.
Qed.


Lemma pullChannel_grows host d fuel gid id after w :
  grows w (world_of (logpull.pullChannel host d fuel gid id after w)).
Proof.
  apply (respects_pullChannel grows host d grows_quiet grows_background).
  intros f row Hf. now apply grows_Write.
Qed.

End AppendOnly.

Section AppendOnlyClaim.

Lemma append_cons a (s t : string) : String a s ++ t = String a (s ++ t).
Proof. reflexivity. Qed.

Lemma append_empty_r (s : string) : s ++ "" = s.
Proof.
  induction s as [|a s IH]; [reflexivity|]. now rewrite append_cons, IH.
Qed.

Lemma append_associative (s t u : string) : (s ++ t) ++ u = s ++ (t ++ u).
Proof.
  induction s as [|a s IH]; [reflexivity|]. now rewrite !append_cons, IH.
Qed.

Lemma concat_empty_app (l1 l2 : list string) :
  String.concat "" (l1 ++ l2)
  = String.concat "" l1 ++ String.concat "" l2.
Proof.
  induction l1 as [|x l1 IH]; [reflexivity|].
  assert (Hc : forall l, String.concat "" (x :: l) = x ++ String.concat "" l).
  { intros [|y l]; [apply eq_sym, append_empty_r|reflexivity]. }
  change ((x :: l1) ++ l2)%list with (x :: (l1 ++ l2)%list).
  rewrite !Hc, IH. now rewrite append_associative.
Qed.

Lemma prefix_append (s t : string) : String.prefix s (s ++ t) = true.
Proof.
  induction s as [|a s IH]; [now destruct t|].
  rewrite append_cons. simpl.
  destruct (Ascii.ascii_dec a a); [exact IH|contradiction].
Qed.

Lemma bytes_prefix (old new : list Row) :
  String.prefix (logformat.bytes old) (logformat.bytes (old ++ new)) = true.
Proof.
  unfold logformat.bytes. rewrite map_app, concat_empty_app.
  apply prefix_append.
Qed.

(** C9.  Both log files are opened with flags that contain O_APPEND and
  O_CREATE and not O_TRUNC; and for every session, machine and step
  budget, however [Pull] ends, a file that held the lines [old] before
  holds [old] followed by the rows written to it during the call, so that
  its old bytes are a prefix of its new bytes. *)
Theorem C9_append_only (host : Host) (d : discordgo.Session) (fuel : nat)
      (c : discordgo.Channel) (w : World) (name : string)
      (old : list Row) :
files w !! name = Some old ->
os.has logpull.log_flag os.O_APPEND = true
/\ os.has logpull.log_flag os.O_CREATE = true
/\ os.has logpull.log_flag os.O_TRUNC = false
/\ exists new,
    files (world_of (logpull.Pull host d fuel c w)) !! name
    = Some (old ++ new)%list
    /\ new = writes_to name
               (new_events w (world_of (logpull.Pull host d fuel c w)))
    /\ String.prefix (logformat.bytes old) (logformat.bytes (old ++ new))
       = true.
Proof.
intros Hold. repeat (split; [reflexivity|]).
pose proof (Pull_grows host d fuel c w) as Hg.
pose proof (grows_files _ _ Hg name) as Hfiles.
destruct (grows_exists _ _ Hg name) as [rows Hrows]; [eauto|].
rewrite Hold, Hrows in Hfiles. simpl in Hfiles. subst rows.
eexists. split; [exact Hrows|]. split; [reflexivity|apply bytes_prefix].
Qed.

Lemma C9_append_only_witness :
files world_five !! file_C = Some [message_row "t" (message_of "5" 0 "")]
/\ exists new,
    files (world_of
             (logpull.Pull host0
                (session_of (guild_of []) "5"
                   [message_of "8" 0 ""; message_of "7" 0 "";
                    message_of "6" 0 ""] [])
                3 channel_C world_five)) !! file_C
    = Some ([message_row "t" (message_of "5" 0 "")] ++ new)%list
    /\ length new = 3%nat.
Proof.
split; [reflexivity|].
destruct (C9_append_only host0
            (session_of (guild_of []) "5"
               [message_of "8" 0 ""; message_of "7" 0 "";
                message_of "6" 0 ""] [])
            3 channel_C world_five file_C
            [message_row "t" (message_of "5" 0 "")] eq_refl)
  as (_ & _ & _ & new & Hnew & -> & _).
eexists. split; [exact Hnew|]. vm_compute. reflexivity.
Defined.

End AppendOnlyClaim.

(* ===================================================================== *)
(** ** Properties of the events a computation adds                        *)
(* ===================================================================== *)

Section Adds.
Variable P : list Event -> Prop.
Hypothesis P_nil : P [].
Hypothesis P_app : forall a b, P a -> P b -> P (a ++ b)%list.

Lemma adds_preorder : PreOrder (adds P).
Proof.
  split.
  - intros w. exists []. split; [now rewrite app_nil_r|exact P_nil].
  - intros w1 w2 w3 (a & Ha & Pa) (b & Hb & Pb). exists (a ++ b)%list.
    split; [|now apply P_app]. rewrite Hb, Ha. now rewrite app_assoc.
Qed.


Lemma adds_new_events w w' : adds P w w' -> P (new_events w w').
Proof. intros (evs & He & HP). now rewrite (new_events_app _ _ _ He). Qed.
End Adds.

Section Guarded.





End Guarded.

(* ===================================================================== *)
(** ** Calls that return: what they add to the events                     *)
(* ===================================================================== *)

Section Returns.
Variable host : Host.

Lemma bind_Done {A B} (c : M A) (k : A -> M B) w a w' :
  c w = Done a w' -> (c ≫= k) w = k a w'.
Proof. unfold mbind, M_bind. now intros ->. Qed.

Lemma log_lines_Done lines w :
  exists w',
    for_range lines log_Printf w = Done tt w'
    /\ trace w' = (trace w ++ map EvLog lines)%list
    /\ clock_reads w' = clock_reads w.
Proof.
  revert w. induction lines as [|l lines IH]; intros w; simpl.
  - exists w. now rewrite app_nil_r.
  - destruct (IH (add_event (EvLog l) w)) as (w' & Hrun & Ht & Hc).
    exists w'. split; [exact Hrun|]. split; [|exact Hc].
    rewrite Ht. simpl. now rewrite <- app_assoc.
Qed.

(** A call of the encoder that does not panic returns the row of [Make]
    at the current clock reading, after printing [Make]'s log lines. *)
Lemma call_Make_Done ftype op v made w :
  logentry.Make (Host_clock host (clock_reads w)) ftype op v = Ok made ->
  exists w',
    logpull.call_Make host ftype op v w = Done (logentry.made_row made) w'
    /\ trace w' = (trace w ++ map EvLog (logentry.made_log made))%list
    /\ clock_reads w' = S (clock_reads w).
Proof.
  intros HM. unfold logpull.call_Make, logpull.time_Now.
  destruct (log_lines_Done (logentry.made_log made) (count_clock_read w))
    as (w' & Hrun & Ht & Hc).
  exists w'. split; [|split; assumption].
  unfold mbind at 1, M_bind at 1. rewrite HM.
  unfold mbind, M_bind. now rewrite Hrun.
Qed.

(** The detector and its write: the events they add. *)
Lemma write_if_changed_Done f cache tag id entry w :
  os.File_flag f = logpull.log_flag ->
  exists w',
    write_if_changed f cache tag id entry w = Done tt w'
    /\ trace w'
       = (trace w
          ++ EvEquals tag id entry
               (logutil.Equals (logutil.index cache tag id) entry)
          :: (if logutil.Equals (logutil.index cache tag id) entry
              then [] else [EvWrite (os.File_name f) entry]))%list.
Proof.
  intros Hf. unfold write_if_changed, logpull.Equals.
  set (same := logutil.Equals (logutil.index cache tag id) entry).
  unfold mbind at 1, M_bind at 1. unfold mbind at 1, M_bind at 1.
  unfold emit. cbv beta iota. unfold mret, M_ret.
  destruct same; simpl.
  - eexists. split; reflexivity.
  - destruct (Write_appends f entry
                (add_event (EvEquals tag id entry false) w) Hf)
      as (w' & Hrun & Ht & _).
    exists w'. split; [exact Hrun|]. rewrite Ht. simpl.
    now rewrite <- app_assoc.
Qed.

End Returns.

(* ===================================================================== *)
(** ** Where the change detector is consulted                             *)
(* ===================================================================== *)

Section Detector.
Variable host : Host.
Variable d : discordgo.Session.












End Detector.

Section DetectorClaim.
Import discordgo.

Lemma Make_message_Ok now m author :
  Message_Author m = Some author ->
  exists made,
    logentry.Make now "history" "add" (logentry.EMessage m) = Ok made
    /\ logentry.made_row made = message_row now m
    /\ row_type (message_row now m) = "message"
    /\ row_id (message_row now m) = Message_ID m.
Proof.
  intros Ha. unfold message_row, logentry.Make, logentry.fields.
  rewrite Ha.
  destruct (logentry.formatMessageType (Message_Type m)) as [mt lg].
  simpl. eexists. split; [reflexivity|].
  destruct (String.eqb (Message_WebhookID m) ""); now repeat split.
Qed.



End DetectorClaim.


(* ===================================================================== *)
(** ** Calls that return: the rows they write                             *)
(* ===================================================================== *)

Section Total.

Lemma total_ret {A} (a : A) w (Q : A -> World -> Prop) :
  Q a w -> total (mret a) w Q.
Proof. intros H. now exists a, w. Qed.

Lemma total_bind {A B} (c : M A) (k : A -> M B) w Q :
  total c w (fun a w' => total (k a) w' Q) -> total (c ≫= k) w Q.
Proof.
  intros (a & w' & Hc & b & w'' & Hk & HQ). exists b, w''.
  split; [|exact HQ]. now rewrite (bind_Done _ _ _ _ _ Hc).
Qed.

Lemma total_mono {A} (c : M A) w (Q Q' : A -> World -> Prop) :
  total c w Q -> (forall a w', Q a w' -> Q' a w') -> total c w Q'.
Proof. intros (a & w' & Hc & HQ) H. exists a, w'. auto. Qed.

(** A loop over a list, with an invariant on the elements done. *)
Lemma total_for_range {A} (body : A -> M unit)
      (Inv : list A -> World -> Prop) :
  forall xs done w,
    Inv done w ->
    (forall done' x w1,
        In x xs -> Inv done' w1 ->
        total (body x) w1 (fun _ w2 => Inv (done' ++ [x])%list w2)) ->
    total (for_range xs body) w (fun _ w' => Inv (done ++ xs)%list w').
Proof.
  induction xs as [|x xs IH]; intros done w Hinv Hbody; simpl.
  - apply total_ret. now rewrite app_nil_r.
  - apply total_bind.
    eapply total_mono; [apply (Hbody done x w); [now left|exact Hinv]|].
    intros [] w1 H1. cbv beta.
    replace (done ++ x :: xs)%list with ((done ++ [x]) ++ xs)%list
      by now rewrite <- app_assoc.
    apply IH; [exact H1|]. intros done' y w2 Hy. apply Hbody. now right.
Qed.

(** A counted loop, with an invariant on the number of rounds done. *)
Lemma total_for_count (body : M unit) (Inv : nat -> World -> Prop) :
  forall n done w,
    Inv done w ->
    (forall k w1, Inv k w1 -> total body w1 (fun _ w2 => Inv (S k) w2)) ->
    total (for_count n body) w (fun _ w' => Inv (done + n)%nat w').
Proof.
  induction n as [|n IH]; intros done w Hinv Hbody; simpl.
  - apply total_ret. now rewrite Nat.add_0_r.
  - apply total_bind.
    eapply total_mono; [apply (Hbody done w Hinv)|].
    intros [] w1 H1. cbv beta.
    replace (done + S n)%nat with (S done + n)%nat by lia.
    now apply IH.
Qed.

End Total.

Section Reactions.
Import discordgo.
Variable host : Host.
Variable d : Session.




(** One reaction row: encoded, then written. *)
Lemma reaction_block f uid mid emoji cid w :
  os.File_flag f = logpull.log_flag ->
  total
    (logpull.logentry_Reaction host "history" "add"
       {| MessageReaction_UserID := uid;
          MessageReaction_MessageID := mid;
          MessageReaction_Emoji := emoji;
          MessageReaction_ChannelID := cid |}
     ≫= logformat.Write f) w
    (fun _ w' =>
       exists row,
         trace w' = (trace w ++ [EvWrite (os.File_name f) row])%list
         /\ row_id row = uid
         /\ reaction_row_for mid (APIName emoji) row).
Proof.
  intros Hf. unfold logpull.logentry_Reaction.
  edestruct (call_Make_Done host "history" "add"
               (logentry.EReaction
                  {| logentry.Reaction_MessageReaction :=
                       {| MessageReaction_UserID := uid;
                          MessageReaction_MessageID := mid;
                          MessageReaction_Emoji := emoji;
                          MessageReaction_ChannelID := cid |};
                     logentry.Reaction_Count := 0 |}) _ w eq_refl)
    as (w1 & Hrun1 & Ht1 & _).
  simpl in Hrun1, Ht1. rewrite app_nil_r in Ht1.
  match type of Hrun1 with
  | _ = Done ?row _ =>
      destruct (Write_appends f row w1 Hf) as (w2 & Hrun2 & Ht2 & _);
      exists tt, w2; split;
      [rewrite (bind_Done _ _ _ _ _ Hrun1); exact Hrun2|exists row]
  end.
  split; [rewrite Ht2, Ht1; reflexivity|]. now repeat split.
Qed.

(** The rows written one per enumerated user. *)
Lemma reaction_users f mid emoji cid users w :
  os.File_flag f = logpull.log_flag ->
  total
    (for_range users (fun u =>
       logpull.logentry_Reaction host "history" "add"
         {| MessageReaction_UserID := User_ID u;
            MessageReaction_MessageID := mid;
            MessageReaction_Emoji := emoji;
            MessageReaction_ChannelID := cid |}
       ≫= logformat.Write f)) w
    (fun _ w' =>
       exists rows,
         trace w' = (trace w ++ map (EvWrite (os.File_name f)) rows)%list
         /\ map row_id rows = map User_ID users
         /\ Forall (reaction_row_for mid (APIName emoji)) rows).
Proof.
  intros Hf.
  apply (total_for_range _
           (fun done w' =>
              exists rows,
                trace w' = (trace w ++ map (EvWrite (os.File_name f)) rows)%list
                /\ map row_id rows = map User_ID done
                /\ Forall (reaction_row_for mid (APIName emoji)) rows)
           users [] w).
  - exists []. simpl. now rewrite app_nil_r.
  - intros done u w1 _ (rows & Ht & Hids & Hall).
    eapply total_mono; [apply (reaction_block f (User_ID u)); exact Hf|].
    intros [] w2 (row & Ht2 & Hid & Hrow). exists (rows ++ [row])%list.
    split; [rewrite Ht2, Ht, map_app; simpl; now rewrite <- app_assoc|].
    split; [rewrite !map_app, Hids; simpl; now rewrite Hid|].
    apply Forall_app. split; [exact Hall|now constructor].
Qed.

(** The rows without user id written for the count above 100. *)
Lemma reaction_anonymous f mid emoji cid n w :
  os.File_flag f = logpull.log_flag ->
  total
    (for_count n
       (logpull.logentry_Reaction host "history" "add"
          {| MessageReaction_UserID := "";
             MessageReaction_MessageID := mid;
             MessageReaction_Emoji := emoji;
             MessageReaction_ChannelID := cid |}
        ≫= logformat.Write f)) w
    (fun _ w' =>
       exists rows,
         trace w' = (trace w ++ map (EvWrite (os.File_name f)) rows)%list
         /\ map row_id rows = repeat "" n
         /\ Forall (reaction_row_for mid (APIName emoji)) rows).
Proof.
  intros Hf.
  apply (total_for_count _
           (fun k w' =>
              exists rows,
                trace w' = (trace w ++ map (EvWrite (os.File_name f)) rows)%list
                /\ map row_id rows = repeat "" k
                /\ Forall (reaction_row_for mid (APIName emoji)) rows)
           n 0%nat w).
  - exists []. simpl. now rewrite app_nil_r.
  - intros k w1 (rows & Ht & Hids & Hall).
    eapply total_mono; [apply (reaction_block f ""); exact Hf|].
    intros [] w2 (row & Ht2 & Hid & Hrow). exists (rows ++ [row])%list.
    split; [rewrite Ht2, Ht, map_app; simpl; now rewrite <- app_assoc|].
    split.
    + rewrite map_app, Hids. simpl. rewrite Hid.
      now rewrite <- repeat_cons.
    + apply Forall_app. split; [exact Hall|now constructor].
Qed.

(** [pullChannel_reaction]: one request for at most 100 users, a row per
    user returned, and a row without user id for each unit by which the
    reported count exceeds 100. *)
Lemma reaction_total f gid id m r emoji users err w :
  os.File_flag f = logpull.log_flag ->
  MessageReactions_Emoji r = Some emoji ->
  Session_MessageReactions d (requests w) id (Message_ID m) (APIName emoji)
    100 = (users, err) ->
  total (logpull.pullChannel_reaction host d f gid id m r) w
    (fun _ w' =>
       exists logged named anonymous,
         trace w'
         = (trace w
            ++ EvRequest (ReqMessageReactions id (Message_ID m)
                            (APIName emoji) 100)
            :: map EvLog logged
            ++ map (EvWrite (os.File_name f)) (named ++ anonymous))%list
         /\ map row_id named = map User_ID users
         /\ map row_id anonymous
            = repeat "" (Z.to_nat (MessageReactions_Count r - 100))
         /\ Forall (reaction_row_for (Message_ID m) (APIName emoji))
              (named ++ anonymous)).
Proof.
  intros Hf Hemoji Hresp. unfold logpull.pullChannel_reaction.
  rewrite Hemoji. apply total_bind. exists emoji, w.
  split; [reflexivity|].
  apply total_bind.
  set (w1 := count_request
               (add_event
                  (EvRequest (ReqMessageReactions id (Message_ID m)
                                (APIName emoji) 100)) w)).
  exists (users, err), w1. split.
  { unfold logpull.d_MessageReactions. now rewrite Hresp. }
  cbv beta iota. apply total_bind.
  assert (Hlog : forall line,
             total (match err with
                    | Some e => log_Printf (line e)
                    | None => mret ()
                    end) w1
               (fun _ w2 => exists logged,
                    trace w2 = (trace w1 ++ map EvLog logged)%list)).
  { intros line. destruct err as [e|].
    - exists tt, (add_event (EvLog (line e)) w1).
      split; [reflexivity|]. now exists [line e].
    - exists tt, w1. split; [reflexivity|]. exists []. simpl.
      now rewrite app_nil_r. }
  eapply total_mono; [apply Hlog|]. clear Hlog.
  intros [] w2 (logged & Ht2). cbv beta. apply total_bind.
  eapply total_mono; [apply reaction_users; exact Hf|].
  intros [] w3 (named & Ht3 & Hnamed & Hfn). cbv beta zeta.
  assert (Ht : trace w3
               = (trace w
                  ++ EvRequest (ReqMessageReactions id (Message_ID m)
                                  (APIName emoji) 100)
                  :: map EvLog logged
                  ++ map (EvWrite (os.File_name f)) named)%list).
  { rewrite Ht3, Ht2. unfold w1. simpl. now rewrite <- !app_assoc. }
  destruct (Z.gtb_spec (MessageReactions_Count r) 100) as [Hgt|Hle].
  - eapply total_mono; [apply reaction_anonymous; exact Hf|].
    intros [] w4 (anonymous & Ht4 & Hanon & Hfa).
    exists logged, named, anonymous. split.
    + rewrite Ht4, Ht, map_app. rewrite <- !app_assoc. simpl.
      now rewrite <- !app_assoc.
    + split; [exact Hnamed|]. split; [exact Hanon|].
      apply Forall_app. now split.
  - apply total_ret. exists logged, named, []. rewrite app_nil_r.
    split; [exact Ht|]. split; [exact Hnamed|]. split; [|exact Hfn].
    replace (Z.to_nat (MessageReactions_Count r - 100)) with 0%nat by lia.
    reflexivity.
Qed.

End Reactions.

Section ReactionClaim.
Import discordgo.



Lemma writes_to_of_logs name lines : writes_to name (map EvLog lines) = [].
Proof. induction lines; simpl; auto. Qed.




End ReactionClaim.

(* ===================================================================== *)
(** ** The page loop of pullChannel                                       *)
(* ===================================================================== *)

Section Produces.
Variable E : Event -> Prop.

Lemma produces_ret {A} (a : A) : produces E (mret a).
Proof.
  intros w. apply total_ret. exists []. now rewrite app_nil_r.
Qed.

Lemma produces_bind {A B} (c : M A) (k : A -> M B) :
  produces E c -> (forall a, produces E (k a)) -> produces E (c ≫= k).
Proof.
  intros Hc Hk w. apply total_bind.
  eapply total_mono; [apply Hc|]. intros a w1 (evs1 & Ht1 & H1).
  eapply total_mono; [apply Hk|]. intros b w2 (evs2 & Ht2 & H2).
  exists (evs1 ++ evs2)%list. split; [|now apply Forall_app].
  rewrite Ht2, Ht1. now rewrite app_assoc.
Qed.

Lemma produces_for_range {A} (xs : list A) (body : A -> M unit) :
  (forall x, In x xs -> produces E (body x)) ->
  produces E (for_range xs body).
Proof.
  induction xs as [|x xs IH]; simpl; intros H; [apply produces_ret|].
  apply produces_bind; [apply H; now left|].
  intros _. apply IH. intros y Hy. apply H. now right.
Qed.

Lemma produces_emit e : E e -> produces E (emit e).
Proof.
  intros He w. exists tt, (add_event e w). split; [reflexivity|].
  exists [e]. split; [reflexivity|now constructor].
Qed.

(** An entity that the encoder accepts at every clock reading, encoded
    and written. *)
Lemma produces_encoded_write host f v :
  os.File_flag f = logpull.log_flag ->
  (forall now, exists made,
      logentry.Make now "history" "add" v = Ok made
      /\ logentry.made_log made = []
      /\ E (EvWrite (os.File_name f) (logentry.made_row made))) ->
  produces E (logpull.call_Make host "history" "add" v ≫= logformat.Write f).
Proof.
  intros Hf Hv w.
  destruct (Hv (Host_clock host (clock_reads w)))
    as (made & HM & Hlog & HE).
  destruct (call_Make_Done host _ _ _ made w HM) as (w1 & Hrun1 & Ht1 & _).
  destruct (Write_appends f (logentry.made_row made) w1 Hf)
    as (w2 & Hrun2 & Ht2 & _).
  exists tt, w2. split; [now rewrite (bind_Done _ _ _ _ _ Hrun1)|].
  exists [EvWrite (os.File_name f) (logentry.made_row made)].
  split; [|now constructor].
  rewrite Ht2, Ht1, Hlog. simpl. now rewrite app_nil_r.
Qed.

End Produces.

Section Pages.
Import discordgo.
Variable host : Host.
Variable d : Session.

Lemma produces_download E kind locator :
  E (EvDownload kind locator) ->
  produces E (cdndl.download host kind locator).
Proof.
  intros He w. eexists _, _. split; [reflexivity|].
  exists [EvDownload kind locator]. split; [reflexivity|now constructor].
Qed.

Lemma embed_produces f m e :
  os.File_flag f = logpull.log_flag ->
  produces (child_event (os.File_name f)) (logpull.pullChannel_embed host f m e).
Proof.
  intros Hf. apply produces_encoded_write; [exact Hf|].
  intros now. eexists. split; [reflexivity|]. split; [reflexivity|].
  split; [reflexivity|discriminate].
Qed.

Lemma attachment_produces f gid id m a :
  os.File_flag f = logpull.log_flag ->
  produces (child_event (os.File_name f))
    (logpull.pullChannel_attachment host f gid id m a).
Proof.
  intros Hf. unfold logpull.pullChannel_attachment.
  apply produces_bind; [now apply produces_emit|]. intros _.
  apply produces_bind; [now apply produces_download|]. intros err.
  apply produces_bind.
  { destruct err; [now apply produces_emit|apply produces_ret]. }
  intros _. apply produces_encoded_write; [exact Hf|].
  intros now. eexists. split; [reflexivity|]. split; [reflexivity|].
  split; [reflexivity|discriminate].
Qed.

Lemma reaction_produces f gid id m r :
  os.File_flag f = logpull.log_flag ->
  is_Some (MessageReactions_Emoji r) ->
  produces (child_event (os.File_name f))
    (logpull.pullChannel_reaction host d f gid id m r).
Proof.
  intros Hf [emoji Hemoji] w.
  destruct (Session_MessageReactions d (requests w) id (Message_ID m)
              (APIName emoji) 100) as [users err] eqn:Hresp.
  eapply total_mono;
    [apply (reaction_total host d f gid id m r emoji users err w
              Hf Hemoji Hresp)|].
  intros [] w' (logged & named & anonymous & Ht & _ & _ & Hall).
  eexists. split; [exact Ht|]. constructor; [exact I|].
  apply Forall_app. split.
  - apply List.Forall_forall. intros e He.
    apply in_map_iff in He as (l & <- & _). exact I.
  - apply List.Forall_forall. intros e He.
    apply in_map_iff in He as (row & <- & Hrow).
    rewrite List.Forall_forall in Hall.
    destruct (Hall row Hrow) as (Htype & _).
    split; [reflexivity|]. rewrite Htype. discriminate.
Qed.

Lemma children_produce f gid id m :
  os.File_flag f = logpull.log_flag ->
  message_ok m = true ->
  produces (child_event (os.File_name f))
    (logpull.pullChannel_children host d f gid id m).
Proof.
  intros Hf Hok. unfold logpull.pullChannel_children.
  apply produces_bind.
  { apply produces_for_range. intros e _. now apply embed_produces. }
  intros _. apply produces_bind.
  { apply produces_for_range. intros a _. now apply attachment_produces. }
  intros _. apply produces_for_range. intros r Hr.
  apply reaction_produces; [exact Hf|].
  unfold message_ok in Hok. apply andb_true_iff in Hok as [_ Hall].
  rewrite forallb_forall in Hall. specialize (Hall r Hr).
  now apply bool_decide_eq_true in Hall.
Qed.

Lemma writes_to_cons_same name row evs :
  writes_to name (EvWrite name row :: evs) = row :: writes_to name evs.
Proof. unfold writes_to. cbn. now rewrite String.eqb_refl. Qed.

Lemma message_ids_cons_other row rows :
  row_type row <> "message" -> message_ids (row :: rows) = message_ids rows.
Proof. intros H. unfold message_ids. now rewrite filter_cons_False. Qed.

Lemma message_ids_cons_message row rows :
  row_type row = "message" ->
  message_ids (row :: rows) = row_id row :: message_ids rows.
Proof. intros H. unfold message_ids. now rewrite filter_cons_True. Qed.

Lemma message_ids_app rows1 rows2 :
  message_ids (rows1 ++ rows2)
  = (message_ids rows1 ++ message_ids rows2)%list.
Proof. unfold message_ids. now rewrite filter_app, map_app. Qed.

(** The inner loops write no message row. *)
Lemma child_events_no_message name evs :
  Forall (child_event name) evs ->
  message_ids (writes_to name evs) = []
  /\ Forall (fun r => match r with
                      | ReqMessageReactions _ _ _ _ => True
                      | _ => False
                      end) (requests_of evs).
Proof.
  induction 1 as [|e evs He _ [IH1 IH2]]; [now split|].
  destruct e as [r|tag i entry same|n row|kind loc|line].
  - split; [exact IH1|]. simpl. constructor; [|exact IH2].
    simpl in He. now destruct r.
  - contradiction.
  - destruct He as [-> Hrow].
    rewrite writes_to_cons_same, message_ids_cons_other by exact Hrow.
    split; [exact IH1|exact IH2].
  - split; [exact IH1|exact IH2].
  - split; [exact IH1|exact IH2].
Qed.

Lemma cursors_app evs1 evs2 :
  cursors (evs1 ++ evs2) = (cursors evs1 ++ cursors evs2)%list.
Proof. apply omap_app. Qed.

Lemma cursors_of_logs lines : cursors (map EvLog lines) = [].
Proof. induction lines; simpl; auto. Qed.

Lemma child_events_no_cursor name evs :
  Forall (child_event name) evs -> cursors evs = [].
Proof.
  induction 1 as [|e evs He _ IH]; [reflexivity|].
  destruct e as [r|tag i entry same|n row|kind loc|line]; try exact IH.
  destruct r; simpl in He; try contradiction. exact IH.
Qed.

(** One message of a page: its row, then what its inner loops write. *)
Lemma message_total f gid id m w :
  os.File_flag f = logpull.log_flag ->
  message_ok m = true ->
  total (logpull.pullChannel_message host d f gid id m) w
    (fun _ w' =>
       exists evs,
         trace w' = (trace w ++ evs)%list
         /\ message_ids (writes_to (os.File_name f) evs) = [Message_ID m]
         /\ cursors evs = []).
Proof.
  intros Hf Hok.
  assert (Hauthor : is_Some (Message_Author m)).
  { unfold message_ok in Hok. apply andb_true_iff in Hok as [Ha _].
    now apply bool_decide_eq_true in Ha. }
  destruct Hauthor as [author Hauthor].
  destruct (Make_message_Ok (Host_clock host (clock_reads w)) m author
              Hauthor) as (made & HM & Hrow & Htype & Hid).
  destruct (call_Make_Done host "history" "add" _ made w HM)
    as (w1 & Hrun1 & Ht1 & _).
  destruct (Write_appends f (logentry.made_row made) w1 Hf)
    as (w2 & Hrun2 & Ht2 & _).
  destruct (children_produce f gid id m Hf Hok w2)
    as ([] & w3 & Hrun3 & evs & Ht3 & Hevs).
  exists tt, w3. split.
  { unfold logpull.pullChannel_message, logpull.logentry_Message.
    now rewrite (bind_Done _ _ _ _ _ Hrun1), (bind_Done _ _ _ _ _ Hrun2). }
  exists (map EvLog (logentry.made_log made)
          ++ EvWrite (os.File_name f) (logentry.made_row made) :: evs)%list.
  split; [rewrite Ht3, Ht2, Ht1; now rewrite <- !app_assoc|].
  destruct (child_events_no_message _ _ Hevs) as [Hnone _].
  split.
  - rewrite writes_to_app, writes_to_of_logs, writes_to_cons_same. simpl.
    rewrite Hrow, message_ids_cons_message by exact Htype.
    now rewrite Hnone, Hid.
  - rewrite cursors_app, cursors_of_logs. simpl.
    now apply (child_events_no_cursor (os.File_name f)).
Qed.

(** The messages of a page, in the order the loop takes them. *)
Lemma messages_total f gid id msgs w :
  os.File_flag f = logpull.log_flag ->
  forallb message_ok msgs = true ->
  total (for_range msgs (logpull.pullChannel_message host d f gid id)) w
    (fun _ w' =>
       exists evs,
         trace w' = (trace w ++ evs)%list
         /\ message_ids (writes_to (os.File_name f) evs)
            = map Message_ID msgs
         /\ cursors evs = []).
Proof.
  intros Hf Hok.
  apply (total_for_range _
           (fun done w' =>
              exists evs,
                trace w' = (trace w ++ evs)%list
                /\ message_ids (writes_to (os.File_name f) evs)
                   = map Message_ID done
                /\ cursors evs = [])
           msgs [] w).
  - exists []. now rewrite app_nil_r.
  - intros done m w1 Hm (evs & Ht & Hids & Hcur).
    rewrite forallb_forall in Hok.
    eapply total_mono; [apply (message_total f gid id m w1 Hf (Hok m Hm))|].
    intros [] w2 (evs2 & Ht2 & Hids2 & Hcur2). exists (evs ++ evs2)%list.
    split; [rewrite Ht2, Ht; now rewrite app_assoc|]. split.
    + now rewrite writes_to_app, message_ids_app, Hids, Hids2, map_app.
    + now rewrite cursors_app, Hcur, Hcur2.
Qed.

End Pages.

Section PageClaim.
Import discordgo.

Lemma OpenFile_ok host name w :
  Host_OpenFile_fails host name = false ->
  exists w0,
    os.OpenFile host name logpull.log_flag w
    = Done (Some {| os.File_name := name;
                    os.File_flag := logpull.log_flag |}, None) w0
    /\ trace w0 = trace w /\ requests w0 = requests w.
Proof.
  intros Hok. unfold os.OpenFile. rewrite Hok.
  destruct (files w !! name); eexists; (split; [reflexivity|]); now split.
Qed.

Lemma last_message_spec rows found :
  logutil.last_message rows found
  = match last (message_ids rows) with
    | Some id => Some id
    | None => found
    end.
Proof.
  revert found. induction rows as [|row rows IH]; intros found;
    [reflexivity|].
  simpl. fold (row_type row). fold (row_id row).
  destruct (String.eqb_spec (row_type row) "message") as [Hm|Hm].
  - rewrite message_ids_cons_message by exact Hm. rewrite IH, last_cons.
    now destruct (last (message_ids rows)).
  - rewrite message_ids_cons_other by exact Hm. apply IH.
Qed.

Lemma forallb_rev {A} (p : A -> bool) (l : list A) :
  forallb p l = true -> forallb p (rev l) = true.
Proof.
  rewrite !forallb_forall. intros H x Hx. apply H. now apply in_rev.
Qed.

(** Two rounds of the page loop: a page, then the empty page. *)
Lemma pages_total host d fuel f gid id after m0 msgs w :
  os.File_flag f = logpull.log_flag ->
  forallb message_ok (m0 :: msgs) = true ->
  (forall n, Session_ChannelMessages d n id 100 "" after ""
             = (m0 :: msgs, None)) ->
  (forall n, Session_ChannelMessages d n id 100 "" (Message_ID m0) ""
             = ([], None)) ->
  total (logpull.pullChannel_pages host d (S (S fuel)) f gid id after) w
    (fun _ w' =>
       exists evs,
         trace w' = (trace w ++ evs)%list
         /\ cursors evs = [after; Message_ID m0]
         /\ message_ids (writes_to (os.File_name f) evs)
            = map Message_ID (rev (m0 :: msgs))).
Proof.
  intros Hf Hok Hpage Hempty.
  change (logpull.pullChannel_pages host d (S (S fuel)) f gid id after)
    with ('(page, err) ← logpull.d_ChannelMessages d id 100 "" after "";
          match err with
          | Some e =>
              log_Printf ("[" ++ gid ++ "/" ++ id
                          ++ "] error getting messages from " ++ after
                          ++ ": " ++ e)
          | None => mret tt
          end;;
          match page with
          | [] => mret tt
          | msgs0 :: _ =>
              for_range (rev page)
                (logpull.pullChannel_message host d f gid id);;
              log_Printf ("[" ++ gid ++ "/" ++ id ++ "] downloaded "
                          ++ strconv.Itoa (Z.of_nat (length page))
                          ++ " messages, last id " ++ Message_ID msgs0
                          ++ " with content " ++ Message_Content msgs0);;
              logpull.pullChannel_pages host d (S fuel) f gid id
                (Message_ID msgs0)
          end).
  apply total_bind. eexists _, _. split.
  { unfold logpull.d_ChannelMessages. rewrite Hpage. reflexivity. }
  cbv beta iota. apply total_bind. eexists _, _. split; [reflexivity|].
  apply total_bind.
  eapply total_mono;
    [apply (messages_total host d f gid id (rev (m0 :: msgs)) _ Hf
              (forallb_rev _ _ Hok))|].
  intros [] w1 (evs & Ht & Hids & Hcur). cbv beta.
  apply total_bind. eexists _, _. split; [reflexivity|].
  (* the second round *)
  simpl logpull.pullChannel_pages.
  apply total_bind. eexists _, _. split.
  { unfold logpull.d_ChannelMessages. rewrite Hempty. reflexivity. }
  cbv beta iota. apply total_bind. eexists _, _. split; [reflexivity|].
  apply total_ret. simpl trace. rewrite Ht. simpl trace.
  eexists. split; [rewrite <- !app_assoc; reflexivity|].
  split.
  - rewrite cursors_app. simpl. rewrite !cursors_app, Hcur. reflexivity.
  - rewrite writes_to_app.
    change (writes_to (os.File_name f)
              [EvRequest (ReqChannelMessages id 100 "" after "")])
      with (@nil Row).
    rewrite !writes_to_app. simpl app.
    match goal with
    | |- message_ids (_ ++ ?x)%list = _ => change x with (@nil Row)
    end.
    rewrite app_nil_r. exact Hids.
Qed.

End PageClaim.

Section PageOrderClaim.
Import discordgo.

(** C6, as the code has it.  [pullChannel] asks for the messages after the
  cursor and writes every message of the page it gets, without comparing
  ids with the cursor, in the reverse of the page's order (ascending ids
  for a page in descending order); it then asks for the messages after
  the id of the page's first message, and stops at the empty page.  The
  cursor resolved from the file afterwards is that id. *)
Theorem C6_page_order (host : Host) (d : Session) (fuel : nat)
      (gid id after : string) (m0 : Message) (msgs : list Message)
      (w : World) :
Host_OpenFile_fails host (channel_file gid id) = false ->
forallb message_ok (m0 :: msgs) = true ->
(forall n, Session_ChannelMessages d n id 100 "" after ""
           = (m0 :: msgs, None)) ->
(forall n, Session_ChannelMessages d n id 100 "" (Message_ID m0) ""
           = ([], None)) ->
exists w',
  logpull.pullChannel host d (S (S fuel)) gid id after w = Done tt w'
  /\ cursors (new_events w w') = [after; Message_ID m0]
  /\ message_ids (writes_to (channel_file gid id) (new_events w w'))
     = map Message_ID (rev (m0 :: msgs))
  /\ default [] (files w' !! channel_file gid id)
     = (default [] (files w !! channel_file gid id)
        ++ writes_to (channel_file gid id) (new_events w w'))%list
  /\ logutil.last_message (default [] (files w' !! channel_file gid id))
       None
     = Some (Message_ID m0).
Proof.
intros Hopen Hok Hpage Hempty.
set (name := channel_file gid id) in *.
destruct (OpenFile_ok host name w Hopen) as (w0 & Hrun0 & Ht0 & _).
destruct (pages_total host d fuel
            {| os.File_name := name; os.File_flag := logpull.log_flag |}
            gid id after m0 msgs w0 eq_refl Hok Hpage Hempty)
  as ([] & w' & Hrun & evs & Ht & Hcur & Hids).
cbn [os.File_name] in Hids.
assert (Hwhole : logpull.pullChannel host d (S (S fuel)) gid id after w
                 = Done tt w').
{ unfold logpull.pullChannel. fold (channel_file gid id). fold name.
  rewrite (bind_Done _ _ _ _ _ Hrun0). exact Hrun. }
assert (Hnew : new_events w w' = evs).
{ apply new_events_app. now rewrite Ht, Ht0. }
pose proof (pullChannel_grows host d (S (S fuel)) gid id after w) as Hg.
rewrite Hwhole in Hg. simpl in Hg.
pose proof (grows_files _ _ Hg name) as Hfiles.
exists w'. split; [exact Hwhole|]. rewrite Hnew in *.
split; [exact Hcur|]. split; [exact Hids|]. split; [exact Hfiles|].
rewrite Hfiles, last_message_spec, message_ids_app, Hids.
simpl rev. rewrite map_app, app_assoc. simpl map.
now rewrite last_snoc.
Qed.

Lemma C6_page_order_witness :
(Host_OpenFile_fails host0 file_C = false
 /\ forallb message_ok
      [message_of "8" 0 ""; message_of "7" 0 ""; message_of "6" 0 ""]
    = true)
/\ exists w',
    logpull.pullChannel host0
      (session_of (guild_of []) "5"
         [message_of "8" 0 ""; message_of "7" 0 ""; message_of "6" 0 ""]
         [])
      2 "G" "C" "5" world_five
    = Done tt w'
    /\ cursors (new_events world_five w') = ["5"; "8"]
    /\ message_ids (writes_to file_C (new_events world_five w'))
       = ["6"; "7"; "8"]
    /\ logutil.last_message (default [] (files w' !! file_C)) None
       = Some "8".
Proof.
split; [split; reflexivity|].
destruct (C6_page_order host0
            (session_of (guild_of []) "5"
               [message_of "8" 0 ""; message_of "7" 0 "";
                message_of "6" 0 ""] [])
            0 "G" "C" "5" (message_of "8" 0 "")
            [message_of "7" 0 ""; message_of "6" 0 ""] world_five
            eq_refl eq_refl (fun n => eq_refl) (fun n => eq_refl))
  as (w' & Hrun & Hcur & Hids & _ & Hlast).
exists w'. split; [exact Hrun|]. split; [exact Hcur|].
split; [exact Hids|exact Hlast].
Defined.

(** C6 as stated fails: with the cursor 5 and a page holding the ids 8, 7,
  6, 5, the message 5 is written as well, so that the file holds it
  twice. *)
Lemma C6_counterexample :
exists w',
  logpull.pullChannel host0
    (session_of (guild_of []) "5"
       [message_of "8" 0 ""; message_of "7" 0 ""; message_of "6" 0 "";
        message_of "5" 0 ""] [])
    2 "G" "C" "5" world_five
  = Done tt w'
  /\ message_ids (writes_to file_C (trace w')) = ["5"; "6"; "7"; "8"]
  /\ message_ids (default [] (files w' !! file_C))
     = ["5"; "5"; "6"; "7"; "8"].
Proof. eexists. split; [vm_compute; reflexivity|]. split; reflexivity. Qed.

End PageOrderClaim.

(* ===================================================================== *)
(** ** Running Pull again                                                 *)
(* ===================================================================== *)

Section Rerun.
Import discordgo.

(** No cache entry equals both overwrite rows of role "R": whatever the
    cache holds for the key ("permoverwrite", "R"), one of the two
    channels' overwrites differs from it. *)
Lemma overwrite_rows_clash cached now1 now2 made1 made2 :
  logentry.Make now1 "history" "add"
    (logentry.EPermissionOverwrite (overwrite_of "R" 0 1)) = Ok made1 ->
  logentry.Make now2 "history" "add"
    (logentry.EPermissionOverwrite (overwrite_of "R" 0 2)) = Ok made2 ->
  logutil.Equals cached (logentry.made_row made1) = true ->
  logutil.Equals cached (logentry.made_row made2) = false.
Proof.
  intros [= <-] [= <-]. simpl. destruct cached as [|c cached]; [discriminate|].
  intros H1. apply bool_decide_eq_true in H1. rewrite H1.
  now apply bool_decide_eq_false.
Qed.

(** C1 fails on the code.  The guild "G" has two channels that each carry a
  permission overwrite for the role "R", with allow masks 1 and 2.  A
  first run of [Pull] from empty files writes both overwrite rows; a
  second run, in a new process and against the same remote, appends the
  overwrite row of the first channel to the guild file once more. *)
Theorem C1_rerun_appends_row :
exists w1 w2 rows,
  logpull.Pull host0 (session_of guild_two "0" [] []) 3 channel_A world0
  = Done tt w1
  /\ logpull.Pull host0 (session_of guild_two "0" [] []) 3 channel_A
       (restart w1)
     = Done tt w2
  /\ files w1 !! guild_file "G" = Some rows
  /\ files w2 !! guild_file "G"
     = Some (rows ++ [["t7"; "history"; "add"; "permoverwrite"; "R";
                       "role"; "1"; "0"]])%list
  /\ logformat.bytes
       (rows ++ [["t7"; "history"; "add"; "permoverwrite"; "R";
                  "role"; "1"; "0"]])
     <> logformat.bytes rows.
Proof.
do 3 eexists. split; [vm_compute; reflexivity|].
split; [vm_compute; reflexivity|].
split; [vm_compute; reflexivity|].
split; [vm_compute; reflexivity|].
vm_compute. discriminate.
Qed.

End Rerun.

(* ===================================================================== *)
(** ** Failed fetches                                                     *)
(* ===================================================================== *)

Section FetchErrors.
Import discordgo.
Variable host : Host.
Variable d : Session.

Lemma members_grows fuel f id cache after w :
  os.File_flag f = logpull.log_flag ->
  grows w (world_of (logpull.pullGuild_members host d fuel f id cache
                       after w)).
Proof.
  intros Hf.
  apply (respects_members grows host d grows_quiet grows_background
           (fun _ => True) cache); auto.
  intros f' tag i entry Hf' _. now apply grows_detect.
Qed.

Lemma members_round_grows fuel f id cache after members err w :
  os.File_flag f = logpull.log_flag ->
  grows w
    (world_of
       (logpull.pullGuild_members_round host
          (logpull.pullGuild_members host d fuel f id cache)
          f id cache after members err w)).
Proof.
  intros Hf.
  apply (respects_members_round grows host grows_quiet grows_background
           (fun _ => True) cache); auto.
  - intros f' tag i entry Hf' _. now apply grows_detect.
  - intros a w'. now apply members_grows.
Qed.

(** A round of the member loop starts with the request for the members
    after the cursor. *)
Lemma members_start fuel f id cache after w :
  os.File_flag f = logpull.log_flag ->
  exists rest,
    new_events w
      (world_of (logpull.pullGuild_members host d (S fuel) f id cache
                   after w))
    = EvRequest (ReqGuildMembers id after 1000) :: rest.
Proof.
  intros Hf. simpl logpull.pullGuild_members.
  set (w1 := count_request
               (add_event (EvRequest (ReqGuildMembers id after 1000)) w)).
  assert (Hrun : logpull.d_GuildMembers d id after 1000 w
                 = Done (Session_GuildMembers d (requests w) id after 1000)
                     w1) by reflexivity.
  rewrite (bind_Done _ _ _ _ _ Hrun).
  destruct (Session_GuildMembers d (requests w) id after 1000)
    as [members err].
  pose proof (members_round_grows fuel f id cache after members err w1 Hf)
    as Hg.
  eexists. apply new_events_app. rewrite (grows_new_events _ _ Hg).
  unfold w1 at 1. simpl trace. rewrite <- app_assoc. reflexivity.
Qed.



(** While every member request fails the member loop does not end:
    whatever the step budget, it is used up. *)
Lemma members_never_return fuel f id cache after w :
  (forall n, exists members e,
      Session_GuildMembers d n id after 1000 = (members, Some e)) ->
  exists w',
    logpull.pullGuild_members host d fuel f id cache after w = Exhausted w'.
Proof.
  intros Hfail. revert w. induction fuel as [|fuel IH]; intros w.
  - now exists w.
  - simpl logpull.pullGuild_members.
    destruct (Hfail (requests w)) as (members & e & Hresp).
    set (w1 := count_request
                 (add_event (EvRequest (ReqGuildMembers id after 1000)) w)).
    assert (Hrun : logpull.d_GuildMembers d id after 1000 w
                   = Done (members, Some e) w1).
    { unfold logpull.d_GuildMembers. now rewrite Hresp. }
    rewrite (bind_Done _ _ _ _ _ Hrun). cbv beta iota.
    unfold logpull.pullGuild_members_round.
    set (line := "[" ++ id ++ "] error getting members from " ++ after
                 ++ ": " ++ e).
    assert (Hlog : log_Printf line w1 = Done tt (add_event (EvLog line) w1))
      by reflexivity.
    rewrite (bind_Done _ _ _ _ _ Hlog). apply IH.
Qed.

End FetchErrors.

Section FetchErrorsClaim.
Import discordgo.




End FetchErrorsClaim.

(* ===================================================================== *)
(** ** A guild whose metadata cannot be fetched                           *)
(* ===================================================================== *)

Section GuildFetchFails.
Import discordgo.
Variable host : Host.
Variable d : Session.
Variable gid : string.

(** The request for the guild fails whenever it is sent. *)
Hypothesis fetch_fails : forall n, is_Some (snd (Session_Guild d n gid)).





(** When the request yields no guild at all, [pullGuild] panics on the
    nil pointer right after logging the error, having written nothing. *)
Lemma pullGuild_nil_guild_panics fuel cache e w :
  Host_OpenFile_fails host (guild_file gid) = false ->
  Session_Guild d (requests w) gid = (None, Some e) ->
  exists msg w',
    logpull.pullGuild host d fuel gid cache w = Panicked msg w'
    /\ writes (new_events w w') = [].
Proof.
  intros Hopen Hresp. unfold logpull.pullGuild. fold (guild_file gid).
  destruct (OpenFile_ok host (guild_file gid) w Hopen)
    as (w0 & Hrun0 & Ht0 & Hr0).
  rewrite (bind_Done _ _ _ _ _ Hrun0). cbv beta iota.
  set (w1 := count_request (add_event (EvRequest (ReqGuild gid)) w0)).
  assert (Hrun1 : logpull.d_Guild d gid w0 = Done (None, Some e) w1).
  { unfold logpull.d_Guild. now rewrite Hr0, Hresp. }
  rewrite (bind_Done _ _ _ _ _ Hrun1). cbv beta iota.
  eexists _, _. split; [reflexivity|].
  unfold new_events. simpl trace. rewrite Ht0, <- app_assoc, drop_app_length.
  reflexivity.
Qed.


End GuildFetchFails.

Section GateClaim.
Import discordgo.

(** The guild block of [Pull] enters the guild first; it stays entered
    through the rest of the call. *)
Lemma gate_after_guild host d fuel c w :
  fetchedGuilds
    (world_of
       ((logpull.Pull_guild host d fuel c ≫= fun go_on =>
         if negb go_on then mret tt
         else logpull.Pull_channel host d fuel c) w))
    !! Channel_GuildID c = Some true.
Proof.
  unfold logpull.Pull_guild. rewrite M_bind_assoc.
  set (w1 := set_fetchedGuilds
               (<[Channel_GuildID c := true]> (fetchedGuilds w)) w).
  assert (Hput : logpull.put_fetchedGuilds (Channel_GuildID c) true w
                 = Done tt w1) by reflexivity.
  rewrite (bind_Done _ _ _ _ _ Hput).
  assert (H1 : fetchedGuilds w1 !! Channel_GuildID c = Some true)
    by apply lookup_insert_eq.
  pose proof (Pull_guild_sync_grows host d fuel c w1) as Hg.
  unfold mbind, M_bind.
  destruct (logpull.Pull_guild_sync host d fuel c w1) as [go w2|msg w2|w2];
    simpl in Hg; pose proof (grows_fetched _ _ Hg _ H1) as H2;
    [|exact H2..].
  destruct go; simpl; [|exact H2].
  apply (grows_fetched _ _ (Pull_channel_grows host d fuel c w2)).
  exact H2.
Qed.

(** Once [Pull] is past the creation of the directory, the guild of the
    channel is entered in [fetchedGuilds], however the call ends. *)
Lemma gate_marked host d fuel c w :
  Host_MkdirAll_fails host ("channels/" ++ Channel_GuildID c) = false ->
  fetchedGuilds (world_of (logpull.Pull host d fuel c w))
    !! Channel_GuildID c = Some true.
Proof.
  intros Hdir. unfold logpull.Pull.
  assert (Hmk : os.MkdirAll host ("channels/" ++ Channel_GuildID c) w
                = Done None w).
  { unfold os.MkdirAll. now rewrite Hdir. }
  rewrite (bind_Done _ _ _ _ _ Hmk). cbv beta iota.
  assert (Hget : logpull.get_fetchedGuilds (Channel_GuildID c) w
                 = Done (default false
                           (fetchedGuilds w !! Channel_GuildID c)) w)
    by reflexivity.
  rewrite (bind_Done _ _ _ _ _ Hget).
  destruct (fetchedGuilds w !! Channel_GuildID c) as [[|]|] eqn:Hgate;
    simpl default; cbv beta iota.
  - (* already entered *)
    assert (Hret : (mret true : M bool) w = Done true w) by reflexivity.
    rewrite (bind_Done _ _ _ _ _ Hret). cbv beta iota. simpl negb.
    cbv iota.
    apply (grows_fetched _ _ (Pull_channel_grows host d fuel c w)).
    exact Hgate.
  - simpl negb. cbv iota. apply gate_after_guild.
  - simpl negb. cbv iota. apply gate_after_guild.
Qed.




End GateClaim.

(* ===================================================================== *)
(** ** Further properties of the row encoder                              *)
(* ===================================================================== *)

Section EncoderMore.
Import discordgo logentry.


Lemma fields_length_by_type v v' row row' e e' l l' :
  Type_ v = Type_ v' ->
  fields v = Ok (row, e, l) -> fields v' = Ok (row', e', l') ->
  length row = length row' /\ (1 <= length row)%nat.
Proof.
  intros Ht H H'.
  destruct v as [m|a|r|en|g|m|r|c|o|em|];
    destruct v' as [m'|a'|r'|en'|g'|m'|r'|c'|o'|em'|];
    try discriminate Ht; simpl in H, H';
    repeat match goal with
      | H : context [match ?x with _ => _ end] |- _ => destruct x
      | H : Panic _ = Ok _ |- _ => discriminate H
      | H : (let '(_, _) := ?x in _) = _ |- _ => destruct x
      end;
    injection H as <- _ _; injection H' as <- _ _;
    repeat match goal with
      | |- context [if ?b then _ else _] => destruct b
      end;
    simpl; split; (reflexivity || lia).
Qed.

(** X2.  The rows of [Make] have a fixed shape: the first four columns are
  the clock reading, the fetch type, the operation and the type name that
  [Type] gives the entity; an id column follows; and the number of
  columns depends on the type of the entity only, not on its content. *)
Theorem X2_row_shape (now ftype op now' ftype' op' : string)
      (v v' : Entity) (made made' : Made) :
Make now ftype op v = Ok made ->
Make now' ftype' op' v' = Ok made' ->
Type_ v = Type_ v' ->
(exists tag,
    Type_ v = Ok tag /\ take 4 (made_row made) = [now; ftype; op; tag])
/\ (5 <= length (made_row made))%nat
/\ length (made_row made) = length (made_row made').
Proof.
intros H H' Ht.
destruct (Make_Ok_inv _ _ _ _ _ H) as (row & tag & Hf & Htag & Hrow).
destruct (Make_Ok_inv _ _ _ _ _ H') as (row' & tag' & Hf' & _ & Hrow').
destruct (fields_length_by_type _ _ _ _ _ _ _ _ Ht Hf Hf') as [Hlen Hpos].
rewrite Hrow, Hrow'. split; [now exists tag|]. simpl. split; lia.
Qed.

Lemma X2_row_shape_witness :
exists made made',
  Make "t0" "history" "add" (EMessage (message_of "7" 0 "")) = Ok made
  /\ Make "t1" "live" "add" (EMessage (message_of "8" 19 "hook"))
     = Ok made'
  /\ take 4 (made_row made) = ["t0"; "history"; "add"; "message"]
  /\ length (made_row made) = length (made_row made').
Proof.
do 2 eexists. split; [reflexivity|]. split; [reflexivity|].
destruct (X2_row_shape "t0" "history" "add" "t1" "live" "add"
            (EMessage (message_of "7" 0 ""))
            (EMessage (message_of "8" 19 "hook")) _ _
            eq_refl eq_refl eq_refl) as ((tag & Htag & Hhead) & _ & Hlen).
split; [|exact Hlen]. injection Htag as <-. exact Hhead.
Defined.

(** Decimal rendering loses nothing. *)
Lemma to_int_not_nil z :
  Z.to_int z <> Decimal.Pos Decimal.Nil
  /\ Z.to_int z <> Decimal.Neg Decimal.Nil.
Proof.
  pose proof (DecimalZ.to_of (Z.to_int z)) as H.
  rewrite DecimalZ.of_to in H.
  split; intros Hz; rewrite Hz in H; discriminate H.
Qed.

Lemma Itoa_inj a b : strconv.Itoa a = strconv.Itoa b -> a = b.
Proof.
  unfold strconv.Itoa. intros H.
  apply (f_equal NilZero.int_of_string) in H.
  destruct (to_int_not_nil a) as [Ha1 Ha2].
  destruct (to_int_not_nil b) as [Hb1 Hb2].
  rewrite !NilZero.isi in H by assumption.
  injection H as H. now apply DecimalZ.to_int_inj.
Qed.

Lemma formatMessageType_known_name t :
  known_message_type t = true ->
  forall s, fst (formatMessageType t) <> "unknown-" ++ s.
Proof.
  unfold known_message_type. intros H s. apply bool_decide_eq_true in H.
  repeat (apply elem_of_cons in H as [->|H]; [discriminate|]).
  inversion H.
Qed.

(** X3.  The rendering of message types loses nothing: two message types
  with the same rendering are the same type, whether or not they have a
  case; and a log line is printed exactly for the types without a
  case. *)
Theorem X3_formatMessageType_injective (t1 t2 : Z) :
(fst (formatMessageType t1) = fst (formatMessageType t2) -> t1 = t2)
/\ (snd (formatMessageType t1) = [] <-> known_message_type t1 = true).
Proof.
split.
- destruct (known_message_type t1) eqn:H1;
    destruct (known_message_type t2) eqn:H2.
  + unfold known_message_type in H1, H2.
    apply bool_decide_eq_true in H1, H2.
    repeat (apply elem_of_cons in H1 as [->|H1];
            [repeat (apply elem_of_cons in H2 as [->|H2];
                     [first [reflexivity|discriminate]|]);
             inversion H2|]).
    inversion H1.
  + rewrite (formatMessageType_unknown _ H2). intros H.
    now apply formatMessageType_known_name in H.
  + rewrite (formatMessageType_unknown _ H1). intros H. symmetry in H.
    now apply formatMessageType_known_name in H.
  + rewrite (formatMessageType_unknown _ H1),
      (formatMessageType_unknown _ H2). simpl. intros H.
    apply String.app_inj in H. now apply Itoa_inj.
- split.
  + intros H. destruct (known_message_type t1) eqn:Hk; [reflexivity|].
    rewrite (formatMessageType_unknown _ Hk) in H. discriminate H.
  + apply formatMessageType_known.
Qed.

(** X4.  Channel types with a case have pairwise different names, none of
  them "invalid"; a channel type is rendered as "invalid" exactly when
  it has no case. *)
Theorem X4_formatChannelType_names (t1 t2 : Z) :
(known_channel_type t1 = true -> known_channel_type t2 = true ->
 formatChannelType t1 = formatChannelType t2 -> t1 = t2)
/\ (formatChannelType t1 = "invalid" <-> known_channel_type t1 = false).
Proof.
split.
- unfold known_channel_type. intros H1 H2.
  apply bool_decide_eq_true in H1, H2.
  repeat (apply elem_of_cons in H1 as [->|H1];
          [repeat (apply elem_of_cons in H2 as [->|H2];
                   [first [reflexivity|discriminate]|]);
           inversion H2|]).
  inversion H1.
- split.
  + intros H. destruct (known_channel_type t1) eqn:Hk; [|reflexivity].
    unfold known_channel_type in Hk. apply bool_decide_eq_true in Hk.
    repeat (apply elem_of_cons in Hk as [->|Hk]; [discriminate H|]).
    inversion Hk.
  + apply formatChannelType_unknown.
Qed.

Lemma X4_formatChannelType_names_witness :
(known_channel_type 2 = true /\ known_channel_type 4 = true)
/\ formatChannelType 2 <> formatChannelType 4
/\ formatChannelType 13 = "invalid".
Proof.
split; [split; reflexivity|].
destruct (X4_formatChannelType_names 2 4) as [Hinj _].
destruct (X4_formatChannelType_names 13 13) as [_ Hinv].
split; [|now apply Hinv].
intros H. specialize (Hinj eq_refl eq_refl H). discriminate Hinj.
Defined.

Lemma X3_formatMessageType_injective_witness :
fst (formatMessageType 8) <> fst (formatMessageType 21)
/\ snd (formatMessageType 19) = [].
Proof.
destruct (X3_formatMessageType_injective 8 21) as [Hinj _].
destruct (X3_formatMessageType_injective 19 19) as [_ [_ Hlog]].
split; [|now apply Hlog].
intros H. specialize (Hinj H). discriminate Hinj.
Defined.

Lemma insert_permutation s l : sort.insert s l ≡ₚ s :: l.
Proof.
  induction l as [|x l IH]; simpl; [reflexivity|].
  destruct (String.leb s x); [reflexivity|].
  rewrite IH. apply Permutation_swap.
Qed.

Lemma Sort_permutation l : sort.Sort l ≡ₚ l.
Proof.
  induction l as [|x l IH]; simpl; [reflexivity|].
  now rewrite insert_permutation, IH.
Qed.

Lemma ascending_Sorted l : ascending l -> Sorted String.le l.
Proof.
  induction l as [|x l IH]; [constructor|]. intros [Hx Hl].
  constructor; [now apply IH|].
  destruct l as [|y l]; constructor. unfold String.le.
  rewrite Hx. exact I.
Qed.

(** Sorting yields the same list for every order of the same items. *)
Lemma Sort_canonical l1 l2 : l1 ≡ₚ l2 -> sort.Sort l1 = sort.Sort l2.
Proof.
  intros Hp. apply (Sorted_unique String.le).
  - apply ascending_Sorted, Sort_ascending.
  - apply ascending_Sorted, Sort_ascending.
  - now rewrite !Sort_permutation.
Qed.

(** X5.  The member row is canonical in the role ids: a member's row does
  not depend on the order in which the role ids arrive (two members that
  differ only in that order get the same row, and are left in the same
  state), and the role ids that the encoder leaves in the member are the
  member's role ids, each as often as before, in ascending order. *)
Theorem X5_member_roles_canonical (now ftype op : string) (m : Member)
      (roles : list string) (made : Made) :
Member_Roles m ≡ₚ roles ->
Make now ftype op (EMember m) = Ok made ->
Make now ftype op (EMember (with_roles m roles)) = Ok made
/\ exists m',
    made_entity made = EMember m'
    /\ Member_Roles m' ≡ₚ Member_Roles m
    /\ ascending (Member_Roles m')
    /\ made_row made !! 9%nat = Some (strings.Join (Member_Roles m') ",").
Proof.
intros Hp HM. unfold Make in *. simpl in *.
rewrite <- (Sort_canonical _ _ Hp).
destruct (Member_User m) as [u|]; [|discriminate HM].
split; [exact HM|]. injection HM as <-. simpl.
eexists. split; [reflexivity|]. simpl.
split; [apply Sort_permutation|]. split; [apply Sort_ascending|reflexivity].
Qed.

Lemma X5_member_roles_canonical_witness :
Member_Roles member_ba ≡ₚ ["a"; "b"]
/\ exists made,
    Make "t0" "history" "add" (EMember member_ba) = Ok made
    /\ Make "t0" "history" "add" (EMember (with_roles member_ba ["a"; "b"]))
       = Ok made
    /\ made_row made !! 9%nat = Some "a,b".
Proof.
split; [apply Permutation_swap|].
eexists. split; [reflexivity|].
destruct (X5_member_roles_canonical "t0" "history" "add" member_ba
            ["a"; "b"] _ (Permutation_swap "a" "b" []) eq_refl)
  as (Hsame & _).
split; [exact Hsame|reflexivity].
Defined.

End EncoderMore.

(* ===================================================================== *)
(** ** What each part of the orchestrator may do                          *)
(* ===================================================================== *)

Section Alphabets.
Import discordgo.
Variable A : Alphabet.
Variable host : Host.
Variable d : Session.

Let R := stays_within A.

Local Instance within_preorder : PreOrder R.
Proof.
  assert (PreOrder (adds (Forall (within A)))) as HP.
  { apply adds_preorder; [constructor|].
    intros a b Ha Hb. now apply Forall_app. }
  split.
  - intros w. split; [reflexivity|auto].
  - intros w1 w2 w3 [H12 F12] [H23 F23]. split; [now transitivity w2|].
    intros name Hn. now rewrite F23, F12.
Qed.

Lemma within_quiet w w' :
  trace w' = trace w -> files w' = files w -> R w w'.
Proof.
  intros Ht Hf. split.
  - exists []. split; [now rewrite Ht, app_nil_r|constructor].
  - intros name _. now rewrite Hf.
Qed.

Lemma within_event e w : within A e -> R w (add_event e w).
Proof.
  intros He. split; [|reflexivity].
  exists [e]. split; [reflexivity|]. now constructor.
Qed.

Lemma within_log line : respects R (log_Printf line).
Proof. intros w. now apply within_event. Qed.

Lemma within_request {B} (r : Request) (answer : nat -> B) :
  ok_request A r ->
  respects R (fun w => Done (answer (requests w))
                         (count_request (add_event (EvRequest r) w))).
Proof.
  intros Hr w. simpl. etransitivity; [now apply (within_event (EvRequest r))|].
  now apply within_quiet.
Qed.

Lemma within_download kind locator :
  ok_download A kind -> respects R (cdndl.download host kind locator).
Proof. intros Hk w. now apply (within_event (EvDownload kind locator)). Qed.

Lemma within_Equals cache tag id entry :
  ok_tag A tag -> respects R (logpull.Equals cache tag id entry).
Proof.
  intros Ht w. unfold logpull.Equals, mbind, M_bind, emit. simpl.
  now apply (within_event (EvEquals tag id entry _)).
Qed.

Lemma within_Write f row :
  os.File_flag f = logpull.log_flag -> ok_file A (os.File_name f) ->
  respects R (logformat.Write f row).
Proof.
  intros Hf Hn w.
  destruct (Write_appends f row w Hf) as (w' & -> & Ht & Hfiles & _).
  simpl. split.
  - eexists. split; [exact Ht|]. now constructor.
  - intros name Hname. rewrite Hfiles. apply lookup_insert_ne.
    intros <-. now apply Hname.
Qed.

Lemma within_OpenFile name flag :
  ok_file A name -> respects R (os.OpenFile host name flag).
Proof.
  intros Hn w. unfold os.OpenFile.
  destruct (Host_OpenFile_fails host name); simpl; [reflexivity|].
  assert (forall rows, R w (set_files (<[name := rows]> (files w))
                              (set_offsets (<[name := 0%nat]> (offsets w)) w)))
    as Hset.
  { intros rows. split.
    - exists []. split; [simpl; now rewrite app_nil_r|constructor].
    - intros n Hne. simpl. apply lookup_insert_ne. intros <-. now apply Hne. }
  destruct (files w !! name) as [rows|].
  - destruct (os.has flag os.O_TRUNC); simpl; [apply Hset|].
    now apply within_quiet.
  - destruct (os.has flag os.O_CREATE); simpl; [apply Hset|reflexivity].
Qed.

Lemma within_time_Now : respects R (logpull.time_Now host).
Proof. intros w. now apply within_quiet. Qed.

Lemma within_put_fetchedGuilds gid b :
  respects R (logpull.put_fetchedGuilds gid b).
Proof. intros w. now apply within_quiet. Qed.

Lemma within_call_Make ftype op v :
  respects R (logpull.call_Make host ftype op v).
Proof.
  unfold logpull.call_Make.
  apply respects_bind; [exact _|apply within_time_Now|].
  intros now. destruct (logentry.Make now ftype op v) as [made|msg].
  - apply respects_bind; [exact _| |intros; apply respects_ret; exact _].
    apply respects_for_range; [exact _|]. intros. apply within_log.
  - apply respects_panic; exact _.
Qed.

(** One step of a proof that a computation stays within [A]; conditions
    on [A] are left as goals. *)
Ltac stays_step :=
  cbv beta iota;
  lazymatch goal with
  | |- respects _ (mret _) => apply respects_ret; exact _
  | |- respects _ (panic _) => apply respects_panic; exact _
  | |- respects _ exhausted => apply respects_exhausted; exact _
  | |- respects _ (deref _) => apply respects_deref; exact _
  | |- respects _ (log_Printf _) => apply within_log
  | |- respects _ (logpull.call_Make _ _ _ _) => apply within_call_Make
  | |- respects _ (cdndl.download _ _ _) => apply within_download
  | |- respects _ (logpull.Equals _ _ _ _) => apply within_Equals
  | |- respects _ (logformat.Write _ _) => apply within_Write
  | |- respects _ (logpull.d_Guild _ _) =>
      apply (within_request _ (fun n => Session_Guild d n _))
  | |- respects _ (logpull.d_GuildMembers _ _ _ _) =>
      apply (within_request _ (fun n => Session_GuildMembers d n _ _ _))
  | |- respects _ (logpull.d_ChannelMessages _ _ _ _ _ _) =>
      apply (within_request _
               (fun n => Session_ChannelMessages d n _ _ _ _ _))
  | |- respects _ (logpull.d_MessageReactions _ _ _ _ _) =>
      apply (within_request _
               (fun n => Session_MessageReactions d n _ _ _ _))
  | |- respects _ (os.Stat _) => apply respects_Stat; exact _
  | |- respects _ (os.MkdirAll _ _) => apply respects_MkdirAll; exact _
  | |- respects _ (logutil.GuildCache _ _) =>
      apply respects_GuildCache; exact _
  | |- respects _ (logutil.LastMessageID _) =>
      apply respects_LastMessageID; exact _
  | |- respects _ (logpull.get_fetchedGuilds _) =>
      apply respects_get_fetchedGuilds; exact _
  | |- respects _ (logpull.put_fetchedGuilds _ true) =>
      apply within_put_fetchedGuilds
  | |- respects _ (for_range _ _) =>
      apply respects_for_range; [exact _|intros ? ?]
  | |- respects _ (for_count _ _) => apply respects_for_count; [exact _|]
  | |- respects _ (mbind _ _) => apply respects_bind; [exact _| |intros ?]
  | |- respects _ (if ?b then _ else _) => destruct b
  | |- respects _ (match ?x with _ => _ end) => destruct x
  end.

Ltac stays :=
  unfold logpull.logentry_User, logpull.logentry_PermOverwrite,
    logpull.logentry_Channel, logpull.logentry_Role,
    logpull.logentry_Emoji, logpull.logentry_Guild,
    logpull.logentry_Message, logpull.logentry_Embed,
    logpull.logentry_Attachment, logpull.logentry_Reaction,
    cdndl.Avatar, cdndl.Icon, cdndl.Splash, cdndl.Emoji, cdndl.Attachment;
  repeat stays_step.

Section Channel.
Variables gid id : string.
Hypothesis A_messages : forall after,
  ok_request A (ReqChannelMessages id 100 "" after "").
Hypothesis A_reactions : forall m e,
  ok_request A (ReqMessageReactions id m e 100).
Hypothesis A_attachment : ok_download A "attachment".

Lemma within_children f m :
  os.File_flag f = logpull.log_flag -> ok_file A (os.File_name f) ->
  respects R (logpull.pullChannel_children host d f gid id m).
Proof.
  intros Hf Hn. unfold logpull.pullChannel_children,
    logpull.pullChannel_embed, logpull.pullChannel_attachment,
    logpull.pullChannel_reaction.
  stays; auto.
Qed.

Lemma within_pages fuel f after :
  os.File_flag f = logpull.log_flag -> ok_file A (os.File_name f) ->
  respects R (logpull.pullChannel_pages host d fuel f gid id after).
Proof.
  intros Hf Hn. revert after.
  induction fuel as [|fuel IH]; intros after; simpl; stays; auto.
  unfold logpull.pullChannel_message. stays; auto.
  now apply within_children.
Qed.

(** What follows the request in a round of the page loop. *)
Lemma within_pages_rest fuel f after msgs (err : option string) :
  os.File_flag f = logpull.log_flag -> ok_file A (os.File_name f) ->
  respects R
    (match err with
     | Some e =>
         log_Printf ("[" ++ gid ++ "/" ++ id
                     ++ "] error getting messages from " ++ after
                     ++ ": " ++ e)
     | None => mret tt
     end;;
     match msgs with
     | [] => mret tt
     | msgs0 :: _ =>
         for_range (rev msgs) (logpull.pullChannel_message host d f gid id);;
         log_Printf ("[" ++ gid ++ "/" ++ id ++ "] downloaded "
                     ++ strconv.Itoa (Z.of_nat (length msgs))
                     ++ " messages, last id " ++ Message_ID msgs0
                     ++ " with content " ++ Message_Content msgs0);;
         logpull.pullChannel_pages host d fuel f gid id (Message_ID msgs0)
     end).
Proof.
  intros Hf Hn. stays; auto.
  - unfold logpull.pullChannel_message. stays; auto.
    now apply within_children.
  - now apply within_pages.
Qed.

Hypothesis A_file : ok_file A (channel_file gid id).

Lemma within_pullChannel fuel after :
  respects R (logpull.pullChannel host d fuel gid id after).
Proof.
  unfold logpull.pullChannel. fold (channel_file gid id).
  apply respects_bind_val
    with (V := fun a => forall f, fst a = Some f ->
                                  os.File_flag f = logpull.log_flag
                                  /\ os.File_name f = channel_file gid id);
    [exact _|intros w a w'; apply OpenFile_returns
    |now apply within_OpenFile|].
  intros [f err] Hflag. destruct err as [e|]; [apply within_log|].
  destruct f as [f|]; [|apply respects_panic; exact _].
  destruct (Hflag f eq_refl) as [Hf Hn].
  apply within_pages; [exact Hf|now rewrite Hn].
Qed.

End Channel.

Section Guild.
Variable id : string.
Hypothesis A_guild : ok_request A (ReqGuild id).
Hypothesis A_members : forall after,
  ok_request A (ReqGuildMembers id after 1000).
Hypothesis A_media : forall kind,
  In kind ["icon"; "splash"; "emoji"; "avatar"] -> ok_download A kind.
Hypothesis A_tags : forall tag, In tag detected_tags -> ok_tag A tag.

Ltac allowed :=
  first [ assumption
        | apply A_media; simpl; tauto
        | apply A_tags; simpl; tauto
        | apply A_members ].

Lemma within_member_range f cache members after :
  os.File_flag f = logpull.log_flag -> ok_file A (os.File_name f) ->
  respects R (logpull.pullGuild_member_range host f id cache members after).
Proof.
  intros Hf Hn. revert after.
  induction members as [|m rest IH]; intros after; simpl;
    stays; try allowed.
  apply IH.
Qed.

Lemma within_members fuel f cache after :
  os.File_flag f = logpull.log_flag -> ok_file A (os.File_name f) ->
  respects R (logpull.pullGuild_members host d fuel f id cache after).
Proof.
  intros Hf Hn. revert after.
  induction fuel as [|fuel IH]; intros after; simpl;
    unfold logpull.pullGuild_members_round; stays; try allowed;
    try apply IH.
  now apply within_member_range.
Qed.

Lemma within_loops fuel f cache guild :
  os.File_flag f = logpull.log_flag -> ok_file A (os.File_name f) ->
  respects R (logpull.pullGuild_loops host d fuel f id cache guild).
Proof.
  intros Hf Hn.
  unfold logpull.pullGuild_loops, logpull.pullGuild_channel,
    logpull.pullGuild_overwrite, logpull.pullGuild_role,
    logpull.pullGuild_emoji.
  stays; try allowed.
  now apply within_members.
Qed.

Hypothesis A_file : ok_file A (guild_file id).

Lemma within_pullGuild fuel cache :
  respects R (logpull.pullGuild host d fuel id cache).
Proof.
  unfold logpull.pullGuild. fold (guild_file id).
  apply respects_bind_val
    with (V := fun a => forall f, fst a = Some f ->
                                  os.File_flag f = logpull.log_flag
                                  /\ os.File_name f = guild_file id);
    [exact _|intros w a w'; apply OpenFile_returns
    |now apply within_OpenFile|].
  intros [f err] Hflag. destruct err as [e|]; [apply within_log|].
  destruct f as [f|]; [|apply respects_panic; exact _].
  destruct (Hflag f eq_refl) as [Hf Hn].
  assert (ok_file A (os.File_name f)) as Hn' by now rewrite Hn.
  unfold logpull.pullGuild_guild. stays; try allowed.
  now apply within_loops.
Qed.

End Guild.

Section Whole.
Variable c : Channel.
Hypothesis A_messages : forall after,
  ok_request A (ReqChannelMessages (Channel_ID c) 100 "" after "").
Hypothesis A_reactions : forall m e,
  ok_request A (ReqMessageReactions (Channel_ID c) m e 100).
Hypothesis A_attachment : ok_download A "attachment".
Hypothesis A_channel_file :
  ok_file A (channel_file (Channel_GuildID c) (Channel_ID c)).

Lemma within_Pull_channel fuel :
  respects R (logpull.Pull_channel host d fuel c).
Proof.
  unfold logpull.Pull_channel. stays;
    now apply within_pullChannel.
Qed.

Hypothesis A_guild : ok_request A (ReqGuild (Channel_GuildID c)).
Hypothesis A_members : forall after,
  ok_request A (ReqGuildMembers (Channel_GuildID c) after 1000).
Hypothesis A_media : forall kind,
  In kind ["icon"; "splash"; "emoji"; "avatar"] -> ok_download A kind.
Hypothesis A_tags : forall tag, In tag detected_tags -> ok_tag A tag.
Hypothesis A_guild_file : ok_file A (guild_file (Channel_GuildID c)).

Lemma within_Pull fuel : respects R (logpull.Pull host d fuel c).
Proof.
  unfold logpull.Pull, logpull.Pull_guild, logpull.Pull_guild_sync.
  stays; solve [now apply within_pullGuild | apply within_Pull_channel].
Qed.

End Whole.

End Alphabets.

Section Footprints.
Import discordgo.

(** X6.  Whatever the remote answers and however the call ends (return,
  panic, or still paging when the fuel is spent), [pullChannel] for the
  channel [id] of guild [gid] sends only requests for pages of that
  channel (limit 100, no before or around id) and for the users of
  reactions in that channel (limit 100), downloads only attachments,
  never consults the change detector, writes only to
  channels/gid/id.tsv, and leaves every other file as it was. *)
Theorem X6_pullChannel_footprint (host : Host) (d : Session) (fuel : nat) (gid id after : string)
      (w : World) :
let w' := world_of (logpull.pullChannel host d fuel gid id after w) in
Forall (within (channel_alphabet gid id)) (new_events w w')
/\ forall name, name <> channel_file gid id ->
                files w' !! name = files w !! name.
Proof.
intros w'.
destruct (within_pullChannel (channel_alphabet gid id) host d gid id)
  with (fuel := fuel) (after := after) (w := w) as [Hadds Hframe];
  simpl; auto.
split; [|exact Hframe].
now apply (adds_new_events (Forall (within (channel_alphabet gid id)))).
Qed.

(** X7.  Whatever the remote answers and however the call ends,
  [pullGuild] for the guild [id] sends only the request for that guild
  and requests for its members (limit 1000), downloads only icons,
  splashes, emoji and avatars, consults the change detector only under
  the keys guild, channel, permoverwrite, role, emoji and user, writes
  only to channels/id/guild.tsv, and leaves every other file as it
  was. *)
Theorem X7_pullGuild_footprint (host : Host) (d : Session) (fuel : nat) (id : string)
      (cache : logutil.EntryCache) (w : World) :
let w' := world_of (logpull.pullGuild host d fuel id cache w) in
Forall (within (guild_alphabet id)) (new_events w w')
/\ forall name, name <> guild_file id ->
                files w' !! name = files w !! name.
Proof.
intros w'.
destruct (within_pullGuild (guild_alphabet id) host d id)
  with (fuel := fuel) (cache := cache) (w := w) as [Hadds Hframe];
  simpl; auto.
split; [|exact Hframe].
now apply (adds_new_events (Forall (within (guild_alphabet id)))).
Qed.

(** X8.  [Pull] for a channel does what [pullGuild] may do for the
  channel's guild and what [pullChannel] may do for the channel, and
  nothing else; every file other than the guild's and the channel's log
  file is as it was, however the call ends. *)
Theorem X8_Pull_footprint (host : Host) (d : Session) (fuel : nat) (c : Channel) (w : World) :
let w' := world_of (logpull.Pull host d fuel c w) in
Forall (within (either (guild_alphabet (Channel_GuildID c))
                       (channel_alphabet (Channel_GuildID c)
                          (Channel_ID c))))
       (new_events w w')
/\ forall name,
     name <> guild_file (Channel_GuildID c) ->
     name <> channel_file (Channel_GuildID c) (Channel_ID c) ->
     files w' !! name = files w !! name.
Proof.
intros w'.
set (A := either (guild_alphabet (Channel_GuildID c))
                 (channel_alphabet (Channel_GuildID c) (Channel_ID c))).
destruct (within_Pull A host d c) with (fuel := fuel) (w := w)
  as [Hadds Hframe]; simpl; auto.
split; [now apply (adds_new_events (Forall (within A)))|].
intros name Hg Hc. apply Hframe. simpl. tauto.
Qed.

(** X9.  The guild is synchronised by the first [Pull] of a run only:
  after a [Pull] for one channel of a guild that got past the creation
  of the directory, a [Pull] for a channel of the same guild stays within
  what [pullChannel] may do for that channel: no request for the guild
  or its members, no consultation of the change detector, no write to
  the guild's file. *)
Theorem X9_guild_synced_once (host : Host) (d : Session)
      (fuel1 fuel2 : nat) (c1 c2 : Channel)
      (w : World) :
Channel_GuildID c2 = Channel_GuildID c1 ->
Host_MkdirAll_fails host ("channels/" ++ Channel_GuildID c1) = false ->
let w1 := world_of (logpull.Pull host d fuel1 c1 w) in
let w2 := world_of (logpull.Pull host d fuel2 c2 w1) in
Forall (within (channel_alphabet (Channel_GuildID c2) (Channel_ID c2)))
       (new_events w1 w2)
/\ forall name,
     name <> channel_file (Channel_GuildID c2) (Channel_ID c2) ->
     files w2 !! name = files w1 !! name.
Proof.
intros Hsame Hdir w1 w2.
pose proof (gate_marked host d fuel1 c1 w Hdir) as Hgate.
fold w1 in Hgate. rewrite <- Hsame in Hgate.
set (A := channel_alphabet (Channel_GuildID c2) (Channel_ID c2)).
assert (stays_within A w1 w2) as [Hadds Hframe].
{ pose proof (within_preorder A) as HP.
  subst w2. unfold logpull.Pull.
  destruct (Host_MkdirAll_fails host ("channels/" ++ Channel_GuildID c2))
    eqn:Hmk.
  - assert (Hrun : os.MkdirAll host ("channels/" ++ Channel_GuildID c2) w1
                   = Done (Some "permission denied") w1).
    { unfold os.MkdirAll. now rewrite Hmk. }
    rewrite (bind_Done _ _ _ _ _ Hrun). cbv beta iota.
    now apply (within_log A).
  - assert (Hrun : os.MkdirAll host ("channels/" ++ Channel_GuildID c2) w1
                   = Done None w1).
    { unfold os.MkdirAll. now rewrite Hmk. }
    rewrite (bind_Done _ _ _ _ _ Hrun). cbv beta iota.
    assert (Hget : logpull.get_fetchedGuilds (Channel_GuildID c2) w1
                   = Done true w1).
    { unfold logpull.get_fetchedGuilds. now rewrite Hgate. }
    rewrite (bind_Done _ _ _ _ _ Hget). simpl negb. cbv iota.
    assert (Hret : (mret true : M bool) w1 = Done true w1) by reflexivity.
    rewrite (bind_Done _ _ _ _ _ Hret). simpl negb. cbv iota.
    apply (within_Pull_channel A host d c2); simpl; auto. }
split; [now apply (adds_new_events (Forall (within A)))|].
intros name Hname. apply Hframe. exact Hname.
Qed.

Lemma X9_guild_synced_once_witness :
let w1 := world_of (logpull.Pull host0 (session_of guild_two "0" [] [])
                      3 channel_A world0) in
let w2 := world_of (logpull.Pull host0 (session_of guild_two "0" [] [])
                      3 channel_B w1) in
Forall (within (channel_alphabet "G" "B")) (new_events w1 w2)
/\ forall name, name <> channel_file "G" "B" ->
                files w2 !! name = files w1 !! name.
Proof.
apply (X9_guild_synced_once host0 (session_of guild_two "0" [] [])
         3 3 channel_A channel_B world0); reflexivity.
Defined.


(** X10.  When the guild's directory cannot be created, [Pull] returns
  after one log line: no request is sent, no file is touched, and the
  guild is not entered in [fetchedGuilds]. *)
Theorem X10_Pull_without_directory (host : Host) (d : Session) (fuel : nat)
      (c : Channel) (w : World) :
Host_MkdirAll_fails host ("channels/" ++ Channel_GuildID c) = true ->
exists line,
  logpull.Pull host d fuel c w = Done tt (add_event (EvLog line) w).
Proof.
intros Hdir. eexists. unfold logpull.Pull.
assert (Hrun : os.MkdirAll host ("channels/" ++ Channel_GuildID c) w
               = Done (Some "permission denied") w).
{ unfold os.MkdirAll. now rewrite Hdir. }
rewrite (bind_Done _ _ _ _ _ Hrun). reflexivity.
Qed.

Lemma X10_Pull_without_directory_witness :
exists line,
  logpull.Pull host_nodir (session_of guild_two "0" [] []) 3 channel_A
    world0
  = Done tt (add_event (EvLog line) world0).
Proof.
apply (X10_Pull_without_directory host_nodir
         (session_of guild_two "0" [] []) 3 channel_A world0).
reflexivity.
Defined.

Lemma pullGuild_unopenable host d fuel id cache w :
Host_OpenFile_fails host (guild_file id) = true ->
exists line,
  logpull.pullGuild host d fuel id cache w
  = Done tt (add_event (EvLog line) w).
Proof.
intros Hopen. eexists. unfold logpull.pullGuild. fold (guild_file id).
assert (Hrun : os.OpenFile host (guild_file id) logpull.log_flag w
               = Done (None, Some "open failed") w).
{ unfold os.OpenFile. now rewrite Hopen. }
rewrite (bind_Done _ _ _ _ _ Hrun). reflexivity.
Qed.

Lemma pullChannel_unopenable host d fuel gid id after w :
Host_OpenFile_fails host (channel_file gid id) = true ->
exists line,
  logpull.pullChannel host d fuel gid id after w
  = Done tt (add_event (EvLog line) w).
Proof.
intros Hopen. eexists. unfold logpull.pullChannel.
fold (channel_file gid id).
assert (Hrun : os.OpenFile host (channel_file gid id) logpull.log_flag w
               = Done (None, Some "open failed") w).
{ unfold os.OpenFile. now rewrite Hopen. }
rewrite (bind_Done _ _ _ _ _ Hrun). reflexivity.
Qed.

Lemma Pull_channel_unopenable host d fuel c w :
Host_OpenFile_fails host
  (channel_file (Channel_GuildID c) (Channel_ID c)) = true ->
exists line,
  logpull.Pull_channel host d fuel c w
  = Done tt (add_event (EvLog line) w).
Proof.
intros Hopen. unfold logpull.Pull_channel.
fold (channel_file (Channel_GuildID c) (Channel_ID c)).
unfold mbind at 1, M_bind at 1, os.Stat.
destruct (files w !! channel_file (Channel_GuildID c) (Channel_ID c))
  as [rows|] eqn:Hf.
- unfold mbind, M_bind, logutil.LastMessageID. rewrite Hf.
  destruct (logutil.last_message rows None) as [last|].
  + now apply pullChannel_unopenable.
  + eexists. reflexivity.
- now apply pullChannel_unopenable.
Qed.

(** X11.  When neither log file can be opened, [Pull] returns without
  sending a request: it adds at most two log lines and nothing else,
  and the files are as they were. *)
Theorem X11_Pull_without_log_files (host : Host) (d : Session) (fuel : nat)
      (c : Channel) (w : World) :
Host_OpenFile_fails host (guild_file (Channel_GuildID c)) = true ->
Host_OpenFile_fails host
  (channel_file (Channel_GuildID c) (Channel_ID c)) = true ->
exists lines w',
  logpull.Pull host d fuel c w = Done tt w'
  /\ trace w' = (trace w ++ map EvLog lines)%list
  /\ (length lines <= 2)%nat
  /\ files w' = files w
  /\ requests w' = requests w.
Proof.
intros Hg Hc. unfold logpull.Pull.
unfold mbind at 1, M_bind at 1, os.MkdirAll.
destruct (Host_MkdirAll_fails host ("channels/" ++ Channel_GuildID c)).
{ eexists [_], _. split; [reflexivity|]. simpl. repeat split; lia. }
unfold mbind at 1, M_bind at 1, logpull.get_fetchedGuilds.
destruct (default false (fetchedGuilds w !! Channel_GuildID c)); simpl negb;
  cbv iota.
{ unfold mbind at 1, M_bind at 1. simpl.
  destruct (Pull_channel_unopenable host d fuel c w Hc) as (line & ->).
  eexists [line], _. split; [reflexivity|]. simpl. repeat split; lia. }
unfold logpull.Pull_guild, logpull.Pull_guild_sync.
fold (guild_file (Channel_GuildID c)).
set (w1 := set_fetchedGuilds
             (<[Channel_GuildID c := true]> (fetchedGuilds w)) w).
assert (Hput : logpull.put_fetchedGuilds (Channel_GuildID c) true w
               = Done tt w1) by reflexivity.
rewrite M_bind_assoc, (bind_Done _ _ _ _ _ Hput). rewrite M_bind_assoc.
assert (Hrest : forall cache, exists l1 l2,
           ((logpull.pullGuild host d fuel (Channel_GuildID c) cache;;
             mret true) ≫= fun go_on : bool =>
            if negb go_on then mret tt
            else logpull.Pull_channel host d fuel c) w1
           = Done tt (add_event (EvLog l2) (add_event (EvLog l1) w1))).
{ intros cache.
  destruct (pullGuild_unopenable host d fuel (Channel_GuildID c) cache w1 Hg)
    as (l1 & Hrun1).
  destruct (Pull_channel_unopenable host d fuel c
              (add_event (EvLog l1) w1) Hc) as (l2 & Hrun2).
  exists l1, l2. rewrite M_bind_assoc, (bind_Done _ _ _ _ _ Hrun1).
  unfold mbind at 1, M_bind at 1. simpl. exact Hrun2. }
destruct (files w !! guild_file (Channel_GuildID c)) as [rows|] eqn:Hfile.
- assert (Hstat : os.Stat (guild_file (Channel_GuildID c)) w1
                  = Done None w1).
  { unfold os.Stat. change (files w1) with (files w). now rewrite Hfile. }
  rewrite (bind_Done _ _ _ _ _ Hstat). cbv beta iota.
  assert (Hcache : logutil.GuildCache (guild_file (Channel_GuildID c)) ∅ w1
                   = Done (logutil.replay rows ∅) w1).
  { unfold logutil.GuildCache. change (files w1) with (files w).
    now rewrite Hfile. }
  rewrite M_bind_assoc, (bind_Done _ _ _ _ _ Hcache).
  destruct (logutil.replay rows ∅) as [cache [e|]]; cbv beta iota.
  + eexists [_], _. split; [reflexivity|]. simpl. repeat split; lia.
  + destruct (Hrest cache) as (l1 & l2 & ->).
    eexists [l1; l2], _. split; [reflexivity|]. simpl.
    rewrite <- app_assoc. repeat split; lia.
- assert (Hstat : os.Stat (guild_file (Channel_GuildID c)) w1
                  = Done (Some "no such file or directory") w1).
  { unfold os.Stat. change (files w1) with (files w). now rewrite Hfile. }
  rewrite (bind_Done _ _ _ _ _ Hstat). cbv beta iota.
  destruct (Hrest ∅) as (l1 & l2 & ->).
  eexists [l1; l2], _. split; [reflexivity|]. simpl.
  rewrite <- app_assoc. repeat split; lia.
Qed.

Lemma X11_Pull_without_log_files_witness :
exists lines w',
  logpull.Pull host_readonly (session_of guild_two "0" [] []) 3 channel_A
    world0 = Done tt w'
  /\ trace w' = (trace world0 ++ map EvLog lines)%list
  /\ (length lines <= 2)%nat
  /\ files w' = files world0
  /\ requests w' = requests world0.
Proof.
apply (X11_Pull_without_log_files host_readonly
         (session_of guild_two "0" [] []) 3 channel_A world0);
  reflexivity.
Defined.


(** A call of [pullChannel] that can open its file starts with the request
  for the messages after the cursor it was given. *)
Lemma pullChannel_start host d fuel gid id after w :
Host_OpenFile_fails host (channel_file gid id) = false ->
exists rest,
  new_events w
    (world_of (logpull.pullChannel host d (S fuel) gid id after w))
  = EvRequest (ReqChannelMessages id 100 "" after "") :: rest.
Proof.
intros Hopen.
destruct (OpenFile_ok host (channel_file gid id) w Hopen)
  as (w0 & Hrun0 & Ht0 & _).
unfold logpull.pullChannel. fold (channel_file gid id).
rewrite (bind_Done _ _ _ _ _ Hrun0). cbv beta iota.
simpl logpull.pullChannel_pages.
set (w1 := count_request
             (add_event
                (EvRequest (ReqChannelMessages id 100 "" after "")) w0)).
assert (Hrun : logpull.d_ChannelMessages d id 100 "" after "" w0
               = Done (Session_ChannelMessages d (requests w0) id 100 ""
                         after "") w1) by reflexivity.
rewrite (bind_Done _ _ _ _ _ Hrun).
destruct (Session_ChannelMessages d (requests w0) id 100 "" after "")
  as [msgs err].
destruct (within_pages_rest (channel_alphabet gid id) host d gid id)
  with (fuel := fuel) (after := after) (msgs := msgs) (err := err)
       (f := {| os.File_name := channel_file gid id;
                os.File_flag := logpull.log_flag |}) (w := w1)
  as [(evs & Ht & _) _]; simpl; auto.
eexists. apply new_events_app. rewrite Ht. unfold w1. simpl trace.
rewrite Ht0, <- app_assoc. reflexivity.
Qed.

(** X12.  Where [Pull] resumes.  With the guild already entered in
  [fetchedGuilds] and the directory and the channel's file usable, [Pull]
  starts with the request for the messages after "0" when the channel
  has no file, and after the id that [logutil.LastMessageID] finds (the
  id of the last message row) when it has one; when the file holds no
  message row, [Pull] logs one line and returns without a request. *)
Theorem X12_Pull_resume (host : Host) (d : Session) (fuel : nat)
      (c : Channel) (w : World) :
fetchedGuilds w !! Channel_GuildID c = Some true ->
Host_MkdirAll_fails host ("channels/" ++ Channel_GuildID c) = false ->
Host_OpenFile_fails host
  (channel_file (Channel_GuildID c) (Channel_ID c)) = false ->
let starts_after cursor :=
  exists rest,
    new_events w (world_of (logpull.Pull host d (S fuel) c w))
    = EvRequest (ReqChannelMessages (Channel_ID c) 100 "" cursor "")
      :: rest in
match files w !! channel_file (Channel_GuildID c) (Channel_ID c) with
| None => starts_after "0"
| Some rows =>
    match last (message_ids rows) with
    | Some id => starts_after id
    | None =>
        exists line,
          logpull.Pull host d (S fuel) c w
          = Done tt (add_event (EvLog line) w)
    end
end.
Proof.
intros Hgate Hdir Hopen starts_after.
assert (HPull : logpull.Pull host d (S fuel) c w
                = logpull.Pull_channel host d (S fuel) c w).
{ unfold logpull.Pull.
  assert (Hmk : os.MkdirAll host ("channels/" ++ Channel_GuildID c) w
                = Done None w).
  { unfold os.MkdirAll. now rewrite Hdir. }
  rewrite (bind_Done _ _ _ _ _ Hmk). cbv beta iota.
  assert (Hget : logpull.get_fetchedGuilds (Channel_GuildID c) w
                 = Done true w).
  { unfold logpull.get_fetchedGuilds. now rewrite Hgate. }
  rewrite (bind_Done _ _ _ _ _ Hget). simpl negb. cbv iota.
  assert (Hret : (mret true : M bool) w = Done true w) by reflexivity.
  now rewrite (bind_Done _ _ _ _ _ Hret). }
subst starts_after. cbv beta. rewrite HPull.
unfold logpull.Pull_channel.
fold (channel_file (Channel_GuildID c) (Channel_ID c)).
set (name := channel_file (Channel_GuildID c) (Channel_ID c)) in *.
destruct (files w !! name) as [rows|] eqn:Hfile.
- assert (Hstat : os.Stat name w = Done None w).
  { unfold os.Stat. now rewrite Hfile. }
  rewrite (bind_Done _ _ _ _ _ Hstat). cbv beta iota.
  pose proof (last_message_spec rows None) as Hlast.
  destruct (last (message_ids rows)) as [id|].
  + assert (Hid : logutil.LastMessageID name w = Done (id, None) w).
    { unfold logutil.LastMessageID. now rewrite Hfile, Hlast. }
    rewrite (bind_Done _ _ _ _ _ Hid). cbv beta iota.
    now apply pullChannel_start.
  + assert (Hid : logutil.LastMessageID name w
                  = Done ("", Some "no message found") w).
    { unfold logutil.LastMessageID. now rewrite Hfile, Hlast. }
    rewrite (bind_Done _ _ _ _ _ Hid). cbv beta iota.
    eexists. reflexivity.
- assert (Hstat : os.Stat name w
                  = Done (Some "no such file or directory") w).
  { unfold os.Stat. now rewrite Hfile. }
  rewrite (bind_Done _ _ _ _ _ Hstat). cbv beta iota.
  now apply pullChannel_start.
Qed.

Lemma X12_Pull_resume_witness :
(fetchedGuilds world_resumed !! "G" = Some true
 /\ Host_MkdirAll_fails host0 "channels/G" = false
 /\ Host_OpenFile_fails host0 file_C = false)
/\ exists rest,
    new_events world_resumed
      (world_of (logpull.Pull host0 (session_of (guild_of []) "5" [] [])
                   1 channel_C world_resumed))
    = EvRequest (ReqChannelMessages "C" 100 "" "5" "") :: rest.
Proof.
split; [repeat split; reflexivity|].
exact (X12_Pull_resume host0 (session_of (guild_of []) "5" [] []) 0
         channel_C world_resumed eq_refl eq_refl eq_refl).
Defined.



(** The loop over a page of members, each of which carries a user:
  it returns the id of the last member, and sends no request. *)
Lemma member_range_total host f id cache members after w :
os.File_flag f = logpull.log_flag ->
Forall (fun m => is_Some (Member_User m)) members ->
total (logpull.pullGuild_member_range host f id cache members after) w
  (fun a w' =>
     a = member_cursor members after
     /\ exists evs, trace w' = (trace w ++ evs)%list
                    /\ Forall no_request evs).
Proof.
intros Hf Hall. revert after w.
induction Hall as [|m rest [u Hu] Hrest IH]; intros after w.
- exists after, w. split; [reflexivity|]. split; [reflexivity|].
  exists []. split; [now rewrite app_nil_r|constructor].
- (* the avatar *)
  assert (Hav : exists w1 evs1,
             (if negb (String.eqb (User_Avatar u) "")
              then
                err ← cdndl.Avatar host u;
                match err with
                | Some e =>
                    log_Printf ("[" ++ id
                                ++ "] error downloading avatar for user "
                                ++ User_ID u ++ ": " ++ e)
                | None => mret tt
                end
              else mret tt) w = Done tt w1
             /\ trace w1 = (trace w ++ evs1)%list
             /\ Forall no_request evs1).
  { destruct (negb (String.eqb (User_Avatar u) "")).
    - unfold cdndl.Avatar, cdndl.download, mbind, M_bind.
      destruct (Host_download_fails host "avatar"
                  (User_ID u ++ "/" ++ User_Avatar u)).
      + eexists _, [_; _]. split; [reflexivity|]. simpl.
        rewrite <- app_assoc. split; [reflexivity|].
        repeat constructor.
      + eexists _, [_]. split; [reflexivity|]. simpl.
        split; [reflexivity|]. repeat constructor.
    - exists w, []. split; [reflexivity|]. rewrite app_nil_r.
      split; [reflexivity|constructor]. }
  destruct Hav as (w1 & evs1 & Hrun1 & Ht1 & He1).
  (* the row *)
  assert (HM : exists made,
             logentry.Make (Host_clock host (clock_reads w1)) "history"
               "add" (logentry.EMember m) = Ok made
             /\ logentry.made_log made = []).
  { unfold logentry.Make, logentry.fields. rewrite Hu.
    eexists. split; reflexivity. }
  destruct HM as (made & HM & Hlog).
  destruct (call_Make_Done host "history" "add" (logentry.EMember m)
              made w1 HM) as (w2 & Hrun2 & Ht2 & _).
  rewrite Hlog in Ht2.
  set (entry := logentry.made_row made) in *.
  destruct (write_if_changed_Done f cache "user" (User_ID u) entry w2 Hf)
    as (w3 & Hrun3 & Ht3).
  destruct (IH (User_ID u) w3) as (a & w4 & Hrun4 & Ha & evs4 & Ht4 & He4).
  exists a, w4. split.
  { simpl logpull.pullGuild_member_range. rewrite Hu.
    assert (Hd : deref (Some u) w = Done u w) by reflexivity.
    rewrite (bind_Done _ _ _ _ _ Hd).
    rewrite (bind_Done _ _ _ _ _ Hrun1).
    unfold logpull.logentry_User.
    rewrite (bind_Done _ _ _ _ _ Hrun2).
    unfold write_if_changed in Hrun3.
    rewrite <- M_bind_assoc, (bind_Done _ _ _ _ _ Hrun3). exact Hrun4. }
  split.
  { rewrite Ha. unfold member_cursor.
    destruct rest as [|m' rest']; [now simpl; rewrite Hu|].
    change (last (m :: m' :: rest')) with (last (m' :: rest')).
    inversion Hrest as [|? ? [u' Hu'] Hrest']; subst.
    destruct (last_is_Some (m' :: rest')) as [_ Hsome].
    destruct Hsome as [ml Hml]; [discriminate|].
    rewrite Hml. simpl.
    assert (is_Some (Member_User ml)) as [ul ->]; [|reflexivity].
    apply last_Some_elem_of in Hml.
    rewrite Forall_forall in Hrest. apply Hrest. exact Hml. }
  eexists. split.
  { rewrite Ht4, Ht3, Ht2, Ht1. simpl map. rewrite app_nil_r.
    rewrite <- !app_assoc. reflexivity. }
  apply Forall_app. split; [exact He1|].
  apply Forall_app. split; [|exact He4].
  destruct (logutil.Equals (logutil.index cache "user" (User_ID u)) entry);
    repeat constructor.
Qed.


(** X14.  How [pullGuild] pages through the members.  After a page of
  members (each carrying a user) it sends no request while it handles
  the page, and the next request it sends is for the members after the
  id of the page's last member, with the same guild and limit. *)
Theorem X14_member_cursor (host : Host) (d : Session) (fuel : nat)
      (f : os.File) (id after : string) (cache : logutil.EntryCache)
      (members : list Member) (w : World) :
os.File_flag f = logpull.log_flag ->
Session_GuildMembers d (requests w) id after 1000 = (members, None) ->
members <> [] ->
Forall (fun m => is_Some (Member_User m)) members ->
exists evs rest,
  new_events w
    (world_of (logpull.pullGuild_members host d (S (S fuel)) f id cache
                 after w))
  = (EvRequest (ReqGuildMembers id after 1000)
     :: evs
     ++ EvRequest (ReqGuildMembers id (member_cursor members after) 1000)
     :: rest)%list
  /\ Forall no_request evs.
Proof.
intros Hf Hresp Hne Hall.
change (logpull.pullGuild_members host d (S (S fuel)) f id cache after)
  with ('(members, err) ← logpull.d_GuildMembers d id after 1000;
        logpull.pullGuild_members_round host
          (logpull.pullGuild_members host d (S fuel) f id cache)
          f id cache after members err).
set (w1 := count_request
             (add_event (EvRequest (ReqGuildMembers id after 1000)) w)).
assert (Hrun : logpull.d_GuildMembers d id after 1000 w
               = Done (members, None) w1).
{ unfold logpull.d_GuildMembers. now rewrite Hresp. }
rewrite (bind_Done _ _ _ _ _ Hrun). cbv beta iota.
unfold logpull.pullGuild_members_round.
destruct members as [|m0 members0] eqn:Hmembers; [contradiction|].
rewrite <- Hmembers in *. replace (length members =? 0)%nat with false
  by now rewrite Hmembers.
destruct (member_range_total host f id cache members after w1 Hf Hall)
  as (a & w2 & Hrun2 & Ha & evs2 & Ht2 & He2).
rewrite (bind_Done _ _ _ _ _ Hrun2).
match goal with
| |- context [(log_Printf ?l ≫= _) w2] => set (line := l)
end.
assert (Hlog : log_Printf line w2 = Done tt (add_event (EvLog line) w2))
  by reflexivity.
rewrite (bind_Done _ _ _ _ _ Hlog).
destruct (members_start host d fuel f id cache a
            (add_event (EvLog line) w2) Hf) as (rest & Hrest).
pose proof (members_grows host d (S fuel) f id cache a
              (add_event (EvLog line) w2) Hf) as Hg.
exists (evs2 ++ [EvLog line])%list, rest. split.
- apply new_events_app.
  rewrite (grows_new_events _ _ Hg), Hrest, <- Ha. simpl trace.
  rewrite Ht2. unfold w1. simpl trace.
  now rewrite <- !app_assoc.
- apply Forall_app. split; [exact He2|repeat constructor].
Qed.

Lemma X14_member_cursor_witness :
(os.File_flag handle_G = logpull.log_flag
 /\ Session_GuildMembers session_members (requests world0) "G" "0" 1000
    = ([member_ba; member_u2], None))
/\ exists evs rest,
    new_events world0
      (world_of (logpull.pullGuild_members host0 session_members 2
                   handle_G "G" ∅ "0" world0))
    = (EvRequest (ReqGuildMembers "G" "0" 1000)
       :: evs ++ EvRequest (ReqGuildMembers "G" "u2" 1000) :: rest)%list
    /\ Forall no_request evs.
Proof.
split; [split; reflexivity|].
apply (X14_member_cursor host0 session_members 0 handle_G "G" "0" ∅
         [member_ba; member_u2] world0 eq_refl eq_refl).
- discriminate.
- repeat constructor; eexists; reflexivity.
Defined.

End Footprints.

(* ===================================================================== *)
(** ** The listing command                                                *)
(* ===================================================================== *)

Section Listing.
Import discordgo.
Variable flags : main.Flags.

Lemma proceeds_refl p : proceeds flags p p.
Proof.
  split; [|split; [|reflexivity]].
  - exists []. split; [now rewrite app_nil_r|constructor].
  - exists []. now rewrite app_nil_r.
Qed.

Lemma proceeds_trans p1 p2 p3 :
  proceeds flags p1 p2 -> proceeds flags p2 p3 -> proceeds flags p1 p3.
Proof.
  intros ((cs1 & Hc1 & Ha1) & (l1 & Ho1) & He1)
         ((cs2 & Hc2 & Ha2) & (l2 & Ho2) & He2).
  split; [|split].
  - exists (cs1 ++ cs2)%list. split; [|now apply Forall_app].
    now rewrite Hc2, Hc1, app_assoc.
  - exists (l1 ++ l2)%list. now rewrite Ho2, Ho1, app_assoc.
  - now rewrite He2.
Qed.

Lemma bind_Go {A B} (c : main.L A) (k : A -> main.L B) p a p' :
  c p = main.Go a p' -> main.bind c k p = k a p'.
Proof. unfold main.bind. now intros ->. Qed.

Lemma behaves_ret {A} (a : A) : behaves flags (main.ret a).
Proof. intros p. apply proceeds_refl. Qed.

Lemma behaves_bind {A B} (c : main.L A) (k : A -> main.L B) :
  behaves flags c -> (forall a, behaves flags (k a)) ->
  behaves flags (main.bind c k).
Proof.
  intros Hc Hk p. unfold main.bind. specialize (Hc p).
  destruct (c p) as [a p1|code p1|p1]; simpl in *; [|exact Hc..].
  specialize (Hk a p1).
  destruct (k a p1) as [b p2|code p2|p2]; simpl in *.
  - now apply proceeds_trans with p1.
  - destruct Hk as (q & Hq & Hend). exists q. split; [|exact Hend].
    now apply proceeds_trans with p1.
  - now apply proceeds_trans with p1.
Qed.

Lemma behaves_call {A} (c : main.Call) (answer : nat -> A) :
  allowed_call flags c ->
  behaves flags (fun p =>
    main.Go (answer (length (main.calls p)))
      {| main.calls := (main.calls p ++ [c])%list;
         main.stdout := main.stdout p; main.stderr := main.stderr p |}).
Proof.
  intros Hc p. simpl. split; [|split; [|reflexivity]].
  - exists [c]. split; [reflexivity|now constructor].
  - exists []. simpl. now rewrite app_nil_r.
Qed.

Lemma behaves_Println operands : behaves flags (main.fmt_Println operands).
Proof.
  intros p. simpl. split; [|split; [|reflexivity]].
  - exists []. simpl. split; [now rewrite app_nil_r|constructor].
  - eexists. reflexivity.
Qed.

Lemma behaves_Fatal {A} msg : behaves flags (@main.log_Fatal A msg).
Proof.
  intros p. simpl. exists p. split; [apply proceeds_refl|].
  right. split; [reflexivity|]. now exists msg.
Qed.

Lemma behaves_Exit {A} : behaves flags (@main.os_Exit A 0).
Proof.
  intros p. simpl. exists p. split; [apply proceeds_refl|]. now left.
Qed.

Lemma behaves_spent {A} : behaves flags (@main.spent A).
Proof. intros p. apply proceeds_refl. Qed.

Lemma behaves_for_range {A} (xs : list A) (body : A -> main.L unit) :
  (forall x, behaves flags (body x)) ->
  behaves flags (main.for_range xs body).
Proof.
  intros Hbody. induction xs as [|x xs IH]; simpl; [apply behaves_ret|].
  apply behaves_bind; [apply Hbody|]. intros _. exact IH.
Qed.

Variable d : main.Session.

Lemma behaves_list_guilds guilds gid :
  behaves flags (main.list_guilds flags d guilds gid).
Proof.
  revert gid. induction guilds as [|i rest IH]; intros gid; simpl;
    [apply behaves_ret|].
  destruct (negb (String.eqb (main.Arg0 flags) "")
            && negb (String.eqb (main.UserGuild_ID i) (main.Arg0 flags)))
    eqn:Hfilter; [apply IH|].
  apply behaves_bind; [apply behaves_Println|]. intros _.
  destruct (main.summary flags) eqn:Hsummary; [apply IH|].
  apply behaves_bind.
  - apply (behaves_call (main.CallGuildChannels (main.UserGuild_ID i))
             (fun n => main.Session_GuildChannels d n
                         (main.UserGuild_ID i))).
    split; [exact Hsummary|]. unfold passes.
    destruct (String.eqb (main.Arg0 flags) "");
      destruct (String.eqb (main.UserGuild_ID i) (main.Arg0 flags));
      simpl in *; congruence.
  - intros [gch [e|]]; [apply behaves_Fatal|].
    apply behaves_bind; [|intros _; apply IH].
    apply behaves_for_range. intros c. apply behaves_Println.
Qed.

Lemma behaves_list_pages fuel gid :
  behaves flags (main.list_pages fuel flags d gid).
Proof.
  revert gid. induction fuel as [|fuel IH]; intros gid; simpl;
    [apply behaves_spent|].
  apply behaves_bind.
  - apply (behaves_call (main.CallUserGuilds 100 "" gid)
             (fun n => main.Session_UserGuilds d n 100 "" gid)).
    now split.
  - intros [guilds [e|]]; [apply behaves_Fatal|].
    destruct (length guilds =? 0)%nat; [apply behaves_ret|].
    apply behaves_bind; [apply behaves_list_guilds|]. intros g. apply IH.
Qed.

(** What follows the request in a round of the loop. *)
Lemma behaves_page fuel gid guilds (err : option string) :
  behaves flags
    (match err with
     | Some e => main.log_Fatal ("error getting guilds:" ++ e)
     | None =>
         if (length guilds =? 0)%nat then main.ret tt
         else
           main.bind (main.list_guilds flags d guilds gid) (fun gid =>
           main.list_pages fuel flags d gid)
     end).
Proof.
  destruct err as [e|]; [apply behaves_Fatal|].
  destruct (length guilds =? 0)%nat; [apply behaves_ret|].
  apply behaves_bind; [apply behaves_list_guilds|]. intros g.
  apply behaves_list_pages.
Qed.

Lemma ends_well_calls {A} p (r : main.run A) :
  ends_well flags p r ->
  exists cs, main.calls (process_of r) = (main.calls p ++ cs)%list.
Proof.
  destruct r as [a p'|code p'|p']; simpl.
  - intros ((cs & Hc & _) & _). now exists cs.
  - intros (q & ((cs & Hc & _) & _) & [[_ ->]|[_ [msg ->]]]);
      now exists cs.
  - intros ((cs & Hc & _) & _). now exists cs.
Qed.

(** A round of the loop starts with the request for the guilds after
    the cursor. *)
Lemma pages_first_call fuel gid p :
  exists rest,
    main.calls (process_of (main.list_pages (S fuel) flags d gid p))
    = (main.calls p ++ main.CallUserGuilds 100 "" gid :: rest)%list.
Proof.
  simpl main.list_pages. unfold main.bind at 1, main.d_UserGuilds.
  set (p1 := {| main.calls :=
                  (main.calls p ++ [main.CallUserGuilds 100 "" gid])%list;
                main.stdout := main.stdout p;
                main.stderr := main.stderr p |}).
  destruct (main.Session_UserGuilds d (length (main.calls p)) 100 "" gid)
    as [guilds err].
  destruct (ends_well_calls p1 _ (behaves_page fuel gid guilds err p1))
    as (cs & Hcs).
  exists cs. rewrite Hcs. unfold p1. simpl. now rewrite <- app_assoc.
Qed.

Lemma filter_passes gid :
  negb (String.eqb (main.Arg0 flags) "")
  && negb (String.eqb gid (main.Arg0 flags))
  = negb (passes flags gid).
Proof. unfold passes. now rewrite negb_orb. Qed.

Lemma channels_printed (gch : list Channel) p :
  exists p',
    main.for_range gch main.list_channel p = main.Go tt p'
    /\ main.calls p' = main.calls p
    /\ main.stderr p' = main.stderr p.
Proof.
  revert p. induction gch as [|c gch IH]; intros p; simpl.
  - now exists p.
  - unfold main.bind. simpl.
    match goal with
    | |- context [main.for_range gch main.list_channel ?q] =>
        destruct (IH q) as (p' & Hrun & Hc & He)
    end.
    exists p'. now rewrite Hrun.
Qed.

(** The loop over a page when no request for channels fails: it goes
    on with the id of the page's last guild, whether or not that guild
    passes the filter; it makes requests for channels only; in summary
    mode it makes none and prints the lines of the guilds that pass. *)
Lemma list_guilds_total guilds gid p :
  (main.summary flags = false ->
   forall n g, snd (main.Session_GuildChannels d n g) = None) ->
  exists p' mid,
    main.list_guilds flags d guilds gid p
    = main.Go (guild_cursor guilds gid) p'
    /\ main.calls p' = (main.calls p ++ mid)%list
    /\ Forall is_channels_call mid
    /\ main.stderr p' = main.stderr p
    /\ (main.summary flags = true ->
        mid = []
        /\ main.stdout p'
           = (main.stdout p
              ++ map guild_line
                   (List.filter
                      (fun g => passes flags (main.UserGuild_ID g))
                      guilds))%list).
Proof.
  intros Hok. revert gid p.
  induction guilds as [|i rest IH]; intros gid p.
  - exists p, []. simpl. rewrite !app_nil_r.
    repeat split; constructor.
  - assert (Hcur : guild_cursor (i :: rest) gid
                   = guild_cursor rest (main.UserGuild_ID i)).
    { unfold guild_cursor. rewrite last_cons. now destruct (last rest). }
    rewrite Hcur. simpl main.list_guilds. rewrite filter_passes.
    simpl List.filter.
    destruct (passes flags (main.UserGuild_ID i)) eqn:Hpass; cbn [negb];
      cbv iota; [|apply IH].
    set (p1 := {| main.calls := main.calls p;
                  main.stdout :=
                    (main.stdout p
                     ++ [strings.Join
                           [main.UserGuild_ID i; main.UserGuild_Name i]
                           " "])%list;
                  main.stderr := main.stderr p |}).
    assert (Hp1 : main.fmt_Println
                    [main.UserGuild_ID i; main.UserGuild_Name i] p
                  = main.Go tt p1) by reflexivity.
    rewrite (bind_Go _ _ _ _ _ Hp1).
    destruct (main.summary flags) eqn:Hsummary.
    + destruct (IH (main.UserGuild_ID i) p1)
        as (p' & mid & Hrun & Hc & Hmid & He & Hout).
      exists p', mid. split; [exact Hrun|]. split; [exact Hc|].
      split; [exact Hmid|]. split; [exact He|]. intros _.
      destruct (Hout eq_refl) as [-> Hlines]. split; [reflexivity|].
      rewrite Hlines. unfold p1. simpl. now rewrite <- app_assoc.
    + set (p2 := {| main.calls :=
                      (main.calls p1
                       ++ [main.CallGuildChannels (main.UserGuild_ID i)])%list;
                    main.stdout := main.stdout p1;
                    main.stderr := main.stderr p1 |}).
      pose proof (Hok eq_refl (length (main.calls p1))
                    (main.UserGuild_ID i)) as Herr.
      assert (Hp2 : main.d_GuildChannels d (main.UserGuild_ID i) p1
                    = main.Go (main.Session_GuildChannels d
                                 (length (main.calls p1))
                                 (main.UserGuild_ID i)) p2)
        by reflexivity.
      rewrite (bind_Go _ _ _ _ _ Hp2).
      destruct (main.Session_GuildChannels d (length (main.calls p1))
                  (main.UserGuild_ID i)) as [gch err].
      simpl in Herr. subst err. cbv beta iota.
      destruct (channels_printed gch p2) as (p3 & Hrun3 & Hc3 & He3).
      rewrite (bind_Go _ _ _ _ _ Hrun3).
      destruct (IH (main.UserGuild_ID i) p3)
        as (p' & mid & Hrun & Hc & Hmid & He & _).
      exists p', (main.CallGuildChannels (main.UserGuild_ID i) :: mid).
      split; [exact Hrun|]. split.
      { rewrite Hc, Hc3. unfold p2, p1. simpl.
        now rewrite <- app_assoc. }
      split; [constructor; [exact I|exact Hmid]|].
      split; [now rewrite He, He3|]. discriminate.
Qed.

End Listing.

(** X15.  The listing command never returns to its caller: it exits, or
    is still paging when the fuel is spent.  It exits with the status 0
    having logged nothing, or with the status 1 having logged exactly one
    message.  Every call it makes is for a page of at most 100 guilds
    after some id or, when the summary is not asked for, for the channels
    of a guild that passes the filter of the command line. *)
Theorem X15_list_exits (fuel : nat) (flags : main.Flags) (d : main.Session)
        (p : main.Process) :
  ends_well flags p (main.list fuel flags d p)
  /\ forall (a : unit) p', main.list fuel flags d p <> main.Go a p'.
Proof.
  split.
  - apply behaves_bind; [apply behaves_list_pages|].
    intros _. apply behaves_Exit.
  - intros a p'. unfold main.list, main.bind.
    destruct (main.list_pages fuel flags d "" p); discriminate.
Qed.

(** X16.  A failed request for the guilds is fatal at once: [list] exits
    with the status 1 after logging the error, and prints nothing for the
    guilds that came with the error. *)
Theorem X16_list_guilds_error (fuel : nat) (flags : main.Flags)
        (d : main.Session) (p : main.Process)
        (guilds : list main.UserGuild) (e : string) :
  main.Session_UserGuilds d (length (main.calls p)) 100 "" ""
  = (guilds, Some e) ->
  exists msg,
    main.list (S fuel) flags d p
    = main.Stop 1
        {| main.calls := (main.calls p ++ [main.CallUserGuilds 100 "" ""])%list;
           main.stdout := main.stdout p;
           main.stderr := (main.stderr p ++ [msg])%list |}.
Proof.
  intros Hresp. eexists. unfold main.list, main.bind. simpl.
  unfold main.bind, main.d_UserGuilds. rewrite Hresp. reflexivity.
Qed.

Lemma X16_list_guilds_error_witness :
  main.Session_UserGuilds remote_failing (length (main.calls process0))
    100 "" "" = ([guild_g1], Some "unauthorized")
  /\ exists msg,
      main.list 1 {| main.Arg0 := ""; main.summary := false |}
        remote_failing process0
      = main.Stop 1
          {| main.calls := [main.CallUserGuilds 100 "" ""];
             main.stdout := [];
             main.stderr := [msg] |}.
Proof.
  split; [reflexivity|].
  exact (X16_list_guilds_error 0 {| main.Arg0 := ""; main.summary := false |}
           remote_failing process0 [guild_g1] "unauthorized" eq_refl).
Defined.


(** X17.  How [list] pages through the guilds.  Its first request is for
    the guilds after the empty id.  After a page of guilds, and as long as
    no request for channels fails, it makes requests for channels only,
    and its next request for guilds is for those after the id of the
    page's last guild, whether or not that guild passes the filter of the
    command line. *)
Theorem X17_list_cursor (fuel : nat) (flags : main.Flags) (d : main.Session)
        (p : main.Process) (guilds : list main.UserGuild) :
  main.Session_UserGuilds d (length (main.calls p)) 100 "" ""
  = (guilds, None) ->
  guilds <> [] ->
  (forall n g, snd (main.Session_GuildChannels d n g) = None) ->
  exists mid rest,
    new_calls p (process_of (main.list (S (S fuel)) flags d p))
    = (main.CallUserGuilds 100 "" ""
       :: mid
       ++ main.CallUserGuilds 100 "" (guild_cursor guilds "") :: rest)%list
    /\ Forall is_channels_call mid.
Proof.
  intros Hresp Hne Hok.
  assert (Hlist : process_of (main.list (S (S fuel)) flags d p)
                  = process_of (main.list_pages (S (S fuel)) flags d "" p)).
  { unfold main.list, main.bind.
    now destruct (main.list_pages (S (S fuel)) flags d "" p). }
  rewrite Hlist.
  change (main.list_pages (S (S fuel)) flags d "")
    with (main.bind (main.d_UserGuilds d 100 "" "") (fun '(guilds, err) =>
          match err with
          | Some e => main.log_Fatal ("error getting guilds:" ++ e)
          | None =>
              if (length guilds =? 0)%nat then main.ret tt
              else
                main.bind (main.list_guilds flags d guilds "") (fun gid =>
                main.list_pages (S fuel) flags d gid)
          end)).
  unfold main.bind at 1, main.d_UserGuilds. rewrite Hresp.
  set (p1 := {| main.calls :=
                  (main.calls p ++ [main.CallUserGuilds 100 "" ""])%list;
                main.stdout := main.stdout p;
                main.stderr := main.stderr p |}).
  replace (length guilds =? 0)%nat with false
    by (destruct guilds; [contradiction|reflexivity]).
  destruct (list_guilds_total flags d guilds "" p1 (fun _ => Hok))
    as (p2 & mid & Hrun & Hc & Hmid & _).
  unfold main.bind. rewrite Hrun.
  destruct (pages_first_call flags d fuel (guild_cursor guilds "") p2)
    as (rest & Hrest).
  exists mid, rest. split; [|exact Hmid].
  unfold new_calls. rewrite Hrest, Hc. unfold p1. simpl main.calls.
  rewrite <- !app_assoc. now rewrite drop_app_length.
Qed.

Lemma X17_list_cursor_witness :
  (main.Session_UserGuilds remote_two (length (main.calls process0))
     100 "" "" = ([guild_g1; guild_g2], None)
   /\ [guild_g1; guild_g2] <> []
   /\ forall n g, snd (main.Session_GuildChannels remote_two n g) = None)
  /\ exists mid rest,
      new_calls process0
        (process_of
           (main.list 2 {| main.Arg0 := "g1"; main.summary := false |}
              remote_two process0))
      = (main.CallUserGuilds 100 "" ""
         :: mid ++ main.CallUserGuilds 100 "" "g2" :: rest)%list
      /\ Forall is_channels_call mid.
Proof.
  split; [split; [reflexivity|split; [discriminate|reflexivity]]|].
  apply (X17_list_cursor 0 {| main.Arg0 := "g1"; main.summary := false |}
           remote_two process0 [guild_g1; guild_g2] eq_refl).
  - discriminate.
  - reflexivity.
Defined.

(** X18.  The summary.  With the flag -s, when the remote serves a page
    of guilds and then the empty page, [list] prints one line (id, space,
    name) for each guild of the page that passes the filter of the command
    line, in the page's order, makes the two requests for guilds and no
    request for channels, and exits with the status 0. *)
Theorem X18_list_summary (fuel : nat) (flags : main.Flags)
        (d : main.Session) (p : main.Process)
        (guilds : list main.UserGuild) :
  main.summary flags = true ->
  main.Session_UserGuilds d (length (main.calls p)) 100 "" ""
  = (guilds, None) ->
  guilds <> [] ->
  main.Session_UserGuilds d (S (length (main.calls p))) 100 ""
    (guild_cursor guilds "") = ([], None) ->
  main.list (S (S fuel)) flags d p
  = main.Stop 0
      {| main.calls :=
           (main.calls p
            ++ [main.CallUserGuilds 100 "" "";
                main.CallUserGuilds 100 "" (guild_cursor guilds "")])%list;
         main.stdout :=
           (main.stdout p
            ++ map guild_line
                 (List.filter (fun g => passes flags (main.UserGuild_ID g))
                    guilds))%list;
         main.stderr := main.stderr p |}.
Proof.
  intros Hsummary Hresp Hne Hempty.
  set (p1 := {| main.calls :=
                  (main.calls p ++ [main.CallUserGuilds 100 "" ""])%list;
                main.stdout := main.stdout p;
                main.stderr := main.stderr p |}).
  destruct (list_guilds_total flags d guilds "" p1)
    as (p2 & mid & Hrun & Hc & _ & He & Hout).
  { intros Hfalse. congruence. }
  destruct (Hout Hsummary) as [-> Hlines]. rewrite app_nil_r in Hc.
  set (p3 := {| main.calls :=
                  (main.calls p2
                   ++ [main.CallUserGuilds 100 ""
                         (guild_cursor guilds "")])%list;
                main.stdout := main.stdout p2;
                main.stderr := main.stderr p2 |}).
  assert (Hlast : main.list_pages (S fuel) flags d (guild_cursor guilds "") p2
                  = main.Go tt p3).
  { simpl main.list_pages.
    assert (H2 : main.d_UserGuilds d 100 "" (guild_cursor guilds "") p2
                 = main.Go ([], None) p3).
    { unfold main.d_UserGuilds. rewrite Hc. unfold p1. simpl main.calls.
      rewrite length_app. simpl length. rewrite Nat.add_1_r, Hempty.
      unfold p3. now rewrite Hc. }
    now rewrite (bind_Go _ _ _ _ _ H2). }
  assert (Hpages : main.list_pages (S (S fuel)) flags d "" p = main.Go tt p3).
  { change (main.list_pages (S (S fuel)) flags d "")
      with (main.bind (main.d_UserGuilds d 100 "" "") (fun '(guilds, err) =>
            match err with
            | Some e => main.log_Fatal ("error getting guilds:" ++ e)
            | None =>
                if (length guilds =? 0)%nat then main.ret tt
                else
                  main.bind (main.list_guilds flags d guilds "") (fun gid =>
                  main.list_pages (S fuel) flags d gid)
            end)).
    assert (H1 : main.d_UserGuilds d 100 "" "" p = main.Go (guilds, None) p1).
    { unfold main.d_UserGuilds. now rewrite Hresp. }
    rewrite (bind_Go _ _ _ _ _ H1). cbv beta iota.
    replace (length guilds =? 0)%nat with false
      by (destruct guilds; [contradiction|reflexivity]).
    now rewrite (bind_Go _ _ _ _ _ Hrun). }
  unfold main.list. rewrite (bind_Go _ _ _ _ _ Hpages).
  unfold main.os_Exit, p3. rewrite Hc, He, Hlines. unfold p1. simpl.
  now rewrite <- app_assoc.
Qed.

Lemma X18_list_summary_witness :
  (main.summary {| main.Arg0 := "g2"; main.summary := true |} = true
   /\ main.Session_UserGuilds remote_two (length (main.calls process0))
        100 "" "" = ([guild_g1; guild_g2], None)
   /\ main.Session_UserGuilds remote_two
        (S (length (main.calls process0))) 100 ""
        (guild_cursor [guild_g1; guild_g2] "") = ([], None))
  /\ main.list 2 {| main.Arg0 := "g2"; main.summary := true |}
       remote_two process0
     = main.Stop 0
         {| main.calls := [main.CallUserGuilds 100 "" "";
                           main.CallUserGuilds 100 "" "g2"];
            main.stdout := ["g2 two"];
            main.stderr := [] |}.
Proof.
  split; [repeat split; reflexivity|].
  apply (X18_list_summary 0 {| main.Arg0 := "g2"; main.summary := true |}
           remote_two process0 [guild_g1; guild_g2] eq_refl eq_refl).
  - discriminate.
  - reflexivity.
Defined.

Section FullListing.
Import discordgo.
Variable flags : main.Flags.
Variable d : main.Session.
Variable chans : string -> list Channel.
Hypothesis Hsummary : main.summary flags = false.
Hypothesis Hchans : forall n g,
  main.Session_GuildChannels d n g = (chans g, None).

Lemma channel_lines (gch : list Channel) p :
  main.for_range gch main.list_channel p
  = main.Go tt {| main.calls := main.calls p;
                  main.stdout :=
                    (main.stdout p ++ map channel_line gch)%list;
                  main.stderr := main.stderr p |}.
Proof.
  revert p. induction gch as [|c gch IH]; intros p; simpl.
  - rewrite app_nil_r. now destruct p.
  - unfold main.bind. simpl. rewrite IH. simpl.
    now rewrite <- app_assoc.
Qed.

Lemma list_guilds_output guilds gid p :
  main.list_guilds flags d guilds gid p
  = main.Go (guild_cursor guilds gid)
      {| main.calls :=
           (main.calls p
            ++ map (fun g => main.CallGuildChannels (main.UserGuild_ID g))
                 (shown flags guilds))%list;
         main.stdout :=
           (main.stdout p
            ++ flat_map
                 (fun g => guild_line g
                           :: map channel_line
                                (chans (main.UserGuild_ID g)))
                 (shown flags guilds))%list;
         main.stderr := main.stderr p |}.
Proof.
  revert gid p. induction guilds as [|i rest IH]; intros gid p.
  - simpl. rewrite !app_nil_r. now destruct p.
  - assert (Hcur : guild_cursor (i :: rest) gid
                   = guild_cursor rest (main.UserGuild_ID i)).
    { unfold guild_cursor. rewrite last_cons. now destruct (last rest). }
    rewrite Hcur. simpl main.list_guilds. rewrite filter_passes.
    unfold shown. simpl List.filter.
    destruct (passes flags (main.UserGuild_ID i)) eqn:Hpass; cbn [negb];
      cbv iota; [|apply IH].
    rewrite Hsummary.
    set (p1 := {| main.calls := main.calls p;
                  main.stdout :=
                    (main.stdout p
                     ++ [strings.Join
                           [main.UserGuild_ID i; main.UserGuild_Name i]
                           " "])%list;
                  main.stderr := main.stderr p |}).
    assert (Hp1 : main.fmt_Println
                    [main.UserGuild_ID i; main.UserGuild_Name i] p
                  = main.Go tt p1) by reflexivity.
    rewrite (bind_Go _ _ _ _ _ Hp1). cbv beta iota.
    set (p2 := {| main.calls :=
                    (main.calls p1
                     ++ [main.CallGuildChannels (main.UserGuild_ID i)])%list;
                  main.stdout := main.stdout p1;
                  main.stderr := main.stderr p1 |}).
    assert (Hp2 : main.d_GuildChannels d (main.UserGuild_ID i) p1
                  = main.Go (chans (main.UserGuild_ID i), None) p2).
    { unfold main.d_GuildChannels. now rewrite Hchans. }
    rewrite (bind_Go _ _ _ _ _ Hp2). cbv beta iota.
    rewrite (bind_Go _ _ _ _ _ (channel_lines _ p2)).
    rewrite IH. unfold p2, p1, shown, guild_line. simpl.
    f_equal. f_equal.
    + now rewrite <- app_assoc.
    + rewrite <- !app_assoc. reflexivity.
Qed.

End FullListing.

(** X19.  The full listing.  Without the flag -s, when the remote serves
    a page of guilds and then the empty page and lists the channels of
    every guild, [list] prints, for each guild of the page that passes the
    filter of the command line and in the page's order, the guild's line
    followed by one line for each of its channels in the order returned;
    it asks for the channels of exactly those guilds, between the two
    requests for guilds, and exits with the status 0. *)
Theorem X19_list_full (fuel : nat) (flags : main.Flags) (d : main.Session)
        (chans : string -> list discordgo.Channel) (p : main.Process)
        (guilds : list main.UserGuild) :
  main.summary flags = false ->
  main.Session_UserGuilds d (length (main.calls p)) 100 "" ""
  = (guilds, None) ->
  guilds <> [] ->
  (forall n, main.Session_UserGuilds d n 100 "" (guild_cursor guilds "")
             = ([], None)) ->
  (forall n g, main.Session_GuildChannels d n g = (chans g, None)) ->
  main.list (S (S fuel)) flags d p
  = main.Stop 0
      {| main.calls :=
           (main.calls p
            ++ main.CallUserGuilds 100 "" ""
            :: map (fun g => main.CallGuildChannels (main.UserGuild_ID g))
                 (shown flags guilds)
            ++ [main.CallUserGuilds 100 "" (guild_cursor guilds "")])%list;
         main.stdout :=
           (main.stdout p
            ++ flat_map
                 (fun g => guild_line g
                           :: map channel_line (chans (main.UserGuild_ID g)))
                 (shown flags guilds))%list;
         main.stderr := main.stderr p |}.
Proof.
  intros Hsummary Hresp Hne Hempty Hchans.
  set (p1 := {| main.calls :=
                  (main.calls p ++ [main.CallUserGuilds 100 "" ""])%list;
                main.stdout := main.stdout p;
                main.stderr := main.stderr p |}).
  pose proof (list_guilds_output flags d chans Hsummary Hchans guilds "" p1)
    as Hrun.
  match type of Hrun with _ = main.Go _ ?q => set (p2 := q) in * end.
  set (p3 := {| main.calls :=
                  (main.calls p2
                   ++ [main.CallUserGuilds 100 ""
                         (guild_cursor guilds "")])%list;
                main.stdout := main.stdout p2;
                main.stderr := main.stderr p2 |}).
  assert (Hlast : main.list_pages (S fuel) flags d (guild_cursor guilds "") p2
                  = main.Go tt p3).
  { simpl main.list_pages.
    assert (H2 : main.d_UserGuilds d 100 "" (guild_cursor guilds "") p2
                 = main.Go ([], None) p3).
    { unfold main.d_UserGuilds. now rewrite Hempty. }
    now rewrite (bind_Go _ _ _ _ _ H2). }
  assert (Hpages : main.list_pages (S (S fuel)) flags d "" p = main.Go tt p3).
  { change (main.list_pages (S (S fuel)) flags d "")
      with (main.bind (main.d_UserGuilds d 100 "" "") (fun '(guilds, err) =>
            match err with
            | Some e => main.log_Fatal ("error getting guilds:" ++ e)
            | None =>
                if (length guilds =? 0)%nat then main.ret tt
                else
                  main.bind (main.list_guilds flags d guilds "") (fun gid =>
                  main.list_pages (S fuel) flags d gid)
            end)).
    assert (H1 : main.d_UserGuilds d 100 "" "" p = main.Go (guilds, None) p1).
    { unfold main.d_UserGuilds. now rewrite Hresp. }
    rewrite (bind_Go _ _ _ _ _ H1). cbv beta iota.
    replace (length guilds =? 0)%nat with false
      by (destruct guilds; [contradiction|reflexivity]).
    now rewrite (bind_Go _ _ _ _ _ Hrun). }
  unfold main.list. rewrite (bind_Go _ _ _ _ _ Hpages).
  unfold main.os_Exit, p3, p2, p1. simpl. f_equal. f_equal.
  now rewrite <- !app_assoc.
Qed.

Lemma X19_list_full_witness :
  (main.summary {| main.Arg0 := "g2"; main.summary := false |} = false
   /\ main.Session_UserGuilds remote_two (length (main.calls process0))
        100 "" "" = ([guild_g1; guild_g2], None)
   /\ (forall n, main.Session_UserGuilds remote_two n 100 ""
                   (guild_cursor [guild_g1; guild_g2] "") = ([], None)))
  /\ main.list 2 {| main.Arg0 := "g2"; main.summary := false |}
       remote_two process0
     = main.Stop 0
         {| main.calls := [main.CallUserGuilds 100 "" "";
                           main.CallGuildChannels "g2";
                           main.CallUserGuilds 100 "" "g2"];
            main.stdout :=
              ["g2 two";
               channel_line (channel_of "g2" "c1" 0 []);
               channel_line (channel_of "g2" "c2" 2 [])];
            main.stderr := [] |}.
Proof.
  split; [repeat split; reflexivity|].
  apply (X19_list_full 0 {| main.Arg0 := "g2"; main.summary := false |}
           remote_two
           (fun gid => [channel_of gid "c1" 0 []; channel_of gid "c2" 2 []])
           process0 [guild_g1; guild_g2] eq_refl eq_refl).
  - discriminate.
  - reflexivity.
  - reflexivity.
Defined.

(* ===================================================================== *)
(** ** The order in which the guild is synchronised                       *)
(* ===================================================================== *)

Section GuildOrder.
Import discordgo.
Variable host : Host.

Lemma consulted_app evs1 evs2 :
  consulted (evs1 ++ evs2) = (consulted evs1 ++ consulted evs2)%list.
Proof. apply omap_app. Qed.

Lemma flat_map_singleton {A B} (g : A -> B) (l : list A) :
  flat_map (fun x => [g x]) l = map g l.
Proof. induction l as [|x l IH]; simpl; [reflexivity|now rewrite IH]. Qed.

Lemma consulted_logs lines : consulted (map EvLog lines) = [].
Proof. induction lines; simpl; auto. Qed.

Lemma says_ret {A} (a : A) : says [] (mret a).
Proof.
  intros w. apply total_ret. exists []. now rewrite app_nil_r.
Qed.

Lemma says_bind {A B} k1 k2 (c : M A) (f : A -> M B) :
  says k1 c -> (forall a, says k2 (f a)) -> says (k1 ++ k2) (c ≫= f).
Proof.
  intros Hc Hf w. apply total_bind.
  eapply total_mono; [apply Hc|]. intros a w1 (evs1 & Ht1 & H1).
  eapply total_mono; [apply Hf|]. intros b w2 (evs2 & Ht2 & H2).
  exists (evs1 ++ evs2)%list. split.
  - rewrite Ht2, Ht1. now rewrite app_assoc.
  - now rewrite consulted_app, H1, H2.
Qed.

Lemma says_quiet {A B} k (c : M A) (f : A -> M B) :
  says [] c -> (forall a, says k (f a)) -> says k (c ≫= f).
Proof. intros Hc Hf. now apply (says_bind [] k). Qed.

Lemma says_for_range {A} (key : A -> list (string * string))
      (xs : list A) (body : A -> M unit) :
  (forall x, In x xs -> says (key x) (body x)) ->
  says (flat_map key xs) (for_range xs body).
Proof.
  induction xs as [|x xs IH]; simpl; intros H; [apply says_ret|].
  apply says_bind; [apply H; now left|].
  intros _. apply IH. intros y Hy. apply H. now right.
Qed.

Lemma says_deref {A B} keys (a : A) (f : A -> M B) :
  says keys (f a) -> says keys (deref (Some a) ≫= f).
Proof.
  intros H w. destruct (H w) as (b & w' & Hrun & HQ).
  exists b, w'. split; [exact Hrun|exact HQ].
Qed.

Lemma says_log line : says [] (log_Printf line).
Proof.
  intros w. exists tt, (add_event (EvLog line) w).
  split; [reflexivity|]. now exists [EvLog line].
Qed.

Lemma says_download kind locator :
  says [] (cdndl.download host kind locator).
Proof.
  intros w. eexists _, _. split; [reflexivity|].
  now exists [EvDownload kind locator].
Qed.

(** A download whose failure is logged. *)
Lemma says_media kind locator (report : string -> string) :
  says [] (err ← cdndl.download host kind locator;
           match err with
           | Some e => log_Printf (report e)
           | None => mret tt
           end).
Proof.
  apply (says_bind [] []); [apply says_download|].
  intros [e|]; [apply says_log|apply says_ret].
Qed.

(** An entity that the encoder accepts, encoded, passed to the change
    detector under [tag] and [key], and written if it differs. *)
Lemma says_detect f cache tag key v :
  os.File_flag f = logpull.log_flag ->
  (forall now, exists made, logentry.Make now "history" "add" v = Ok made) ->
  says [(tag, key)]
    (entry ← logpull.call_Make host "history" "add" v;
     same ← logpull.Equals cache tag key entry;
     if negb same then logformat.Write f entry else mret tt).
Proof.
  intros Hf Hv w.
  destruct (Hv (Host_clock host (clock_reads w))) as (made & HM).
  destruct (call_Make_Done host _ _ _ made w HM) as (w1 & Hrun1 & Ht1 & _).
  destruct (write_if_changed_Done f cache tag key
              (logentry.made_row made) w1 Hf) as (w2 & Hrun2 & Ht2).
  exists tt, w2. split.
  - rewrite (bind_Done _ _ _ _ _ Hrun1). exact Hrun2.
  - eexists. split; [rewrite Ht2, Ht1, <- app_assoc; reflexivity|].
    rewrite consulted_app, consulted_logs. simpl.
    now destruct (logutil.Equals _ _).
Qed.

Lemma detect_then {B} (a : M Row) (b : Row -> M bool)
      (wr : Row -> bool -> M unit) (r : M B) w :
  (entry ← a; same ← b entry; wr entry same;; r) w
  = ((entry ← a; same ← b entry; wr entry same) ≫= fun _ => r) w.
Proof.
  unfold mbind, M_bind. destruct (a w) as [e w1| |]; try reflexivity.
  destruct (b e w1); reflexivity.
Qed.

Lemma says_detect_then {B} f cache tag key v keys (r : M B) :
  os.File_flag f = logpull.log_flag ->
  (forall now, exists made, logentry.Make now "history" "add" v = Ok made) ->
  says keys r ->
  says ((tag, key) :: keys)
    (entry ← logpull.call_Make host "history" "add" v;
     same ← logpull.Equals cache tag key entry;
     (if negb same then logformat.Write f entry else mret tt);;
     r).
Proof.
  intros Hf Hv Hr w.
  destruct (says_bind [(tag, key)] keys _ (fun _ => r)
              (says_detect f cache tag key v Hf Hv) (fun _ => Hr) w)
    as (b & w' & Hrun & H).
  exists b, w'. split; [|exact H].
  rewrite <- Hrun. apply (detect_then _ _ (fun entry same => _)).
Qed.

Variable d : Session.

Lemma says_overwrite f cache o :
  os.File_flag f = logpull.log_flag ->
  known_overwrite_type (PermissionOverwrite_Type o) = true ->
  says [("permoverwrite", PermissionOverwrite_ID o)]
    (logpull.pullGuild_overwrite host f cache o).
Proof.
  intros Hf Hknown. apply says_detect; [exact Hf|]. intros now.
  unfold logentry.Make, logentry.fields.
  unfold known_overwrite_type in Hknown.
  apply bool_decide_eq_true in Hknown.
  apply elem_of_cons in Hknown as [->|Hknown]; [eexists; reflexivity|].
  apply list_elem_of_singleton in Hknown as ->. eexists; reflexivity.
Qed.

Lemma says_channel f cache c :
  os.File_flag f = logpull.log_flag ->
  forallb (fun o => known_overwrite_type (PermissionOverwrite_Type o))
    (Channel_PermissionOverwrites c) = true ->
  says (("channel", Channel_ID c)
        :: map (fun o => ("permoverwrite", PermissionOverwrite_ID o))
             (Channel_PermissionOverwrites c))
    (logpull.pullGuild_channel host f cache c).
Proof.
  intros Hf Hknown. unfold logpull.pullGuild_channel.
  apply says_detect_then; [exact Hf| |].
  - intros now. eexists. reflexivity.
  - rewrite <- flat_map_singleton.
    apply says_for_range. intros o Ho. apply says_overwrite; [exact Hf|].
    rewrite forallb_forall in Hknown. now apply Hknown.
Qed.

Lemma says_role f cache r :
  os.File_flag f = logpull.log_flag ->
  says [("role", Role_ID r)] (logpull.pullGuild_role host f cache r).
Proof.
  intros Hf. apply says_detect; [exact Hf|]. intros now.
  eexists. reflexivity.
Qed.

Lemma says_emoji f id cache e :
  os.File_flag f = logpull.log_flag ->
  says [("emoji", Emoji_ID e)] (logpull.pullGuild_emoji host f id cache e).
Proof.
  intros Hf. unfold logpull.pullGuild_emoji, cdndl.Emoji.
  apply (says_bind [] [("emoji", Emoji_ID e)]); [apply says_download|].
  intros err.
  apply (says_bind [] [("emoji", Emoji_ID e)]).
  { destruct err; [apply says_log|apply says_ret]. }
  intros _. apply says_detect; [exact Hf|]. intros now.
  eexists. reflexivity.
Qed.

Lemma says_guild f id cache g :
  os.File_flag f = logpull.log_flag ->
  says [("guild", id)] (logpull.pullGuild_guild host f id cache (Some g)).
Proof.
  intros Hf. unfold logpull.pullGuild_guild.
  apply says_deref.
  apply (says_bind [] [("guild", id)]).
  { destruct (negb (String.eqb (Guild_Icon g) ""));
      [apply says_media|apply says_ret]. }
  intros _. apply (says_bind [] [("guild", id)]).
  { destruct (negb (String.eqb (Guild_Splash g) ""));
      [apply says_media|apply says_ret]. }
  intros _. apply says_detect; [exact Hf|]. intros now.
  eexists. reflexivity.
Qed.

(** The member loop when the guild has no members. *)
Lemma says_no_members fuel f id cache :
  (forall n, Session_GuildMembers d n id "0" 1000 = ([], None)) ->
  says [] (logpull.pullGuild_members host d (S fuel) f id cache "0").
Proof.
  intros Hempty w. simpl logpull.pullGuild_members.
  set (w1 := count_request
               (add_event (EvRequest (ReqGuildMembers id "0" 1000)) w)).
  assert (Hrun : logpull.d_GuildMembers d id "0" 1000 w
                 = Done ([], None) w1).
  { unfold logpull.d_GuildMembers. now rewrite Hempty. }
  exists tt, w1. split; [now rewrite (bind_Done _ _ _ _ _ Hrun)|].
  now exists [EvRequest (ReqGuildMembers id "0" 1000)].
Qed.

Lemma says_loops fuel f id cache g :
  os.File_flag f = logpull.log_flag ->
  overwrites_known g = true ->
  (forall n, Session_GuildMembers d n id "0" 1000 = ([], None)) ->
  says (tail (guild_keys id g))
    (logpull.pullGuild_loops host d (S fuel) f id cache (Some g)).
Proof.
  intros Hf Hknown Hempty. unfold logpull.pullGuild_loops, guild_keys.
  simpl tail.
  apply says_deref.
  apply says_bind.
  { apply says_for_range. intros c Hc. apply says_channel; [exact Hf|].
    unfold overwrites_known in Hknown. rewrite forallb_forall in Hknown.
    now apply Hknown. }
  intros _. apply says_bind.
  { rewrite <- flat_map_singleton. apply says_for_range.
    intros r _. now apply says_role. }
  intros _.
  rewrite <- (app_nil_r (map _ (Guild_Emojis g))).
  apply says_bind.
  { rewrite <- flat_map_singleton. apply says_for_range.
    intros e _. now apply says_emoji. }
  intros _. now apply says_no_members.
Qed.

End GuildOrder.

(** X20.  The order in which [pullGuild] synchronises a guild.  When the
    log file can be opened, the guild is fetched, every permission
    overwrite has a known type and the guild has no members, [pullGuild]
    returns, and it has consulted the change detector about the guild
    (under the id it was called with), then about each channel followed by
    that channel's permission overwrites, then about each role, then about
    each emoji, each under its own id and in the order of the guild's
    lists. *)
Theorem X20_pullGuild_order (host : Host) (d : discordgo.Session)
        (fuel : nat) (id : string) (cache : logutil.EntryCache)
        (g : discordgo.Guild) (w : World) :
  Host_OpenFile_fails host (guild_file id) = false ->
  discordgo.Session_Guild d (requests w) id = (Some g, None) ->
  overwrites_known g = true ->
  (forall n, discordgo.Session_GuildMembers d n id "0" 1000 = ([], None)) ->
  exists w',
    logpull.pullGuild host d (S fuel) id cache w = Done tt w'
    /\ consulted (new_events w w') = guild_keys id g.
Proof.
  intros Hopen Hguild Hknown Hempty.
  destruct (OpenFile_ok host (guild_file id) w Hopen)
    as (w0 & Hrun0 & Ht0 & Hr0).
  set (f := {| os.File_name := guild_file id;
               os.File_flag := logpull.log_flag |}) in *.
  set (w1 := count_request (add_event (EvRequest (ReqGuild id)) w0)).
  assert (Hrun1 : logpull.d_Guild d id w0 = Done (Some g, None) w1).
  { unfold logpull.d_Guild. now rewrite Hr0, Hguild. }
  destruct (says_bind [("guild", id)] (tail (guild_keys id g))
              (logpull.pullGuild_guild host f id cache (Some g))
              (fun _ => logpull.pullGuild_loops host d (S fuel) f id cache
                          (Some g))
              (says_guild host f id cache g eq_refl)
              (fun _ => says_loops host d fuel f id cache g eq_refl Hknown
                          Hempty) w1)
    as ([] & w' & Hrun & evs & Ht & Hkeys).
  exists w'. split.
  - unfold logpull.pullGuild. fold (guild_file id).
    rewrite (bind_Done _ _ _ _ _ Hrun0). cbv beta iota.
    rewrite (bind_Done _ _ _ _ _ Hrun1). cbv beta iota. exact Hrun.
  - rewrite (new_events_app w w' (EvRequest (ReqGuild id) :: evs)).
    + exact Hkeys.
    + rewrite Ht. unfold w1. simpl trace. rewrite Ht0.
      now rewrite <- app_assoc.
Qed.

Lemma X20_pullGuild_order_witness :
  (Host_OpenFile_fails host0 (guild_file "G") = false
   /\ discordgo.Session_Guild (session_of guild_two "0" [] [])
        (requests world0) "G" = (Some guild_two, None)
   /\ overwrites_known guild_two = true)
  /\ exists w',
      logpull.pullGuild host0 (session_of guild_two "0" [] []) 1 "G" ∅
        world0 = Done tt w'
      /\ consulted (new_events world0 w')
         = [("guild", "G"); ("channel", "A"); ("permoverwrite", "R");
            ("channel", "B"); ("permoverwrite", "R")].
Proof.
  split; [repeat split; reflexivity|].
  exact (X20_pullGuild_order host0 (session_of guild_two "0" [] []) 0 "G" ∅
           guild_two world0 eq_refl eq_refl eq_refl (fun n => eq_refl)).
Defined.

(** X21.  A guild file that cannot be replayed.  When the guild is not yet
    entered in [fetchedGuilds] and the replay of its file fails, [Pull]
    enters the guild, logs one line and returns: no request is sent,
    nothing is written, and the channel is not pulled. *)
Theorem X21_Pull_unreadable_guild_log (host : Host) (d : discordgo.Session)
        (fuel : nat) (c : discordgo.Channel) (rows : list Row)
        (cache : logutil.EntryCache) (e : string) (w : World) :
  Host_MkdirAll_fails host ("channels/" ++ discordgo.Channel_GuildID c)
  = false ->
  default false (fetchedGuilds w !! discordgo.Channel_GuildID c) = false ->
  files w !! guild_file (discordgo.Channel_GuildID c) = Some rows ->
  logutil.replay rows ∅ = (cache, Some e) ->
  exists line,
    logpull.Pull host d fuel c w
    = Done tt
        (add_event (EvLog line)
           (set_fetchedGuilds
              (<[discordgo.Channel_GuildID c := true]> (fetchedGuilds w))
              w)).
Proof.
  intros Hdir Hgate Hfile Hreplay. eexists. unfold logpull.Pull.
  assert (Hmk : os.MkdirAll host ("channels/" ++ discordgo.Channel_GuildID c)
                  w = Done None w).
  { unfold os.MkdirAll. now rewrite Hdir. }
  rewrite (bind_Done _ _ _ _ _ Hmk). cbv beta iota.
  assert (Hget : logpull.get_fetchedGuilds (discordgo.Channel_GuildID c) w
                 = Done false w).
  { unfold logpull.get_fetchedGuilds. now rewrite Hgate. }
  rewrite (bind_Done _ _ _ _ _ Hget). simpl negb. cbv iota.
  unfold logpull.Pull_guild, logpull.Pull_guild_sync.
  fold (guild_file (discordgo.Channel_GuildID c)).
  set (w1 := set_fetchedGuilds
               (<[discordgo.Channel_GuildID c := true]> (fetchedGuilds w)) w).
  assert (Hput : logpull.put_fetchedGuilds (discordgo.Channel_GuildID c)
                   true w = Done tt w1) by reflexivity.
  rewrite M_bind_assoc, (bind_Done _ _ _ _ _ Hput). rewrite M_bind_assoc.
  assert (Hstat : os.Stat (guild_file (discordgo.Channel_GuildID c)) w1
                  = Done None w1).
  { unfold os.Stat. change (files w1) with (files w). now rewrite Hfile. }
  rewrite (bind_Done _ _ _ _ _ Hstat). cbv beta iota.
  assert (Hcache : logutil.GuildCache
                     (guild_file (discordgo.Channel_GuildID c)) ∅ w1
                   = Done (cache, Some e) w1).
  { unfold logutil.GuildCache. change (files w1) with (files w).
    now rewrite Hfile, Hreplay. }
  rewrite M_bind_assoc, (bind_Done _ _ _ _ _ Hcache). cbv beta iota.
  reflexivity.
Qed.

Lemma X21_Pull_unreadable_guild_log_witness :
  (Host_MkdirAll_fails host0 ("channels/" ++ discordgo.Channel_GuildID channel_C)
   = false
   /\ default false
        (fetchedGuilds world_corrupt !! discordgo.Channel_GuildID channel_C)
      = false
   /\ files world_corrupt !! guild_file (discordgo.Channel_GuildID channel_C)
      = Some [["not a log entry"]]
   /\ logutil.replay [["not a log entry"]] ∅ = (∅, Some "malformed log entry"))
  /\ exists line,
      logpull.Pull host0 (session_of (guild_of []) "0" [] []) 3 channel_C
        world_corrupt
      = Done tt
          (add_event (EvLog line)
             (set_fetchedGuilds
                (<["G" := true]> (fetchedGuilds world_corrupt))
                world_corrupt)).
Proof.
  split; [repeat split; reflexivity|].
  exact (X21_Pull_unreadable_guild_log host0
           (session_of (guild_of []) "0" [] []) 3 channel_C
           [["not a log entry"]] ∅ "malformed log entry" world_corrupt
           eq_refl eq_refl eq_refl eq_refl).
Defined.
